(** * SwaggerAPISample: the sample synthesizers, the request builder, the
      executor's dispatch and the listing aggregator's record count

    A shallow embedding of [swagger_API.py] and [generate_filelist_json.py].

    Python values are the values [json.load] produces.  A Python [str] is
    modelled by its UTF-8 bytes (a Stdlib [string]): every pattern and every
    search text used by the two programs is ASCII, and UTF-8 never encodes
    a non-ASCII code point with an ASCII byte, so matching, searching and
    replacing on bytes agrees with Python's on code points.  A [dict] is an
    association list in insertion order with distinct keys. *)

From Stdlib Require Import ZArith List Bool Lia Arith.
From Stdlib Require Import Strings.String Strings.Ascii Numbers.DecimalString.
Import ListNotations.

Open Scope string_scope.

(* ================================================================== *)
(** * Python values, exceptions and the builtin operations the code uses *)
(* ================================================================== *)

Module Py.

(** The exceptions the modelled code can raise. *)
Inductive exn : Type :=
| IndexError
| KeyError
| TypeError
| AttributeError.

(** The outcome of running a piece of the program.  [OutOfFuel] is reported
    by the recursive synthesizer when its call budget is spent; [Unmodelled]
    marks the few Python behaviours this development does not follow (see
    [SwaggerAPI.build_request_for_operation]). *)
Inductive result (A : Type) : Type :=
| Ret (a : A)
| Raise (e : exn)
| Unmodelled
| OutOfFuel.

Arguments Ret {A} a.
Arguments Raise {A} e.
Arguments Unmodelled {A}.
Arguments OutOfFuel {A}.

Definition bind {A B : Type} (m : result A) (f : A -> result B) : result B :=
  match m with
  | Ret a => f a
  | Raise e => Raise e
  | Unmodelled => Unmodelled
  | OutOfFuel => OutOfFuel
  end.

#[local] Set Warnings "-register-all".

(** What [json.load] yields.  A float is kept as its binary64 bit pattern. *)
Inductive pyval : Type :=
| PNone
| PBool (b : bool)
| PInt (z : Z)
| PFloat (bits : Z)
| PStr (s : string)
| PList (l : list pyval)
| PDict (d : list (string * pyval)).

(** Truth value testing ([if x:], [not x], [x or y]). *)
Definition truthy (v : pyval) : bool :=
  match v with
  | PNone => false
  | PBool b => b
  | PInt z => negb (z =? 0)%Z
  | PFloat bits => negb (Z.land bits (2 ^ 63 - 1) =? 0)%Z
  | PStr s => negb (s =? "")
  | PList l => match l with [] => false | _ :: _ => true end
  | PDict d => match d with [] => false | _ :: _ => true end
  end.

Definition is_list (v : pyval) : bool :=
  match v with PList _ => true | _ => false end.

Definition is_dict (v : pyval) : bool :=
  match v with PDict _ => true | _ => false end.

Definition is_none (v : pyval) : bool :=
  match v with PNone => true | _ => false end.

(** [v == s] for a string literal [s]: only a [str] equals a [str]. *)
Definition eq_str (v : pyval) (s : string) : bool :=
  match v with PStr s' => (s' =? s) | _ => false end.

(** ** Dictionaries *)

Fixpoint lookup (k : string) (d : list (string * pyval)) : option pyval :=
  match d with
  | [] => None
  | (k', v) :: d' => if (k' =? k) then Some v else lookup k d'
  end.

(** [d[k] = v]: an existing key keeps its position, a new one goes last. *)
Fixpoint dict_set (k : string) (v : pyval) (d : list (string * pyval))
  : list (string * pyval) :=
  match d with
  | [] => [(k, v)]
  | (k', v') :: d' =>
      if (k' =? k) then (k, v) :: d' else (k', v') :: dict_set k v d'
  end.

(** [x.get(k, default)]; only a [dict] has the method. *)
Definition get (x : pyval) (k : string) (default : pyval) : result pyval :=
  match x with
  | PDict d => Ret (match lookup k d with Some v => v | None => default end)
  | _ => Raise AttributeError
  end.

(** [x.items()]. *)
Definition items (x : pyval) : result (list (string * pyval)) :=
  match x with
  | PDict d => Ret d
  | _ => Raise AttributeError
  end.

(** [x[k]] for a [str] subscript [k]. *)
Definition getitem (x : pyval) (k : string) : result pyval :=
  match x with
  | PDict d => match lookup k d with Some v => Ret v | None => Raise KeyError end
  | _ => Raise TypeError
  end.

(** [x[0]] on a list. *)
Definition first (x : list pyval) : result pyval :=
  match x with
  | [] => Raise IndexError
  | v :: _ => Ret v
  end.

(** ** Strings *)

(** [s.startswith(lit)] *)
Fixpoint starts_with (lit s : string) : bool :=
  match lit with
  | EmptyString => true
  | String c lit' =>
      match s with
      | EmptyString => false
      | String c' s' => Ascii.eqb c c' && starts_with lit' s'
      end
  end.

(** [sub in s] on two [str]. *)
Fixpoint occurs (sub s : string) : bool :=
  if starts_with sub s then true
  else match s with
       | EmptyString => false
       | String _ s' => occurs sub s'
       end.

(** [k in x] for a [str] [k]: key membership in a [dict], element equality
    in a [list], substring test in a [str]; other values are not
    containers. *)
Definition contains (k : string) (x : pyval) : result bool :=
  match x with
  | PDict d => Ret (match lookup k d with Some _ => true | None => false end)
  | PList l => Ret (existsb (fun v => eq_str v k) l)
  | PStr s => Ret (occurs k s)
  | _ => Raise TypeError
  end.

(** [s.replace(old, new)]: the non-overlapping occurrences of [old], found
    left to right, become [new].  [skip] counts the characters of a matched
    occurrence still to be passed over. *)
Fixpoint replace_from (old new : string) (skip : nat) (s : string) : string :=
  match s with
  | EmptyString => EmptyString
  | String c s' =>
      match skip with
      | S n => replace_from old new n s'
      | O =>
          if starts_with old s
          then new ++ replace_from old new (length old - 1) s'
          else String c (replace_from old new 0 s')
      end
  end.

(** With an empty [old], [new] is inserted before every character and at
    the end. *)
Fixpoint intersperse (new s : string) : string :=
  match s with
  | EmptyString => new
  | String c s' => new ++ String c (intersperse new s')
  end.

Definition replace (old new s : string) : string :=
  if (old =? "") then intersperse new s else replace_from old new 0 s.

(** [s.lstrip(chars)] for a one-character [chars]. *)
Fixpoint lstrip (c : ascii) (s : string) : string :=
  match s with
  | EmptyString => EmptyString
  | String c' s' => if Ascii.eqb c' c then lstrip c s' else s
  end.

Definition is_lower (c : ascii) : bool :=
  (97 <=? nat_of_ascii c)%nat && (nat_of_ascii c <=? 122)%nat.

Definition is_upper (c : ascii) : bool :=
  (65 <=? nat_of_ascii c)%nat && (nat_of_ascii c <=? 90)%nat.

Definition is_digit (c : ascii) : bool :=
  (48 <=? nat_of_ascii c)%nat && (nat_of_ascii c <=? 57)%nat.

(** [s.upper()] and [s.lower()] on the ASCII letters; other bytes are kept
    (the case mappings of non-ASCII letters are not modelled: the code
    applies them to HTTP method names). *)
Fixpoint upper (s : string) : string :=
  match s with
  | EmptyString => EmptyString
  | String c s' =>
      String (if is_lower c then ascii_of_nat (nat_of_ascii c - 32) else c)
             (upper s')
  end.

Fixpoint lower (s : string) : string :=
  match s with
  | EmptyString => EmptyString
  | String c s' =>
      String (if is_upper c then ascii_of_nat (nat_of_ascii c + 32) else c)
             (lower s')
  end.

(** Decimal text of an [int]. *)
Definition str_of_int (z : Z) : string :=
  NilZero.string_of_int (Z.to_int z).

End Py.

Import Py.

Declare Scope py_scope.
Delimit Scope py_scope with py.
Notation "x <- m ;; k" := (bind m (fun x => k))
  (at level 61, m at next level, right associativity) : py_scope.
Open Scope py_scope.

(* ================================================================== *)
(** * The fragment of Python's [re] the programs use *)
(* ================================================================== *)

Module Re.

(** Patterns.  Quantifiers are greedy and alternatives are tried in order,
    as in Python's backtracking matcher. *)
Inductive regex : Type :=
| Lit (s : string)            (* literal text *)
| Cls (p : ascii -> bool)     (* one character of a class *)
| Cat (r1 r2 : regex)         (* r1 r2 *)
| Alt (r1 r2 : regex)         (* r1|r2 *)
| Opt (r : regex)             (* r? *)
| Plus (p : ascii -> bool)    (* [class]+ *)
| Group (r : regex)           (* (r), the pattern's capturing group *)
| Eos.                        (* $ *)

(** [s] without the prefix [lit], when it has it. *)
Fixpoint strip_prefix (lit s : string) : option string :=
  match lit with
  | EmptyString => Some s
  | String c lit' =>
      match s with
      | EmptyString => None
      | String c' s' => if Ascii.eqb c c' then strip_prefix lit' s' else None
      end
  end.

(** As many class characters as possible, then the continuation; on
    failure one character is given back at a time. *)
Fixpoint many {A : Type} (p : ascii -> bool) (s : string)
         (k : string -> option A) : option A :=
  match s with
  | EmptyString => k EmptyString
  | String c s' =>
      if p c
      then match many p s' k with
           | Some a => Some a
           | None => k s
           end
      else k s
  end.

Definition newline : ascii := ascii_of_nat 10.

(** [run r s g k] matches [r] at the start of [s]; [g] is the text captured
    so far and [k] is what remains to be matched.  The first success in
    Python's search order is returned. *)
Fixpoint run {A : Type} (r : regex) (s : string) (g : option string)
         (k : string -> option string -> option A) : option A :=
  match r with
  | Lit lit =>
      match strip_prefix lit s with
      | Some s' => k s' g
      | None => None
      end
  | Cls p =>
      match s with
      | String c s' => if p c then k s' g else None
      | EmptyString => None
      end
  | Cat r1 r2 => run r1 s g (fun s' g' => run r2 s' g' k)
  | Alt r1 r2 =>
      match run r1 s g k with
      | Some a => Some a
      | None => run r2 s g k
      end
  | Opt r1 =>
      match run r1 s g k with
      | Some a => Some a
      | None => k s g
      end
  | Plus p =>
      match s with
      | String c s' => if p c then many p s' (fun rest => k rest g) else None
      | EmptyString => None
      end
  | Group r1 =>
      run r1 s g
          (fun s' _ => k s' (Some (substring 0 (length s - length s') s)))
  | Eos =>
      (* the end of the string, or just before a newline that ends it *)
      match s with
      | EmptyString => k s g
      | String c EmptyString => if Ascii.eqb c newline then k s g else None
      | _ => None
      end
  end.

(** A successful match: the unconsumed rest and the captured group. *)
Definition match_at (r : regex) (s : string) : option (string * option string) :=
  run r s None (fun rest g => Some (rest, g)).

(** [re.match(r, s)] reduced to what the caller reads: [m.group(1)], or the
    empty text when the pattern captured nothing; [None] when there is no
    match. *)
Definition re_match (r : regex) (s : string) : option string :=
  match match_at r s with
  | Some (_, Some g) => Some g
  | Some (_, None) => Some EmptyString
  | None => None
  end.

(** [re.search(r, s)] as a truth value: is there a match at some position. *)
Fixpoint re_search (r : regex) (s : string) : bool :=
  match match_at r s with
  | Some _ => true
  | None =>
      match s with
      | EmptyString => false
      | String _ s' => re_search r s'
      end
  end.

(** [re.sub(r, repl, s)] for a literal [repl]: scanning left to right, each
    match is replaced and scanning resumes after it; an empty match is
    replaced and the next character copied.  [fuel] bounds the number of
    scanning steps. *)
Fixpoint sub_from (fuel : nat) (r : regex) (repl s : string) : string :=
  match fuel with
  | O => s
  | S fuel' =>
      match match_at r s with
      | Some (rest, _) =>
          if (length rest <? length s)%nat
          then repl ++ sub_from fuel' r repl rest
          else match s with
               | EmptyString => repl
               | String c s' => repl ++ String c (sub_from fuel' r repl s')
               end
      | None =>
          match s with
          | EmptyString => EmptyString
          | String c s' => String c (sub_from fuel' r repl s')
          end
      end
  end.

Definition re_sub (r : regex) (repl s : string) : string :=
  sub_from (S (length s)) r repl s.

End Re.

Import Re.

(* ================================================================== *)
(** * swagger_API.py *)
(* ================================================================== *)

(** What the program takes from its environment and from libraries that are
    not part of it: the clock read by [datetime.utcnow()] (one instant per
    run of a function), [urllib.parse.urljoin], and [repr] of floats, lists
    and dicts (what [str] prints for them). *)
Class Runtime : Type := {
  utcnow_strftime_Ymd : string;
  utcnow_isoformat : string;
  urljoin : string -> string -> string;
  repr : pyval -> string
}.

(** A runtime to evaluate the functions with: a fixed instant, and stand-ins
    for the two library functions that are right where the examples use
    them (a base ending in a slash joined with a plain relative path; no
    float, list or dict printed). *)
Definition example_runtime : Runtime := {|
  utcnow_strftime_Ymd := "20240102";
  utcnow_isoformat := "2024-01-02T03:04:05.000006";
  urljoin := fun base reference => base ++ reference;
  repr := fun _ => "..."
|}.

Module SwaggerAPI.

Section Samplers.

Context {rt : Runtime}.

Definition GLOBAL_HEADERS : list (string * pyval) :=
  [("Accept", PStr "application/json")].

Definition ALLOWED_METHODS : list string := ["get"].

(** [r"\\d"]: a backslash followed by the letter d. *)
Definition digit_escape : regex := Lit "\d".

(** [re.search(r, x)] with an argument that may not be a [str]. *)
Definition search (r : regex) (x : pyval) : result bool :=
  match x with
  | PStr s => Ret (re_search r s)
  | _ => Raise TypeError
  end.

(** [re.match(r, x)], likewise. *)
Definition rmatch (r : regex) (x : pyval) : result (option string) :=
  match x with
  | PStr s => Ret (re_match r s)
  | _ => Raise TypeError
  end.

(** ** [sample_for_type] *)

Definition sample_for_type (param : pyval) : result pyval :=
  if negb (truthy param) then Ret (PStr "sample") else
  has_enum <- contains "enum" param ;;
  use_enum <- (if has_enum
               then e <- getitem param "enum" ;; Ret (is_list e && truthy e)
               else Ret false) ;;
  if use_enum then
    e <- getitem param "enum" ;;
    match e with PList l => first l | _ => Raise TypeError end
  else
  t <- get param "type" (PStr "string") ;;
  fmt <- get param "format" (PStr "") ;;
  if eq_str t "integer" || eq_str t "number" then Ret (PInt 1) else
  if eq_str t "boolean" then Ret (PBool true) else
  if eq_str fmt "date" then Ret (PStr utcnow_strftime_Ymd) else
  if eq_str fmt "date-time" then Ret (PStr (utcnow_isoformat ++ "Z")) else
  has_pattern <- contains "pattern" param ;;
  if has_pattern then
    pat <- getitem param "pattern" ;;
    found <- search digit_escape pat ;;
    if found then Ret (PStr "123") else Ret (PStr "sample")
  else Ret (PStr "sample").

(** ** [make_sample_body_from_schema] *)

Definition not_slash (c : ascii) : bool := negb (Ascii.eqb c "/").

(** [r"#/?(?:definitions|components/schemas)?/([^/]+)$"] *)
Definition ref_pattern : regex :=
  Cat (Lit "#")
 (Cat (Opt (Lit "/"))
 (Cat (Opt (Alt (Lit "definitions") (Lit "components/schemas")))
 (Cat (Lit "/")
 (Cat (Group (Plus not_slash))
      Eos)))).

(** The one-character string holding a double quote. *)
Definition dquote : string := String (ascii_of_nat 34) EmptyString.

(** [for k, v in props.items(): obj[k] = f(v)] *)
Fixpoint fill_properties (f : pyval -> result pyval)
         (props obj : list (string * pyval)) : result (list (string * pyval)) :=
  match props with
  | [] => Ret obj
  | (k, v) :: props' =>
      x <- f v ;;
      fill_properties f props' (dict_set k x obj)
  end.

(** [fuel] bounds the depth of nested calls; Python itself has no bound
    other than its stack. *)
Fixpoint make_sample_body_from_schema (fuel : nat) (schema definitions : pyval)
  : result pyval :=
  match fuel with
  | O => OutOfFuel
  | S fuel' =>
    if negb (truthy schema) then Ret (PDict []) else
    has_ref <- contains "$ref" schema ;;
    if has_ref then
      ref <- getitem schema "$ref" ;;
      m <- rmatch ref_pattern ref ;;
      match m with
      | Some key =>
          if truthy definitions then
            sub1 <- get definitions key PNone ;;
            sub <- (if truthy sub1 then Ret sub1
                    else get definitions (replace dquote "" key) PNone) ;;
            if truthy sub
            then make_sample_body_from_schema fuel' sub definitions
            else Ret (PDict [])
          else Ret (PDict [])
      | None => Ret (PDict [])
      end
    else
    t0 <- get schema "type" PNone ;;
    implied <- (if truthy t0 then Ret false else contains "properties" schema) ;;
    let t := if implied then PStr "object" else t0 in
    if eq_str t "object" then
      props <- get schema "properties" (PDict []) ;;
      kvs <- items props ;;
      obj <- fill_properties
               (fun v => make_sample_body_from_schema fuel' v definitions)
               kvs [] ;;
      Ret (PDict obj)
    else
    if eq_str t "array" then
      its <- get schema "items" (PDict []) ;;
      x <- make_sample_body_from_schema fuel' its definitions ;;
      Ret (PList [x])
    else
    if eq_str t "integer" || eq_str t "number" then Ret (PInt 1) else
    if eq_str t "boolean" then Ret (PBool true) else
    fmt <- get schema "format" (PStr "") ;;
    if eq_str fmt "date" then Ret (PStr utcnow_strftime_Ymd) else
    if eq_str fmt "date-time" then Ret (PStr (utcnow_isoformat ++ "Z")) else
    has_enum <- contains "enum" schema ;;
    use_enum <- (if has_enum
                 then e <- getitem schema "enum" ;; Ret (is_list e)
                 else Ret false) ;;
    if use_enum then
      e <- getitem schema "enum" ;;
      match e with PList l => first l | _ => Raise TypeError end
    else
    ex <- get schema "example" PNone ;;
    Ret (if truthy ex then ex else PStr "sample")
  end.

End Samplers.

(** ** [sanitize_filename] and the per-endpoint file name *)

Definition filename_char (c : ascii) : bool :=
  is_digit c || is_upper c || is_lower c
  || Ascii.eqb c "." || Ascii.eqb c "_" || Ascii.eqb c "-".

(** [r"[^0-9A-Za-z._-]+"] *)
Definition unsafe_run : regex := Plus (fun c => negb (filename_char c)).

Definition sanitize_filename (name : string) : string :=
  re_sub unsafe_run "_" name.

(** [f"{method.upper()}_{sanitize_filename(path)}.json"] *)
Definition output_filename (method path : string) : string :=
  upper method ++ "_" ++ sanitize_filename path ++ ".json".

(** ** [list_operations] *)

Definition LISTED_METHODS : list string :=
  ["get"; "post"; "put"; "patch"; "delete"].

Definition one_of (s : string) (l : list string) : bool :=
  existsb (fun x => x =? s) l.

Fixpoint list_methods (path : string) (methods : list (string * pyval))
  : list (string * string * pyval) :=
  match methods with
  | [] => []
  | (method, op) :: rest =>
      if one_of (lower method) LISTED_METHODS
      then (path, lower method, op) :: list_methods path rest
      else list_methods path rest
  end.

Fixpoint list_paths (paths : list (string * pyval))
  : result (list (string * string * pyval)) :=
  match paths with
  | [] => Ret []
  | (path, methods) :: rest =>
      ms <- items methods ;;
      ops <- list_paths rest ;;
      Ret (list_methods path ms ++ ops)%list
  end.

Definition list_operations (swagger : pyval)
  : result (list (string * string * pyval)) :=
  paths <- get swagger "paths" (PDict []) ;;
  ps <- items paths ;;
  list_paths ps.

(** ** [build_request_for_operation] *)

Section Builder.

Context {rt : Runtime}.

(** [str(x)] *)
Definition str (x : pyval) : string :=
  match x with
  | PStr s => s
  | PInt z => str_of_int z
  | PBool true => "True"
  | PBool false => "False"
  | PNone => "None"
  | _ => repr x
  end.

(** The request the builder returns: the dict with keys [url], [method],
    [headers], [params] and [json]. *)
Record request : Type := {
  url : string;
  method : string;
  headers : list (string * pyval);
  params : list (string * pyval);
  json : pyval
}.

(** The local variables the loop over the parameters updates.  [fresh]
    records that [body] is a dict the builder itself created for form
    fields, which no other object aliases. *)
Record locals : Type := {
  l_url : string;
  l_params : list (string * pyval);
  l_headers : list (string * pyval);
  l_body : pyval;
  l_fresh : bool
}.

(** [for p in parameters]: what iterating a value yields.  A dict yields
    its keys and a str its characters (here its bytes; the loop body raises
    on the first of them either way). *)
Definition iterate (x : pyval) : result (list pyval) :=
  match x with
  | PList l => Ret l
  | PDict d => Ret (map (fun kv => PStr (fst kv)) d)
  | PStr s => Ret (map (fun c => PStr (String c EmptyString))
                       (list_ascii_of_string s))
  | _ => Raise TypeError
  end.

(** A parameter name used as a dict key.  A list or dict is unhashable; the
    other non-[str] names ([None], numbers) are legal keys in Python but
    not in the string-keyed dicts of this model. *)
Definition as_key (name : pyval) : result string :=
  match name with
  | PStr n => Ret n
  | PList _ | PDict _ => Raise TypeError
  | _ => Unmodelled
  end.

(** [body[name] = sample] when [body] is not [None].  Assigning into a dict
    or list that came from the document would mutate the document in
    place, which this model does not follow. *)
Definition set_form_field (st : locals) (name sample : pyval) : result locals :=
  match l_body st with
  | PDict d =>
      key <- as_key name ;;
      if l_fresh st
      then Ret {| l_url := l_url st; l_params := l_params st;
                  l_headers := l_headers st;
                  l_body := PDict (dict_set key sample d); l_fresh := true |}
      else Unmodelled
  | PList _ =>
      match name with
      | PInt _ | PBool _ => Unmodelled
      | _ => Raise TypeError
      end
  | _ => Raise TypeError
  end.

(** Lines 179-183: the sample value of one parameter. *)
Definition parameter_sample (fuel : nat) (definitions p : pyval) : result pyval :=
  has_schema <- contains "schema" p ;;
  if has_schema
  then sch <- getitem p "schema" ;;
       make_sample_body_from_schema fuel sch definitions
  else sample_for_type p.

(** One pass of the loop body, lines 177-197. *)
Definition add_parameter (fuel : nat) (definitions : pyval)
           (st : locals) (p : pyval) : result locals :=
  p_in <- get p "in" PNone ;;
  name <- get p "name" PNone ;;
  sample <- parameter_sample fuel definitions p ;;
  if eq_str p_in "path" then
    match name with
    | PStr n =>
        Ret {| l_url := replace ("{" ++ n ++ "}") (str sample) (l_url st);
               l_params := l_params st; l_headers := l_headers st;
               l_body := l_body st; l_fresh := l_fresh st |}
    | _ => Raise TypeError
    end
  else if eq_str p_in "query" then
    key <- as_key name ;;
    Ret {| l_url := l_url st; l_params := dict_set key sample (l_params st);
           l_headers := l_headers st;
           l_body := l_body st; l_fresh := l_fresh st |}
  else if eq_str p_in "header" then
    key <- as_key name ;;
    Ret {| l_url := l_url st; l_params := l_params st;
           l_headers := dict_set key sample (l_headers st);
           l_body := l_body st; l_fresh := l_fresh st |}
  else if eq_str p_in "body" then
    Ret {| l_url := l_url st; l_params := l_params st;
           l_headers := l_headers st;
           l_body := sample; l_fresh := false |}
  else if eq_str p_in "formData" then
    if is_none (l_body st)
    then set_form_field {| l_url := l_url st; l_params := l_params st;
                           l_headers := l_headers st;
                           l_body := PDict []; l_fresh := true |}
                        name sample
    else set_form_field st name sample
  else Ret st.

Fixpoint add_parameters (fuel : nat) (definitions : pyval)
         (st : locals) (ps : list pyval) : result locals :=
  match ps with
  | [] => Ret st
  | p :: ps' =>
      st' <- add_parameter fuel definitions st p ;;
      add_parameters fuel definitions st' ps'
  end.

(** Lines 166-172: Swagger 2 [definitions], overridden by OpenAPI 3
    [components.schemas]. *)
Definition find_definitions (swagger : pyval) : result pyval :=
  has_defs <- contains "definitions" swagger ;;
  defs <- (if has_defs then getitem swagger "definitions"
           else Ret (PDict [])) ;;
  has_comp <- contains "components" swagger ;;
  has_schemas <- (if has_comp
                  then c <- getitem swagger "components" ;;
                       contains "schemas" c
                  else Ret false) ;;
  if has_schemas
  then c <- getitem swagger "components" ;; getitem c "schemas"
  else Ret defs.

(** Lines 200-211: the body synthesized from an OpenAPI 3 [requestBody]. *)
Definition request_body (fuel : nat) (definitions operation body : pyval)
  : result pyval :=
  has_rb <- contains "requestBody" operation ;;
  if has_rb then
    rb <- getitem operation "requestBody" ;;
    content <- get rb "content" (PDict []) ;;
    has_json <- contains "application/json" content ;;
    if has_json then
      entry <- getitem content "application/json" ;;
      schema <- get entry "schema" PNone ;;
      make_sample_body_from_schema fuel schema definitions
    else
      kvs <- items content ;;
      match kvs with
      | [] => Ret body
      | (_, v) :: _ =>
          schema <- get v "schema" PNone ;;
          make_sample_body_from_schema fuel schema definitions
      end
  else Ret body.

Definition build_request_for_operation (fuel : nat)
           (base_url path method : string) (operation swagger : pyval)
  : result request :=
  let url0 := urljoin (base_url ++ "/") (lstrip "/" path) in
  definitions <- find_definitions swagger ;;
  parameters <- get operation "parameters" (PList []) ;;
  ps <- iterate parameters ;;
  st <- add_parameters fuel definitions
          {| l_url := url0; l_params := []; l_headers := GLOBAL_HEADERS;
             l_body := PNone; l_fresh := false |} ps ;;
  body <- request_body fuel definitions operation (l_body st) ;;
  Ret {| url := l_url st; method := upper method;
         headers := l_headers st; params := l_params st; json := body |}.

End Builder.

(** ** [execute_request] *)

(** The calls into the [requests] library. *)
Inductive verb : Type := GET | POST | PUT | DELETE.

(** One call: the verb, the URL, the headers, the query parameters and,
    for POST and PUT, the JSON body. *)
Record http_call : Type := {
  c_verb : verb;
  c_url : string;
  c_headers : list (string * pyval);
  c_params : list (string * pyval);
  c_json : option pyval
}.

(** What a call comes back with: a [requests.RequestException] with its
    message, or a response with its status, headers, text and, when the
    text parses as JSON, the parsed value. *)
Inductive http_reply : Type :=
| Failed (message : string)
| Response (status_code : Z) (hdrs : list (string * pyval))
           (parsed : option pyval) (text : string).

Section Executor.

(** The remote hosts. *)
Variable network : http_call -> http_reply.

(** Lines 235-242. *)
Definition read_reply (r : http_reply) : pyval :=
  match r with
  | Failed message => PDict [("error", PStr message)]
  | Response status_code hdrs parsed text =>
      PDict [("status_code", PInt status_code);
             ("headers", PDict hdrs);
             ("body", match parsed with Some v => v | None => PStr text end)]
  end.

(** The result together with the calls made, in order. *)
Definition execute_request (req : request)
  : list http_call * pyval :=
  let call v j := {| c_verb := v; c_url := url req;
                     c_headers := headers req; c_params := params req;
                     c_json := j |} in
  if (method req =? "GET") then
    ([call GET None], read_reply (network (call GET None)))
  else if (method req =? "POST") then
    ([call POST (Some (json req))],
     read_reply (network (call POST (Some (json req)))))
  else if (method req =? "PUT") then
    ([call PUT (Some (json req))],
     read_reply (network (call PUT (Some (json req)))))
  else if (method req =? "DELETE") then
    ([call DELETE None], read_reply (network (call DELETE None)))
  else
    ([], PDict [("error", PStr ("Unsupported method " ++ method req))]).

End Executor.

(** ** [get_source_dir_name] *)

Definition dirname_char (c : ascii) : bool :=
  is_digit c || is_upper c || is_lower c
  || Ascii.eqb c "_" || Ascii.eqb c "-".

(** [r"[^0-9A-Za-z_-]+"] *)
Definition unsafe_dir_run : regex := Plus (fun c => negb (dirname_char c)).

Definition get_source_dir_name (swagger_url : string) : string :=
  if occurs "twse" swagger_url then "twse"
  else if occurs "tpex" swagger_url then "tpex"
  else if occurs "taifex" swagger_url then "taifex"
  else re_sub unsafe_dir_run "_" swagger_url.

(** ** The main program: the base URL and the loop over the operations *)

(** The bytes of UTF-8: a character is one byte below 128, or a lead byte
    followed by one, two or three continuation bytes. *)
Definition ascii_byte (c : ascii) : bool := (nat_of_ascii c <? 128)%nat.
Definition continuation_byte (c : ascii) : bool :=
  (128 <=? nat_of_ascii c)%nat && (nat_of_ascii c <? 192)%nat.
Definition lead2_byte (c : ascii) : bool :=
  (192 <=? nat_of_ascii c)%nat && (nat_of_ascii c <? 224)%nat.
Definition lead3_byte (c : ascii) : bool :=
  (224 <=? nat_of_ascii c)%nat && (nat_of_ascii c <? 240)%nat.
Definition lead4_byte (c : ascii) : bool :=
  (240 <=? nat_of_ascii c)%nat && (nat_of_ascii c <? 248)%nat.

(** The regular expression [.]: any one character but a newline. *)
Definition dot : regex :=
  Alt (Cls (fun c => ascii_byte c && negb (Ascii.eqb c newline)))
 (Alt (Cat (Cls lead2_byte) (Cls continuation_byte))
 (Alt (Cat (Cls lead3_byte) (Cat (Cls continuation_byte) (Cls continuation_byte)))
      (Cat (Cls lead4_byte)
           (Cat (Cls continuation_byte)
                (Cat (Cls continuation_byte) (Cls continuation_byte)))))).

(** [r'/swagger.json$'] *)
Definition swagger_json_suffix : regex :=
  Cat (Lit "/swagger") (Cat dot (Cat (Lit "json") Eos)).

Definition verb_name (v : verb) : string :=
  match v with
  | GET => "GET"
  | POST => "POST"
  | PUT => "PUT"
  | DELETE => "DELETE"
  end.

Section Main.

Context {rt : Runtime}.

(** [x[0]] on any value.  The first character of a [str] is its first byte
    when that byte is ASCII; a dict from JSON has no key [0]. *)
Definition first_of (x : pyval) : result pyval :=
  match x with
  | PList l => first l
  | PDict _ => Raise KeyError
  | PStr EmptyString => Raise IndexError
  | PStr (String c _) =>
      if ascii_byte c then Ret (PStr (String c EmptyString)) else Unmodelled
  | _ => Raise TypeError
  end.

(** Lines 261-273: the base URL of a document fetched from [swagger_url]. *)
Definition discover_base_url (swagger : pyval) (swagger_url : string)
  : result pyval :=
  has_servers <- contains "servers" swagger ;;
  use_servers <- (if has_servers
                  then s <- getitem swagger "servers" ;;
                       Ret (is_list s && truthy s)
                  else Ret false) ;;
  if use_servers then
    s <- getitem swagger "servers" ;;
    match s with
    | PList l => server <- first l ;; get server "url" (PStr "")
    | _ => Raise TypeError
    end
  else
  h <- get swagger "host" PNone ;;
  let host := if truthy h then h else PStr "" in
  b <- get swagger "basePath" PNone ;;
  let basePath := if truthy b then b else PStr "" in
  schemes <- get swagger "schemes" (PList []) ;;
  scheme <- (if truthy schemes then first_of schemes else Ret (PStr "https")) ;;
  if truthy host
  then Ret (PStr (str scheme ++ "://" ++ str host ++ str basePath))
  else Ret (PStr (re_sub swagger_json_suffix "" swagger_url)).

(** The request as the dict the builder returns. *)
Definition request_dict (req : request) : pyval :=
  PDict [("url", PStr (url req));
         ("method", PStr (method req));
         ("headers", PDict (headers req));
         ("params", PDict (params req));
         ("json", json req)].

(** The record written to the per-endpoint file, lines 291-298. *)
Definition endpoint_record (path method : string)
           (operationId summary : pyval) (req : request) (exec_res : pyval)
  : pyval :=
  PDict [("path", PStr path);
         ("method", PStr (upper method));
         ("operationId", operationId);
         ("summary", summary);
         ("request", request_dict req);
         ("response", exec_res)].

(** The manifest entry, lines 304-311. *)
Definition manifest_entry (filename path method : string)
           (operationId summary status_code : pyval) : pyval :=
  PDict [("file", PStr filename);
         ("path", PStr path);
         ("method", PStr (upper method));
         ("operationId", operationId);
         ("summary", summary);
         ("status_code", status_code)].

(** What a run has done so far: the network calls made, the files written
    (name and content, in order) and the manifest entries appended. *)
Record run_state : Type := {
  calls : list http_call;
  files : list (string * pyval);
  manifest : list pyval
}.

Variable network : http_call -> http_reply.

(** One pass of the loop of lines 284-313.  The pause and the progress
    line have no part in the result. *)
Definition run_operation (fuel : nat) (base_url : string) (swagger : pyval)
           (st : run_state) (path method : string) (op : pyval)
  : run_state * result unit :=
  if negb (one_of (lower method) ALLOWED_METHODS) then (st, Ret tt) else
  match build_request_for_operation fuel base_url path method op swagger with
  | Ret req =>
      let sent := execute_request network req in
      let st1 := {| calls := calls st ++ fst sent;
                    files := files st; manifest := manifest st |} in
      match get op "operationId" PNone with
      | Ret operationId =>
        match get op "summary" PNone with
        | Ret summary =>
          let filename := output_filename method path in
          let st2 := {| calls := calls st1;
                        files := files st1
                                 ++ [(filename,
                                      endpoint_record path method operationId
                                                      summary req (snd sent))];
                        manifest := manifest st1 |} in
          match get (snd sent) "status_code" PNone with
          | Ret status_code =>
              ({| calls := calls st2; files := files st2;
                  manifest := manifest st2
                              ++ [manifest_entry filename path method
                                                 operationId summary
                                                 status_code] |},
               Ret tt)
          | Raise e => (st2, Raise e)
          | Unmodelled => (st2, Unmodelled)
          | OutOfFuel => (st2, OutOfFuel)
          end
        | Raise e => (st1, Raise e)
        | Unmodelled => (st1, Unmodelled)
        | OutOfFuel => (st1, OutOfFuel)
        end
      | Raise e => (st1, Raise e)
      | Unmodelled => (st1, Unmodelled)
      | OutOfFuel => (st1, OutOfFuel)
      end
  | Raise e => (st, Raise e)
  | Unmodelled => (st, Unmodelled)
  | OutOfFuel => (st, OutOfFuel)
  end.

(** The loop: an exception leaves it at once, with what was done before. *)
Fixpoint run_operations (fuel : nat) (base_url : string) (swagger : pyval)
         (st : run_state) (ops : list (string * string * pyval))
  : run_state * result unit :=
  match ops with
  | [] => (st, Ret tt)
  | (path, method, op) :: ops' =>
      match run_operation fuel base_url swagger st path method op with
      | (st', Ret _) => run_operations fuel base_url swagger st' ops'
      | (st', Raise e) => (st', Raise e)
      | (st', Unmodelled) => (st', Unmodelled)
      | (st', OutOfFuel) => (st', OutOfFuel)
      end
  end.

End Main.

End SwaggerAPI.

(* ================================================================== *)
(** * generate_filelist_json.py *)
(* ================================================================== *)

Module GenerateFilelist.

(** [safe_load_json]: [loaded] is what opening and parsing the file gives,
    [None] when either step raises. *)
Definition safe_load_json (loaded : option pyval) : pyval :=
  match loaded with
  | Some data => data
  | None => PNone
  end.

(** [len(x)] of a list, a Python [int]. *)
Definition len (l : list pyval) : Z := Z.of_nat (List.length l).

Definition extract_body_count (data : pyval) : Z :=
  match data with
  | PDict d =>
      match lookup "response" d with
      | Some (PDict resp) =>
          match lookup "body" resp with
          | Some (PList body) => len body
          | _ => 0%Z
          end
      | _ => 0%Z
      end
  | _ => 0%Z
  end.

(** Lines 66-67 of [main]: the [count] field of a listing entry. *)
Definition count (loaded : option pyval) : pyval :=
  let data := safe_load_json loaded in
  if is_none data then PNone else PInt (extract_body_count data).

(** ** [get_summary_map] *)

(** Lines 20-24: the entries of a manifest, which is a list or a dict
    holding one under [files]; anything else has none. *)
Definition manifest_entries (mani : pyval) : list pyval :=
  match mani with
  | PDict d =>
      match lookup "files" d with
      | Some (PList entries) => entries
      | _ => []
      end
  | PList entries => entries
  | _ => []
  end.

(** A file name used as a key of [summary_map].  A list or dict is
    unhashable; a number or [True] is a legal key in Python but not in the
    string-keyed dicts of this model. *)
Definition summary_key (fname : pyval) : result string :=
  match fname with
  | PStr n => Ret n
  | PList _ | PDict _ => Raise TypeError
  | _ => Unmodelled
  end.

Definition or_else (x y : pyval) : pyval := if truthy x then x else y.

Definition field (d : list (string * pyval)) (k : string) : pyval :=
  match lookup k d with Some v => v | None => PNone end.

(** Lines 26-32: one pass of the loop over the entries. *)
Definition add_summary (summary_map : list (string * pyval)) (e : pyval)
  : result (list (string * pyval)) :=
  match e with
  | PDict d =>
      let fname := or_else (field d "file") (field d "path") in
      let summ := field d "summary" in
      if truthy fname && truthy summ
      then key <- summary_key fname ;; Ret (dict_set key summ summary_map)
      else Ret summary_map
  | _ => Ret summary_map
  end.

Fixpoint add_summaries (summary_map : list (string * pyval))
         (entries : list pyval) : result (list (string * pyval)) :=
  match entries with
  | [] => Ret summary_map
  | e :: entries' =>
      m <- add_summary summary_map e ;;
      add_summaries m entries'
  end.

(** [loaded] is what reading [manifest.json] gives. *)
Definition get_summary_map (loaded : option pyval)
  : result (list (string * pyval)) :=
  add_summaries [] (manifest_entries (safe_load_json loaded)).

(** ** The listing entries of [main] *)

(** [s.endswith(suffix)] *)
Fixpoint ends_with (suffix s : string) : bool :=
  if (s =? suffix) then true
  else match s with
       | EmptyString => false
       | String _ s' => ends_with suffix s'
       end.

(** Lines 54-57: the files of a source folder that get an entry. *)
Definition is_listed (name : string) : bool :=
  ends_with ".json" (lower name) && negb (name =? "manifest.json").

Section Listing.

Context {rt : Runtime}.

(** Line 70. *)
Definition display (summary : pyval) (name : string) : string :=
  if truthy summary
  then SwaggerAPI.str summary ++ " (" ++ name ++ ")"
  else name.

(** Lines 66-78.  [size_kb] is the size the file system reports, in
    kilobytes rounded to one decimal, or [None]. *)
Definition listing_entry (src name : string)
           (summary_map : list (string * pyval))
           (loaded : option pyval) (size_kb : pyval) : pyval :=
  let summary := field summary_map name in
  PDict [("src", PStr src);
         ("file", PStr name);
         ("summary", summary);
         ("display", PStr (display summary name));
         ("count", count loaded);
         ("sizeKB", size_kb)].

End Listing.

End GenerateFilelist.

(* ================================================================== *)
(** * Notions the properties are stated with *)
(* ================================================================== *)

Module Notions.

Import SwaggerAPI.

(** ** File names *)

(** One underscore for every unsafe character, each on its own. *)
Fixpoint replace_each_unsafe (s : string) : string :=
  match s with
  | EmptyString => EmptyString
  | String c s' =>
      String (if filename_char c then c else "_"%char) (replace_each_unsafe s')
  end.

(** One underscore for every maximal run of unsafe characters; [in_run]
    tells that the preceding character was unsafe. *)
Fixpoint squeeze_unsafe (in_run : bool) (s : string) : string :=
  match s with
  | EmptyString => EmptyString
  | String c s' =>
      if filename_char c then String c (squeeze_unsafe false s')
      else if in_run then squeeze_unsafe true s'
           else String "_"%char (squeeze_unsafe true s')
  end.

(** Every character of [s] is unsafe in a file name. *)
Fixpoint all_unsafe (s : string) : bool :=
  match s with
  | EmptyString => true
  | String c s' => negb (filename_char c) && all_unsafe s'
  end.

(** [s] is empty or begins with a character that is kept. *)
Definition starts_safe (s : string) : bool :=
  match s with
  | EmptyString => true
  | String c _ => filename_char c
  end.

(** [s] without the unsafe characters it begins with. *)
Fixpoint skip_unsafe (s : string) : string :=
  match s with
  | EmptyString => EmptyString
  | String c s' => if filename_char c then s else skip_unsafe s'
  end.

(** ** String-like schema fragments *)

Definition absent (k : string) (d : list (string * pyval)) : bool :=
  match lookup k d with Some _ => false | None => true end.

(** No [$ref]; [type] is ["string"], or is absent together with
    [properties]; [format] is neither [date] nor [date-time]; no [enum]. *)
Definition string_like (d : list (string * pyval)) : bool :=
  absent "$ref" d
  && (match lookup "type" d with
      | Some t => eq_str t "string"
      | None => absent "properties" d
      end)
  && (match lookup "format" d with
      | Some f => negb (eq_str f "date") && negb (eq_str f "date-time")
      | None => true
      end)
  && absent "enum" d.

(** A parameter declaration with no [enum], whose [type] is absent or
    ["string"] and whose [format] is neither [date] nor [date-time]. *)
Definition plain_string_parameter (d : list (string * pyval)) : bool :=
  absent "enum" d
  && (match lookup "type" d with
      | Some t => eq_str t "string"
      | None => true
      end)
  && (match lookup "format" d with
      | Some f => negb (eq_str f "date") && negb (eq_str f "date-time")
      | None => true
      end).

(** ** References *)

Fixpoint slash_free (s : string) : bool :=
  match s with
  | EmptyString => true
  | String c s' => not_slash c && slash_free s'
  end.

(** The key under which the synthesizer finds a fragment to descend into
    when it meets the reference [ref]: the name the reference ends with,
    or that name without its double quotes. *)
Definition resolve_key (definitions : pyval) (ref : string) : option string :=
  match re_match ref_pattern ref, definitions with
  | Some key, PDict defs =>
      let usable k :=
        match lookup k defs with Some sub => truthy sub | None => false end in
      if usable key then Some key
      else if usable (replace dquote "" key)
           then Some (replace dquote "" key)
           else None
  | _, _ => None
  end.

(** The references met in a fragment without following any: its own
    [$ref], or those under its [properties] and its [items]. *)
Fixpoint direct_refs (schema : pyval) : list string :=
  match schema with
  | PDict d =>
      match lookup "$ref" d with
      | Some (PStr ref) => [ref]
      | Some _ => []
      | None =>
          flat_map
            (fun kx =>
               if (fst kx =? "properties") then
                 match snd kx with
                 | PDict props =>
                     flat_map (fun kv => direct_refs (snd kv)) props
                 | _ => []
                 end
               else if (fst kx =? "items") then direct_refs (snd kx)
               else []) d
      end
  | _ => []
  end.

(** [rank] orders the definitions so that every reference inside a
    definition leads to one of smaller rank: the reference graph has no
    cycle. *)
Definition ranked (rank : string -> nat) (definitions : pyval) : bool :=
  match definitions with
  | PDict defs =>
      forallb (fun kv =>
        forallb (fun ref =>
          match resolve_key definitions ref with
          | Some k' => (rank k' <? rank (fst kv))%nat
          | None => true
          end) (direct_refs (snd kv))) defs
  | _ => true
  end.

(** Every reference met in [schema] that leads to a definition leads to
    one of rank below [r]. *)
Definition refs_below (rank : string -> nat) (definitions schema : pyval)
           (r : nat) : Prop :=
  forall ref k,
    In ref (direct_refs schema) ->
    resolve_key definitions ref = Some k ->
    (rank k < r)%nat.

(** Nesting depth of a value. *)
Fixpoint height (v : pyval) : nat :=
  match v with
  | PList l => S (list_max (map height l))
  | PDict d => S (list_max (map (fun kv => height (snd kv)) d))
  | _ => 0
  end.

(** ** URL templates *)

(** A template is literal text and [{name}] placeholders. *)
Inductive token : Type :=
| Text (s : string)
| Hole (name : string).

Fixpoint render (t : list token) : string :=
  match t with
  | [] => EmptyString
  | Text s :: t' => s ++ render t'
  | Hole n :: t' => "{" ++ n ++ "}" ++ render t'
  end.

Fixpoint brace_free (s : string) : bool :=
  match s with
  | EmptyString => true
  | String c s' =>
      negb (Ascii.eqb c "{") && negb (Ascii.eqb c "}") && brace_free s'
  end.

(** No brace in the literal text nor in the placeholder names. *)
Definition well_formed (t : list token) : bool :=
  forallb (fun tok => match tok with
                      | Text s => brace_free s
                      | Hole n => brace_free n
                      end) t.

(** The placeholders [{name}] filled with [value]. *)
Definition fill (name value : string) (t : list token) : list token :=
  map (fun tok => match tok with
                  | Hole n => if (n =? name) then Text value else tok
                  | Text _ => tok
                  end) t.

Definition fill_all (fs : list (string * string)) (t : list token) : list token :=
  fold_left (fun t' f => fill (fst f) (snd f) t') fs t.

(** The text of a placeholder. *)
Definition placeholder (name : string) : string := "{" ++ name ++ "}".

(** The template still has a placeholder [{name}]. *)
Definition has_hole (name : string) (t : list token) : bool :=
  existsb (fun tok => match tok with
                      | Hole n => (n =? name)
                      | Text _ => false
                      end) t.

Section Fillings.

Context {rt : Runtime}.

(** What a parameter declared [in: path] puts into the URL: its name and
    the text of its sample. *)
Definition path_filling (fuel : nat) (definitions p : pyval)
  : option (string * string) :=
  match get p "in" PNone, get p "name" PNone,
        parameter_sample fuel definitions p with
  | Ret p_in, Ret (PStr n), Ret sample =>
      if eq_str p_in "path" then Some (n, str sample) else None
  | _, _, _ => None
  end.

Fixpoint path_fillings (fuel : nat) (definitions : pyval) (ps : list pyval)
  : list (string * string) :=
  match ps with
  | [] => []
  | p :: ps' =>
      match path_filling fuel definitions p with
      | Some f => f :: path_fillings fuel definitions ps'
      | None => path_fillings fuel definitions ps'
      end
  end.

Definition brace_free_filling (f : string * string) : bool :=
  brace_free (fst f) && brace_free (snd f).

End Fillings.

(** ** Further notions: sanitized names, declarations, documents *)

(** Every character of [s] satisfies [p]. *)
Fixpoint all_chars (p : ascii -> bool) (s : string) : bool :=
  match s with
  | EmptyString => true
  | String c s' => p c && all_chars p s'
  end.

(** The characters [keep] rejects, squeezed run by run into one
    underscore; [in_run] tells that the preceding character was rejected. *)
Fixpoint squeeze (keep : ascii -> bool) (in_run : bool) (s : string) : string :=
  match s with
  | EmptyString => EmptyString
  | String c s' =>
      if keep c then String c (squeeze keep false s')
      else if in_run then squeeze keep true s'
           else String "_"%char (squeeze keep true s')
  end.

(** [s] without the rejected characters it begins with. *)
Fixpoint skip_rejected (keep : ascii -> bool) (s : string) : string :=
  match s with
  | EmptyString => EmptyString
  | String c s' => if keep c then s else skip_rejected keep s'
  end.

(** The [enum] of a declaration is a non-empty list. *)
Definition usable_enum (d : list (string * pyval)) : bool :=
  match lookup "enum" d with
  | Some (PList (_ :: _)) => true
  | _ => false
  end.


(** A fragment the synthesizer treats as an object: no [$ref], and a
    [type] that is [object], or that is missing or falsy while
    [properties] is present. *)
Definition object_like (d : list (string * pyval)) : bool :=
  absent "$ref" d
  && match lookup "type" d with
     | Some t => eq_str t "object"
                 || (negb (truthy t) && negb (absent "properties" d))
     | None => negb (absent "properties" d)
     end.

(** The parameter [p] is declared in [place] under the name [name]. *)
Definition declared_in (place name : string) (p : pyval) : bool :=
  match p with
  | PDict d =>
      match lookup "in" d, lookup "name" d with
      | Some i, Some n => eq_str i place && eq_str n name
      | _, _ => false
      end
  | _ => false
  end.

Definition is_get_call (c : http_call) : bool :=
  match c_verb c with GET => true | _ => false end.

(** The number of operations the main loop executes. *)
Definition executed (ops : list (string * string * pyval)) : nat :=
  List.length
    (filter (fun o => one_of (lower (snd (fst o))) ALLOWED_METHODS) ops).

Definition empty_run : run_state :=
  {| calls := []; files := []; manifest := [] |}.

(** The manifest entry [e] describes the written file [f]: the file is
    named after the method and path of the record it holds, and the entry
    repeats that name, the path, the method, the operation's id and
    summary, and the status code of the recorded response. *)
Definition entry_of_file (f : string * pyval) (e : pyval) : Prop :=
  exists path method operationId summary req exec_res status_code,
    fst f = output_filename method path
    /\ snd f = endpoint_record path method operationId summary req exec_res
    /\ get exec_res "status_code" PNone = Ret status_code
    /\ e = manifest_entry (fst f) path method operationId summary status_code.

End Notions.

Import SwaggerAPI Notions.

(* ================================================================== *)
(** * The listing aggregator's record count *)
(* ================================================================== *)

Section ListingCount.

Import GenerateFilelist.

(** A parsed file that is a dict never gets a null count. *)
Lemma count_of_dict (d : list (string * pyval)) :
  count (Some (PDict d)) = PInt (extract_body_count (PDict d)).
Proof. reflexivity. Qed.

(** C1, as stated, fails: a persisted file whose [response.body] is an
    object gets the count [0], not null. *)
Lemma count_object_body_is_not_null :
  count (Some (PDict [("response",
                       PDict [("body", PDict [("ok", PBool true)])])]))
  <> PNone.
Proof. vm_compute. discriminate. Qed.

(** C1, amended: for a persisted file whose parsed content has a
    [response.body] field, the emitted count is the length of the body when
    the body is a sequence, and [0] when it is anything else. *)
Theorem count_of_response_body
        (d resp : list (string * pyval)) (body : pyval) :
  lookup "response" d = Some (PDict resp) ->
  lookup "body" resp = Some body ->
  count (Some (PDict d)) =
  match body with
  | PList l => PInt (Z.of_nat (List.length l))
  | _ => PInt 0
  end.
Proof.
  intros Hresp Hbody.
  rewrite count_of_dict. unfold extract_body_count.
  rewrite Hresp, Hbody.
  destruct body; reflexivity.
Qed.

Lemma count_of_response_body_witness :
  count (Some (PDict [("path", PStr "/info");
                      ("response",
                       PDict [("status_code", PInt 200);
                              ("body", PList [PInt 1; PInt 2; PInt 3;
                                              PInt 4; PInt 5])])]))
  = PInt 5.
Proof.
  exact (count_of_response_body
           [("path", PStr "/info");
            ("response",
             PDict [("status_code", PInt 200);
                    ("body", PList [PInt 1; PInt 2; PInt 3; PInt 4; PInt 5])])]
           [("status_code", PInt 200);
            ("body", PList [PInt 1; PInt 2; PInt 3; PInt 4; PInt 5])]
           (PList [PInt 1; PInt 2; PInt 3; PInt 4; PInt 5])
           eq_refl eq_refl).
Defined.

End ListingCount.

(* ================================================================== *)
(** * The parameter sampler *)
(* ================================================================== *)

Section ParameterSampler.

Context {rt : Runtime}.

Lemma lookup_some_nonempty (k : string) (d : list (string * pyval)) (v : pyval) :
  lookup k d = Some v -> truthy (PDict d) = true.
Proof. destruct d; [discriminate | reflexivity]. Qed.

(** C5: a parameter declaration whose [enum] is a non-empty list is sampled
    as the first listed value, whatever else it declares. *)
Theorem sample_for_type_enum_first
        (d : list (string * pyval)) (v : pyval) (rest : list pyval) :
  lookup "enum" d = Some (PList (v :: rest)) ->
  sample_for_type (PDict d) = Ret v.
Proof.
  intros He. unfold sample_for_type.
  rewrite (lookup_some_nonempty _ _ _ He). cbn [negb].
  unfold contains, getitem. rewrite He. reflexivity.
Qed.

End ParameterSampler.

Lemma sample_for_type_enum_first_witness :
  @sample_for_type example_runtime
    (PDict [("name", PStr "market"); ("in", PStr "query");
            ("type", PStr "integer"); ("format", PStr "date");
            ("pattern", PStr "\d+");
            ("enum", PList [PStr "TSE"; PStr "OTC"])])
  = Ret (PStr "TSE").
Proof.
  exact (@sample_for_type_enum_first example_runtime
           [("name", PStr "market"); ("in", PStr "query");
            ("type", PStr "integer"); ("format", PStr "date");
            ("pattern", PStr "\d+");
            ("enum", PList [PStr "TSE"; PStr "OTC"])]
           (PStr "TSE") [PStr "OTC"] eq_refl).
Defined.

(* ================================================================== *)
(** * Text: prefixes, occurrences and literal patterns *)
(* ================================================================== *)

Section Text.

Lemma append_nil_r (s : string) : s ++ "" = s.
Proof. induction s as [|c s IH]; simpl; [reflexivity | now rewrite IH]. Qed.

Lemma append_assoc (a b c : string) : (a ++ b) ++ c = a ++ (b ++ c).
Proof. induction a as [|x a IH]; simpl; [reflexivity | now rewrite IH]. Qed.

Lemma length_append (a b : string) :
  length (a ++ b) = (length a + length b)%nat.
Proof. induction a as [|x a IH]; simpl; [reflexivity | now rewrite IH]. Qed.

Lemma starts_with_iff (lit s : string) :
  starts_with lit s = true <-> exists v, s = lit ++ v.
Proof.
  revert s. induction lit as [|c lit IH]; intro s; simpl.
  - split; [intros _; now exists s | reflexivity].
  - destruct s as [|c' s].
    + split; [discriminate | intros [v Hv]; discriminate].
    + rewrite andb_true_iff, Ascii.eqb_eq, IH. split.
      * intros [-> [v ->]]. now exists v.
      * intros [v Hv]. injection Hv as -> ->. split; [reflexivity | now exists v].
Qed.

Lemma occurs_iff (lit s : string) :
  occurs lit s = true <-> exists u v, s = u ++ lit ++ v.
Proof.
  induction s as [|c s IH]; simpl.
  - destruct (starts_with lit "") eqn:E.
    + split; [intros _ | reflexivity].
      apply starts_with_iff in E. destruct E as [v Hv]. now exists "", v.
    + split; [discriminate |].
      intros [u [v H]]. destruct u; [| discriminate].
      simpl in H. assert (starts_with lit "" = true) as E'
        by (apply starts_with_iff; now exists v).
      congruence.
  - destruct (starts_with lit (String c s)) eqn:E.
    + split; [intros _ | reflexivity].
      apply starts_with_iff in E. destruct E as [v Hv]. now exists "", v.
    + rewrite IH. split.
      * intros [u [v ->]]. now exists (String c u), v.
      * intros [u [v H]]. destruct u as [|x u].
        -- simpl in H. assert (starts_with lit (String c s) = true) as E'
             by (apply starts_with_iff; now exists v).
           congruence.
        -- simpl in H. injection H as _ ->. now exists u, v.
Qed.

Lemma strip_prefix_starts_with (lit s : string) :
  starts_with lit s = match strip_prefix lit s with
                      | Some _ => true
                      | None => false
                      end.
Proof.
  revert s. induction lit as [|c lit IH]; intro s; simpl; [reflexivity |].
  destruct s as [|c' s]; [reflexivity |].
  destruct (Ascii.eqb c c'); simpl; [apply IH | reflexivity].
Qed.

Lemma strip_prefix_append (lit s : string) :
  strip_prefix lit (lit ++ s) = Some s.
Proof.
  induction lit as [|c lit IH]; simpl; [reflexivity |].
  now rewrite Ascii.eqb_refl.
Qed.

(** Searching for a literal pattern is the substring test. *)
Lemma re_search_literal (lit s : string) :
  re_search (Lit lit) s = occurs lit s.
Proof.
  induction s as [|c s IH]; simpl; unfold match_at; simpl;
    rewrite strip_prefix_starts_with;
    destruct (strip_prefix lit _); simpl; auto.
Qed.

End Text.

Section DigitPatterns.

Context {rt : Runtime}.

Lemma eq_str_true (v : pyval) (s : string) :
  eq_str v s = true -> v = PStr s.
Proof.
  destruct v; simpl; try discriminate.
  intro H. apply String.eqb_eq in H. now subst.
Qed.

(** What the sampler returns for a plain string parameter with a textual
    [pattern]. *)
Lemma sample_for_type_pattern (d : list (string * pyval)) (pat : string) :
  plain_string_parameter d = true ->
  lookup "pattern" d = Some (PStr pat) ->
  sample_for_type (PDict d)
  = Ret (PStr (if occurs "\d" pat then "123" else "sample")).
Proof.
  unfold plain_string_parameter, absent. intros Hplain Hpat.
  apply andb_true_iff in Hplain as [Hplain Hfmt].
  apply andb_true_iff in Hplain as [Henum Htype].
  unfold sample_for_type.
  rewrite (lookup_some_nonempty _ _ _ Hpat). cbn [negb].
  unfold contains, getitem, get.
  destruct (lookup "enum" d); [discriminate |]. cbn [bind].
  assert (forall t, match lookup "type" d with
                    | Some v => v | None => PStr "string" end = t ->
                    t = PStr "string") as Ht.
  { intros t <-. destruct (lookup "type" d) as [t|]; [| reflexivity].
    now apply eq_str_true. }
  rewrite (Ht _ eq_refl). cbn [eq_str String.eqb Ascii.eqb Bool.eqb orb].
  assert (eq_str (match lookup "format" d with
                  | Some v => v | None => PStr "" end) "date" = false
          /\ eq_str (match lookup "format" d with
                     | Some v => v | None => PStr "" end) "date-time" = false)
    as [Hd Hdt].
  { destruct (lookup "format" d) as [f|]; [| split; reflexivity].
    apply andb_true_iff in Hfmt as [H1 H2].
    apply negb_true_iff in H1, H2. now split. }
  rewrite Hd, Hdt, Hpat. cbn [bind search]. unfold digit_escape.
  rewrite re_search_literal.
  destruct (occurs "\d" pat); reflexivity.
Qed.

(** C7, as stated, fails: the pattern [[0-9]+] requires digits, yet the
    sample is ["sample"]. *)
Lemma sample_for_type_digit_class_is_not_123 :
  @sample_for_type example_runtime (PDict [("pattern", PStr "[0-9]+")])
  <> Ret (PStr "123").
Proof. vm_compute. discriminate. Qed.

(** C7, amended: for a parameter declaration with no [enum], no declared
    type (or type string) and no date or date-time [format], the sampler
    returns ["123"] when the [pattern] contains the escape [\d], and
    ["sample"] for any other pattern text. *)
Theorem sample_for_type_digit_escape
        (d : list (string * pyval)) (pat : string) :
  plain_string_parameter d = true ->
  lookup "pattern" d = Some (PStr pat) ->
  ((exists u v, pat = u ++ "\d" ++ v) ->
   sample_for_type (PDict d) = Ret (PStr "123"))
  /\ (~ (exists u v, pat = u ++ "\d" ++ v) ->
      sample_for_type (PDict d) = Ret (PStr "sample")).
Proof.
  intros Hplain Hpat.
  rewrite (sample_for_type_pattern d pat Hplain Hpat).
  split; intro H.
  - apply occurs_iff in H. now rewrite H.
  - destruct (occurs "\d" pat) eqn:E; [| reflexivity].
    apply occurs_iff in E. contradiction.
Qed.

End DigitPatterns.

Lemma sample_for_type_digit_escape_witness :
  @sample_for_type example_runtime
    (PDict [("name", PStr "year"); ("in", PStr "query");
            ("type", PStr "string"); ("pattern", PStr "^\d{4}$")])
  = Ret (PStr "123").
Proof.
  exact (proj1 (@sample_for_type_digit_escape example_runtime
                  [("name", PStr "year"); ("in", PStr "query");
                   ("type", PStr "string"); ("pattern", PStr "^\d{4}$")]
                  "^\d{4}$" eq_refl eq_refl)
               (ex_intro _ "^" (ex_intro _ "{4}$" eq_refl))).
Defined.

(* ================================================================== *)
(** * The schema sample synthesizer: scalars, examples and references *)
(* ================================================================== *)

Section ReferencePattern.

Lemma many_slash_free {A : Type} (s : string) (k : string -> option A) (a : A) :
  slash_free s = true -> k "" = Some a -> many not_slash s k = Some a.
Proof.
  intros Hs Hk. induction s as [|c s IH]; simpl; [exact Hk |].
  simpl in Hs. apply andb_true_iff in Hs as [Hc Hs].
  now rewrite Hc, (IH Hs).
Qed.

Lemma substring_all (s : string) : substring 0 (length s) s = s.
Proof. induction s as [|c s IH]; simpl; [reflexivity | now rewrite IH]. Qed.

(** The end of the pattern, [([^/]+)$], takes a whole slash-free name. *)
Lemma run_last_segment {A : Type} (key : string) (g : option string)
      (k : string -> option string -> option A) (a : A) :
  slash_free key = true -> key <> "" ->
  k "" (Some key) = Some a ->
  run (Cat (Group (Plus not_slash)) Eos) key g k = Some a.
Proof.
  intros Hfree Hne Hk. destruct key as [|c key]; [contradiction |].
  simpl in Hfree. apply andb_true_iff in Hfree as [Hc Hkey].
  cbn [run]. rewrite Hc.
  apply many_slash_free; [exact Hkey |].
  cbn [length]. rewrite Nat.sub_0_r.
  change (S (length key)) with (length (String c key)).
  now rewrite substring_all.
Qed.

(** The two documented shapes of a reference name their last segment. *)
Lemma ref_pattern_names (key : string) :
  slash_free key = true -> key <> "" ->
  re_match ref_pattern ("#/definitions/" ++ key) = Some key
  /\ re_match ref_pattern ("#/components/schemas/" ++ key) = Some key.
Proof.
  intros Hfree Hne.
  split; unfold re_match, match_at, ref_pattern;
    remember (Cat (Group (Plus not_slash)) Eos) as last eqn:Hlast;
    cbn; subst last;
    now rewrite (run_last_segment key None _ ("", Some key) Hfree Hne eq_refl).
Qed.

End ReferencePattern.

Section Synthesizer.

Context {rt : Runtime}.

(** C2, the failing input evaluated: a string fragment whose [enum] is an
    empty list makes the synthesizer raise [IndexError]; it neither returns
    [{}] nor ["sample"]. *)
Theorem make_sample_empty_enum_raises (fuel : nat) (definitions : pyval) :
  make_sample_body_from_schema (S fuel)
    (PDict [("type", PStr "string"); ("enum", PList [])]) definitions
  = Raise IndexError.
Proof. reflexivity. Qed.

Lemma string_like_type (d : list (string * pyval)) :
  string_like d = true ->
  exists t0,
    get (PDict d) "type" PNone = Ret t0
    /\ (if truthy t0 then Ret false else contains "properties" (PDict d))
       = Ret false
    /\ eq_str t0 "object" = false /\ eq_str t0 "array" = false
    /\ eq_str t0 "integer" = false /\ eq_str t0 "number" = false
    /\ eq_str t0 "boolean" = false.
Proof.
  unfold string_like, absent. intro H.
  apply andb_true_iff in H as [H _].
  apply andb_true_iff in H as [H _].
  apply andb_true_iff in H as [_ Htype].
  unfold get, contains.
  destruct (lookup "type" d) as [t|].
  - exists t. apply eq_str_true in Htype. subst t. cbn. repeat split.
  - exists PNone. cbn.
    destruct (lookup "properties" d); [discriminate | repeat split].
Qed.

(** What the synthesizer returns for a non-empty string-like fragment. *)
Lemma make_sample_string_like (fuel : nat) (d : list (string * pyval))
      (definitions : pyval) :
  string_like d = true -> d <> [] ->
  make_sample_body_from_schema (S fuel) (PDict d) definitions
  = Ret (match lookup "example" d with
         | Some ex => if truthy ex then ex else PStr "sample"
         | None => PStr "sample"
         end).
Proof.
  intros Hlike Hne.
  destruct (string_like_type d Hlike)
    as (t0 & Ht0 & Himp & Ho & Ha & Hi & Hn & Hb).
  unfold string_like, absent in Hlike.
  apply andb_true_iff in Hlike as [Hlike Henum].
  apply andb_true_iff in Hlike as [Hlike Hfmt].
  apply andb_true_iff in Hlike as [Href _].
  cbn [make_sample_body_from_schema].
  assert (truthy (PDict d) = true) as -> by (destruct d; [contradiction | reflexivity]).
  cbn [negb].
  assert (contains "$ref" (PDict d) = Ret false) as ->.
  { unfold contains. destruct (lookup "$ref" d); [discriminate | reflexivity]. }
  cbn [bind]. rewrite Ht0. cbn [bind]. rewrite Himp. cbn [bind].
  rewrite Ho, Ha, Hi, Hn, Hb. cbn [orb].
  unfold get, contains, getitem.
  assert (eq_str (match lookup "format" d with
                  | Some v => v | None => PStr "" end) "date" = false
          /\ eq_str (match lookup "format" d with
                     | Some v => v | None => PStr "" end) "date-time" = false)
    as [Hd Hdt].
  { destruct (lookup "format" d) as [f|]; [| split; reflexivity].
    apply andb_true_iff in Hfmt as [H1' H2'].
    apply negb_true_iff in H1', H2'. now split. }
  cbn [bind]. rewrite Hd, Hdt.
  destruct (lookup "enum" d); [discriminate |]. cbn [bind].
  destruct (lookup "example" d); reflexivity.
Qed.

(** C3, as stated, fails: an [example] that is the empty string, [0] or
    [false] is not returned; the synthesizer returns ["sample"] in its
    place. *)
Lemma make_sample_empty_example_is_not_returned :
  @make_sample_body_from_schema example_runtime 1
     (PDict [("type", PStr "string"); ("example", PStr "")]) PNone
  <> Ret (PStr "")
  /\ @make_sample_body_from_schema example_runtime 1
       (PDict [("type", PStr "string"); ("example", PInt 0)]) PNone
     <> Ret (PInt 0)
  /\ @make_sample_body_from_schema example_runtime 1
       (PDict [("type", PStr "string"); ("example", PBool false)]) PNone
     <> Ret (PBool false).
Proof. vm_compute. repeat split; discriminate. Qed.

(** C3, amended: for a non-empty string-like fragment (no [$ref], type
    string or absent without properties, no date or date-time format, no
    [enum]), synthesis returns the [example] when the fragment carries one
    that is truthy, and the literal ["sample"] when the example is absent
    or falsy (empty string, [0], [false], null, empty list or object). *)
Theorem make_sample_string_like_example
        (fuel : nat) (d : list (string * pyval)) (definitions : pyval) :
  string_like d = true -> d <> [] ->
  (forall ex, lookup "example" d = Some ex -> truthy ex = true ->
     make_sample_body_from_schema (S fuel) (PDict d) definitions = Ret ex)
  /\ (forall ex, lookup "example" d = Some ex -> truthy ex = false ->
     make_sample_body_from_schema (S fuel) (PDict d) definitions
     = Ret (PStr "sample"))
  /\ (lookup "example" d = None ->
     make_sample_body_from_schema (S fuel) (PDict d) definitions
     = Ret (PStr "sample")).
Proof.
  intros Hlike Hne.
  rewrite (make_sample_string_like fuel d definitions Hlike Hne).
  repeat split.
  - intros ex -> ->. reflexivity.
  - intros ex -> ->. reflexivity.
  - intros ->. reflexivity.
Qed.

(** A fragment that only refers elsewhere. *)
Lemma make_sample_ref_step (fuel : nat) (d : list (string * pyval))
      (ref : string) (definitions : pyval) :
  lookup "$ref" d = Some (PStr ref) ->
  make_sample_body_from_schema (S fuel) (PDict d) definitions
  = match re_match ref_pattern ref with
    | Some key =>
        if truthy definitions then
          sub1 <- get definitions key PNone ;;
          sub <- (if truthy sub1 then Ret sub1
                  else get definitions (replace dquote "" key) PNone) ;;
          if truthy sub
          then make_sample_body_from_schema fuel sub definitions
          else Ret (PDict [])
        else Ret (PDict [])
    | None => Ret (PDict [])
    end.
Proof.
  intro Href. cbn [make_sample_body_from_schema].
  rewrite (lookup_some_nonempty _ _ _ Href). cbn [negb].
  unfold contains at 1. rewrite Href. cbn [bind].
  unfold getitem at 1. rewrite Href. cbn [bind rmatch].
  reflexivity.
Qed.

(** C6, as stated, fails: the reference names the key ["Foo"] written with
    its double quotes, the table has no such key, and synthesis still
    yields [1], because the lookup is retried without the quotes. *)
Lemma make_sample_quoted_ref_is_resolved :
  re_match ref_pattern ("#/definitions/" ++ dquote ++ "Foo" ++ dquote)
  = Some (dquote ++ "Foo" ++ dquote)
  /\ lookup (dquote ++ "Foo" ++ dquote)
            [("Foo", PDict [("type", PStr "integer")])] = None
  /\ @make_sample_body_from_schema example_runtime 2
       (PDict [("$ref", PStr ("#/definitions/" ++ dquote ++ "Foo" ++ dquote))])
       (PDict [("Foo", PDict [("type", PStr "integer")])])
     <> Ret (PDict []).
Proof. vm_compute. repeat split. discriminate. Qed.

(** C6, amended: with definitions [{"Foo": {"type": "integer"}}] the
    fragment [{"$ref": "#/definitions/Foo"}] yields [1]; and a fragment
    whose [$ref] names a key that the table has neither as written nor
    with its double quotes removed, or whose [$ref] is met with an absent
    or empty table, yields the empty object without raising. *)
Theorem make_sample_ref_resolution :
  (forall fuel,
     make_sample_body_from_schema (S (S fuel))
       (PDict [("$ref", PStr "#/definitions/Foo")])
       (PDict [("Foo", PDict [("type", PStr "integer")])])
     = Ret (PInt 1))
  /\ (forall fuel d ref key defs,
        lookup "$ref" d = Some (PStr ref) ->
        re_match ref_pattern ref = Some key ->
        lookup key defs = None ->
        lookup (replace dquote "" key) defs = None ->
        make_sample_body_from_schema (S fuel) (PDict d) (PDict defs)
        = Ret (PDict []))
  /\ (forall fuel d ref definitions,
        lookup "$ref" d = Some (PStr ref) ->
        truthy definitions = false ->
        make_sample_body_from_schema (S fuel) (PDict d) definitions
        = Ret (PDict [])).
Proof.
  split; [| split].
  - intro fuel. reflexivity.
  - intros fuel d ref key defs Href Hm Hk Hq.
    rewrite (make_sample_ref_step _ _ _ _ Href), Hm.
    destruct (truthy (PDict defs)); [| reflexivity].
    unfold get. rewrite Hk. cbn [bind truthy]. rewrite Hq. reflexivity.
  - intros fuel d ref definitions Href Hdef.
    rewrite (make_sample_ref_step _ _ _ _ Href), Hdef.
    now destruct (re_match ref_pattern ref).
Qed.

End Synthesizer.

Lemma make_sample_string_like_example_witness :
  @make_sample_body_from_schema example_runtime 1
     (PDict [("type", PStr "string"); ("example", PStr "2330")]) PNone
  = Ret (PStr "2330").
Proof.
  refine (proj1 (@make_sample_string_like_example example_runtime 0
                   [("type", PStr "string"); ("example", PStr "2330")]
                   PNone eq_refl _)
                (PStr "2330") eq_refl eq_refl).
  discriminate.
Defined.

Lemma make_sample_ref_resolution_witness :
  @make_sample_body_from_schema example_runtime 1
     (PDict [("$ref", PStr "#/definitions/Bar")])
     (PDict [("Foo", PDict [("type", PStr "integer")])])
  = Ret (PDict []).
Proof.
  exact (proj1 (proj2 (@make_sample_ref_resolution example_runtime))
               0 [("$ref", PStr "#/definitions/Bar")] "#/definitions/Bar"
               "Bar" [("Foo", PDict [("type", PStr "integer")])]
               eq_refl eq_refl eq_refl eq_refl).
Defined.

(* ================================================================== *)
(** * The executor's dispatch on the method *)
(* ================================================================== *)

Section Dispatch.

Context {rt : Runtime}.

Variable network : http_call -> http_reply.

Lemma build_request_method (fuel : nat) (base_url path method : string)
      (operation swagger : pyval) (req : request) :
  build_request_for_operation fuel base_url path method operation swagger
  = Ret req ->
  SwaggerAPI.method req = upper method.
Proof.
  unfold build_request_for_operation.
  destruct (find_definitions swagger); try discriminate. cbn [bind].
  destruct (get operation "parameters" (PList [])) as [parameters| | |];
    try discriminate.
  cbn [bind].
  destruct (iterate parameters); try discriminate. cbn [bind].
  destruct (add_parameters _ _ _ _); try discriminate. cbn [bind].
  destruct (request_body _ _ _ _); try discriminate. cbn [bind].
  intro H. injection H as <-. reflexivity.
Qed.

(** C10: a request whose method is PATCH is answered with the error
    result and without any network call, although the lister enumerates
    [patch] operations and the builder builds their requests; GET, POST,
    PUT and DELETE each make one call. *)
Theorem execute_request_patch_unsupported :
  (forall req,
     SwaggerAPI.method req = "PATCH" ->
     execute_request network req
     = ([], PDict [("error", PStr "Unsupported method PATCH")]))
  /\ (forall path op,
        list_operations (PDict [("paths", PDict [(path, PDict [("patch", op)])])])
        = Ret [(path, "patch", op)])
  /\ (forall fuel base_url path operation swagger req,
        build_request_for_operation fuel base_url path "patch" operation swagger
        = Ret req ->
        execute_request network req
        = ([], PDict [("error", PStr "Unsupported method PATCH")]))
  /\ (forall req,
        In (SwaggerAPI.method req) ["GET"; "POST"; "PUT"; "DELETE"] ->
        List.length (fst (execute_request network req)) = 1%nat).
Proof.
  assert (forall req,
             SwaggerAPI.method req = "PATCH" ->
             execute_request network req
             = ([], PDict [("error", PStr "Unsupported method PATCH")])) as Hpatch.
  { intros req Hm. unfold execute_request. rewrite Hm. reflexivity. }
  split; [exact Hpatch |]. split; [| split].
  - intros path op. reflexivity.
  - intros fuel base_url path operation swagger req Hbuild.
    apply Hpatch. now rewrite (build_request_method _ _ _ _ _ _ _ Hbuild).
  - intros req Hin. unfold execute_request.
    simpl in Hin.
    destruct Hin as [<- | [<- | [<- | [<- | []]]]]; reflexivity.
Qed.

End Dispatch.

Lemma execute_request_patch_unsupported_witness :
  execute_request (fun _ => Failed "unreachable")
    {| url := "https://openapi.twse.com.tw/v1/stock/123";
       method := "PATCH";
       headers := GLOBAL_HEADERS;
       params := [];
       json := PNone |}
  = ([], PDict [("error", PStr "Unsupported method PATCH")]).
Proof.
  exact (proj1 (@execute_request_patch_unsupported example_runtime
                  (fun _ => Failed "unreachable"))
               {| url := "https://openapi.twse.com.tw/v1/stock/123";
                  method := "PATCH";
                  headers := GLOBAL_HEADERS;
                  params := [];
                  json := PNone |}
               eq_refl).
Defined.

(* ================================================================== *)
(** * File names *)
(* ================================================================== *)

Section FileNames.

Lemma match_unsafe_run (s : string) :
  many (fun c => negb (filename_char c)) s (fun rest => Some (rest, @None string))
  = Some (skip_unsafe s, None).
Proof.
  induction s as [|c s IH]; simpl; [reflexivity |].
  destruct (filename_char c); simpl; [reflexivity | now rewrite IH].
Qed.

Lemma length_skip_unsafe (s : string) :
  (length (skip_unsafe s) <= length s)%nat.
Proof.
  induction s as [|c s IH]; simpl; [lia |].
  destruct (filename_char c); simpl; lia.
Qed.

Lemma squeeze_after_run (s : string) :
  squeeze_unsafe true s = squeeze_unsafe false (skip_unsafe s).
Proof.
  induction s as [|c s IH]; simpl; [reflexivity |].
  destruct (filename_char c) eqn:E; simpl; [now rewrite E | exact IH].
Qed.

(** The substitution scans every run once, whatever fuel is left. *)
Lemma sub_from_squeezes (fuel : nat) :
  forall s, (length s < fuel)%nat ->
            sub_from fuel unsafe_run "_" s = squeeze_unsafe false s.
Proof.
  induction fuel as [|fuel IH]; intros s Hlen; [lia |].
  destruct s as [|c s]; [reflexivity |].
  cbn [sub_from]. unfold match_at, unsafe_run. cbn [run squeeze_unsafe].
  destruct (filename_char c) eqn:E; cbn [negb].
  - rewrite IH by (simpl in Hlen; lia). reflexivity.
  - rewrite match_unsafe_run.
    pose proof (length_skip_unsafe s) as Hskip.
    assert ((length (skip_unsafe s) <? length (String c s))%nat = true) as ->
      by (apply Nat.ltb_lt; simpl; lia).
    rewrite IH by (simpl in Hlen; lia).
    now rewrite squeeze_after_run.
Qed.

Lemma sanitize_filename_squeezes (name : string) :
  sanitize_filename name = squeeze_unsafe false name.
Proof. unfold sanitize_filename, re_sub. apply sub_from_squeezes. lia. Qed.

Lemma squeeze_through_run (run rest : string) :
  all_unsafe run = true ->
  squeeze_unsafe true (run ++ rest) = squeeze_unsafe true rest.
Proof.
  induction run as [|c run IH]; simpl; intro H; [reflexivity |].
  apply andb_true_iff in H as [Hc Hrun]. apply negb_true_iff in Hc.
  rewrite Hc. now apply IH.
Qed.

Lemma squeeze_starts_safe (rest : string) :
  starts_safe rest = true ->
  squeeze_unsafe true rest = squeeze_unsafe false rest.
Proof. destruct rest as [|c rest]; simpl; [reflexivity | now intros ->]. Qed.

(** C4, as stated, fails: in [/stock/{code}] the slash and the brace that
    follow each other give one underscore, not two. *)
Lemma output_filename_is_not_per_character :
  output_filename "get" "/stock/{code}"
  <> upper "get" ++ "_" ++ replace_each_unsafe "/stock/{code}" ++ ".json".
Proof. vm_compute. discriminate. Qed.

(** C4, amended: the output file name is the upper-cased method, an
    underscore, and the path with each maximal run of characters outside
    0-9, A-Z, a-z, [.], [_], [-] replaced by one [_] (a run of N such
    characters yields one underscore; the other characters are kept),
    followed by [.json]. *)
Theorem output_filename_squeezes_runs :
  (forall method path,
     output_filename method path
     = upper method ++ "_" ++ squeeze_unsafe false path ++ ".json")
  /\ (forall run rest,
        run <> "" -> all_unsafe run = true -> starts_safe rest = true ->
        sanitize_filename (run ++ rest) = "_" ++ sanitize_filename rest)
  /\ (forall c rest,
        filename_char c = true ->
        sanitize_filename (String c rest) = String c (sanitize_filename rest))
  /\ (forall method, In method ALLOWED_METHODS -> upper method = "GET").
Proof.
  split; [| split; [| split]].
  - intros method path. unfold output_filename.
    now rewrite sanitize_filename_squeezes.
  - intros run rest Hne Hrun Hrest.
    rewrite !sanitize_filename_squeezes.
    destruct run as [|c run]; [contradiction |].
    simpl in Hrun. apply andb_true_iff in Hrun as [Hc Hrun].
    apply negb_true_iff in Hc. simpl. rewrite Hc.
    now rewrite squeeze_through_run, squeeze_starts_safe.
  - intros c rest Hc. rewrite !sanitize_filename_squeezes.
    simpl. now rewrite Hc.
  - intros method [<- | []]. reflexivity.
Qed.

Lemma output_filename_squeezes_runs_witness :
  sanitize_filename ("/{" ++ "code}") = "_" ++ sanitize_filename "code}".
Proof.
  refine (proj1 (proj2 output_filename_squeezes_runs) "/{" "code}" _
                eq_refl eq_refl).
  discriminate.
Defined.

End FileNames.

(* ================================================================== *)
(** * Termination of the synthesizer on acyclic references *)
(* ================================================================== *)

Section Termination.
Context {rt : Runtime}.

Lemma bind_not_out_of_fuel {A B : Type} (m : result A) (f : A -> result B) :
  bind m f <> OutOfFuel -> m <> OutOfFuel.
Proof. destruct m; simpl; congruence. Qed.

Lemma fill_properties_agree (f g : pyval -> result pyval) :
  (forall v, f v <> OutOfFuel -> g v = f v) ->
  forall kvs obj,
    fill_properties f kvs obj <> OutOfFuel ->
    fill_properties g kvs obj = fill_properties f kvs obj.
Proof.
  intros Hfg kvs. induction kvs as [|[k v] kvs IH]; intros obj H; [reflexivity |].
  cbn [fill_properties] in *.
  rewrite (Hfg v (bind_not_out_of_fuel _ _ H)).
  destruct (f v); cbn [bind] in *; auto.
Qed.

Ltac same_head :=
  match goal with
  | |- bind ?a _ <> OutOfFuel -> bind ?a _ = bind ?a _ =>
      destruct a; cbn [bind]; try congruence
  | |- (if ?b then _ else _) <> OutOfFuel ->
       (if ?b then _ else _) = (if ?b then _ else _) =>
      destruct b; try congruence
  | |- match ?x with Some _ => _ | None => _ end <> OutOfFuel ->
       match ?x with Some _ => _ | None => _ end = _ =>
      destruct x; try congruence
  end.

Lemma make_sample_more_fuel (definitions : pyval) (n : nat) :
  forall m schema,
    (n <= m)%nat ->
    make_sample_body_from_schema n schema definitions <> OutOfFuel ->
    make_sample_body_from_schema m schema definitions
    = make_sample_body_from_schema n schema definitions.
Proof.
  induction n as [|n IH]; intros m schema Hle; [simpl; congruence |].
  destruct m as [|m]; [lia |].
  assert (n <= m)%nat as Hnm by lia.
  cbn [make_sample_body_from_schema].
  repeat same_head.
  all: try (intro H; apply IH; assumption).
  - intro H. apply bind_not_out_of_fuel in H.
    rewrite (fill_properties_agree
               (fun v => make_sample_body_from_schema n v definitions)
               (fun v => make_sample_body_from_schema m v definitions));
      auto.
  - intro H. apply bind_not_out_of_fuel in H. now rewrite IH.
Qed.

Lemma fill_properties_returns (f : pyval -> result pyval) :
  forall kvs obj,
    (forall k v, In (k, v) kvs -> f v <> OutOfFuel) ->
    fill_properties f kvs obj <> OutOfFuel.
Proof.
  induction kvs as [|[k v] kvs IH]; intros obj Hf; cbn [fill_properties];
    [discriminate |].
  pose proof (Hf k v (or_introl eq_refl)) as Hv.
  destruct (f v); cbn [bind]; try congruence.
  apply IH. intros k' v' Hin. apply (Hf k' v'). now right.
Qed.

Lemma lookup_in (k : string) (d : list (string * pyval)) (v : pyval) :
  lookup k d = Some v -> In (k, v) d.
Proof.
  induction d as [|[k' v'] d IH]; simpl; [discriminate |].
  destruct (k' =? k) eqn:E.
  - intro H. injection H as ->. apply String.eqb_eq in E. subst. now left.
  - intro H. right. now apply IH.
Qed.

Lemma height_in (k : string) (v : pyval) (d : list (string * pyval)) :
  In (k, v) d -> (height v < height (PDict d))%nat.
Proof.
  intro Hin. cbn [height].
  assert (list_max (map (fun kv => height (snd kv)) d)
          <= list_max (map (fun kv => height (snd kv)) d))%nat as Hle by lia.
  apply list_max_le in Hle. rewrite Forall_forall in Hle.
  specialize (Hle (height v)).
  assert (In (height v) (map (fun kv => height (snd kv)) d)) as Hv.
  { apply in_map_iff. now exists (k, v). }
  specialize (Hle Hv). lia.
Qed.

Lemma direct_refs_ref (d : list (string * pyval)) (ref : string) :
  lookup "$ref" d = Some (PStr ref) -> direct_refs (PDict d) = [ref].
Proof. intro H. cbn [direct_refs]. now rewrite H. Qed.

Lemma direct_refs_property (d kvs : list (string * pyval))
      (k : string) (v : pyval) :
  lookup "$ref" d = None ->
  lookup "properties" d = Some (PDict kvs) ->
  In (k, v) kvs ->
  incl (direct_refs v) (direct_refs (PDict d)).
Proof.
  intros Href Hprops Hin ref Hr. cbn [direct_refs]. rewrite Href.
  apply in_flat_map. exists ("properties", PDict kvs). split.
  - now apply lookup_in.
  - cbn. apply in_flat_map. now exists (k, v).
Qed.

Lemma direct_refs_items (d : list (string * pyval)) (its : pyval) :
  lookup "$ref" d = None ->
  lookup "items" d = Some its ->
  incl (direct_refs its) (direct_refs (PDict d)).
Proof.
  intros Href Hits ref Hr. cbn [direct_refs]. rewrite Href.
  apply in_flat_map. exists ("items", its). split.
  - now apply lookup_in.
  - cbn. exact Hr.
Qed.


Lemma get_truthy (x : pyval) (k : string) (v : pyval) :
  get x k PNone = Ret v ->
  exists d, x = PDict d
            /\ match lookup k d with
               | Some sub => truthy sub
               | None => false
               end = truthy v
            /\ (truthy v = true -> lookup k d = Some v).
Proof.
  destruct x; simpl; try discriminate.
  intro H. injection H as <-. exists d.
  destruct (lookup k d); simpl; repeat split; auto; discriminate.
Qed.

Lemma getitem_ret (x : pyval) (k : string) (v : pyval) :
  getitem x k = Ret v -> exists d, x = PDict d /\ lookup k d = Some v.
Proof.
  destruct x; simpl; try discriminate.
  destruct (lookup k d) eqn:E; [| discriminate].
  intro H. injection H as <-. now exists d.
Qed.

Lemma contains_false (k : string) (d : list (string * pyval)) :
  contains k (PDict d) = Ret false -> lookup k d = None.
Proof. simpl. destruct (lookup k d); [discriminate | reflexivity]. Qed.

Lemma rmatch_ret (r : regex) (x : pyval) (m : option string) :
  rmatch r x = Ret m -> exists s, x = PStr s /\ re_match r s = m.
Proof.
  destruct x; simpl; try discriminate.
  intro H. injection H as <-. now exists s.
Qed.

(** The builtin operations neither run out of fuel nor leave the model. *)
Ltac basic_call E :=
  exfalso; revert E; clear;
  unfold get, getitem, contains, items, rmatch, search;
  repeat match goal with
         | |- context [match ?x with _ => _ end] => destruct x
         end;
  discriminate.

(** Case analysis on the outermost test of the synthesizer's body, down to
    its nested calls. *)
Ltac head_cases :=
  match goal with
  | |- Ret _ <> _ => discriminate
  | |- Raise _ <> _ => discriminate
  | |- bind ?a _ <> _ =>
      lazymatch a with
      | context [make_sample_body_from_schema] => fail
      | _ => let E := fresh "E" in
             destruct a eqn:E; cbn [bind];
             [ | discriminate
               | first [discriminate | basic_call E]
               | first [discriminate | basic_call E] ]
      end
  | |- (if ?b then _ else _) <> _ => destruct b eqn:?; try discriminate
  | |- match ?x with Some _ => _ | None => _ end <> _ =>
      destruct x eqn:?; try discriminate
  | |- match ?x with PList _ => _ | _ => _ end <> _ =>
      destruct x eqn:?; try discriminate
  | |- first ?l <> _ => destruct l; discriminate
  end.

Section Ranked.

Variable rank : string -> nat.
Variable definitions : pyval.
Variable bound : nat.

Hypothesis Hranked : ranked rank definitions = true.
Hypothesis Hbound :
  forall defs k v, definitions = PDict defs -> In (k, v) defs ->
                   (height v <= bound)%nat.

Lemma ranked_entry (defs : list (string * pyval)) (k : string) (sub : pyval) :
  definitions = PDict defs -> In (k, sub) defs ->
  refs_below rank definitions sub (rank k).
Proof.
  intros Hd Hin ref k' Hr Hres.
  unfold ranked in Hranked. rewrite Hd in Hranked.
  rewrite forallb_forall in Hranked. specialize (Hranked _ Hin).
  rewrite forallb_forall in Hranked. specialize (Hranked _ Hr).
  cbn [fst snd] in Hranked. rewrite <- Hd, Hres in Hranked.
  now apply Nat.ltb_lt.
Qed.

(** The nested call on a resolved reference. *)
Lemma resolved_call (n r : nat) (d : list (string * pyval)) (ref k : string)
      (sub : pyval) :
  (forall s r', refs_below rank definitions s r' ->
                (r' * S bound + height s + 1 <= n)%nat ->
                make_sample_body_from_schema n s definitions <> OutOfFuel) ->
  refs_below rank definitions (PDict d) r ->
  (r * S bound + height (PDict d) + 1 <= S n)%nat ->
  lookup "$ref" d = Some (PStr ref) ->
  resolve_key definitions ref = Some k ->
  (exists defs, definitions = PDict defs /\ lookup k defs = Some sub) ->
  make_sample_body_from_schema n sub definitions <> OutOfFuel.
Proof.
  intros IH Hbelow Hfuel Href Hres (defs & Hd & Hk).
  apply lookup_in in Hk.
  apply (IH sub (rank k)).
  - now apply (ranked_entry defs).
  - assert (rank k < r)%nat as Hlt.
    { apply (Hbelow ref k); [| exact Hres].
      rewrite (direct_refs_ref _ _ Href). now left. }
    pose proof (Hbound defs k sub Hd Hk) as Hh.
    cbn [height] in Hfuel. nia.
Qed.

Lemma resolve_key_first (defs : list (string * pyval)) (ref key : string)
      (sub : pyval) :
  definitions = PDict defs ->
  re_match ref_pattern ref = Some key ->
  get definitions key PNone = Ret sub -> truthy sub = true ->
  resolve_key definitions ref = Some key /\ lookup key defs = Some sub.
Proof.
  intros Hd Hm Hget Ht. unfold resolve_key. rewrite Hm, Hd.
  rewrite Hd in Hget. apply get_truthy in Hget as (d & Heq & Hu & Hl).
  injection Heq as <-. rewrite Hu, Ht. split; [reflexivity | now apply Hl].
Qed.

Lemma resolve_key_second (defs : list (string * pyval)) (ref key : string)
      (sub1 sub : pyval) :
  definitions = PDict defs ->
  re_match ref_pattern ref = Some key ->
  get definitions key PNone = Ret sub1 -> truthy sub1 = false ->
  get definitions (replace dquote "" key) PNone = Ret sub ->
  truthy sub = true ->
  resolve_key definitions ref = Some (replace dquote "" key)
  /\ lookup (replace dquote "" key) defs = Some sub.
Proof.
  intros Hd Hm Hget1 Ht1 Hget Ht. unfold resolve_key. rewrite Hm, Hd.
  rewrite Hd in Hget1, Hget.
  apply get_truthy in Hget1 as (d1 & Heq1 & Hu1 & _).
  apply get_truthy in Hget as (d & Heq & Hu & Hl).
  injection Heq1 as <-. injection Heq as <-.
  rewrite Hu1, Ht1, Hu, Ht. split; [reflexivity | now apply Hl].
Qed.

Lemma get_ret (x : pyval) (k : string) (default v : pyval) :
  get x k default = Ret v ->
  exists d, x = PDict d
            /\ (lookup k d = Some v \/ (lookup k d = None /\ v = default)).
Proof.
  destruct x; simpl; try discriminate.
  intro H. injection H as <-. exists d. split; [reflexivity |].
  destruct (lookup k d); [now left | now right].
Qed.

Lemma make_sample_enough_fuel (n : nat) :
  forall s r,
    refs_below rank definitions s r ->
    (r * S bound + height s + 1 <= n)%nat ->
    make_sample_body_from_schema n s definitions <> OutOfFuel.
Proof.
  induction n as [|n IH]; intros s r Hbelow Hfuel; [lia |].
  cbn [make_sample_body_from_schema].
  repeat head_cases.
  - (* a resolved reference *)
    match goal with
    | H : getitem s "$ref" = Ret _ |- _ =>
        apply getitem_ret in H as (d & -> & Href)
    end.
    match goal with
    | H : rmatch ref_pattern _ = Ret _ |- _ =>
        apply rmatch_ret in H as (ref & -> & Hm)
    end.
    match goal with
    | H : get definitions _ PNone = Ret _ |- _ =>
        pose proof H as Hget1;
        apply get_ret in H as (defs & Hd & _)
    end.
    match goal with
    | H : (if truthy ?sub1 then _ else _) = Ret ?sub, Ht : truthy ?sub = true
      |- _ =>
        destruct (truthy sub1) eqn:Ht1;
        [ injection H as ->;
          destruct (resolve_key_first defs ref _ _ Hd Hm Hget1 Ht)
            as [Hres Hk]
        | destruct (resolve_key_second defs ref _ _ _ Hd Hm Hget1 Ht1 H Ht)
            as [Hres Hk] ]
    end;
      apply (resolved_call n r d ref _ _ IH Hbelow Hfuel Href Hres);
      now exists defs.
  - (* an object: one nested call for each property *)
    match goal with
    | H : get s "type" PNone = Ret _ |- _ =>
        apply get_ret in H as (d & -> & _)
    end.
    match goal with
    | H : contains "$ref" _ = Ret _ |- _ => apply contains_false in H
    end.
    match goal with
    | H : items ?props = Ret ?kvs |- _ =>
        destruct props; try discriminate H; injection H as ->
    end.
    match goal with
    | H : get _ "properties" _ = Ret _ |- _ =>
        apply get_ret in H as (d' & Hd' & Hprops); injection Hd' as <-
    end.
    match goal with
    | |- bind ?a _ <> _ => assert (a <> OutOfFuel) as Hfill
    end.
    { apply fill_properties_returns. intros k v Hin.
      destruct Hprops as [Hprops | [_ Hempty]];
        [| injection Hempty as ->; contradiction].
      apply (IH v r).
      - intros ref k' Hr. apply Hbelow.
        match goal with
        | H : lookup "$ref" d = None |- _ =>
            exact (direct_refs_property d _ k v H Hprops Hin ref Hr)
        end.
      - pose proof (height_in _ _ _ Hin).
        pose proof (height_in _ _ _ (lookup_in _ _ _ Hprops)). lia. }
    match goal with
    | |- bind ?a _ <> _ => destruct a; cbn [bind]; congruence
    end.
  - (* an array: one nested call for the items *)
    match goal with
    | H : get s "type" PNone = Ret _ |- _ =>
        apply get_ret in H as (d & -> & _)
    end.
    match goal with
    | H : contains "$ref" _ = Ret _ |- _ => apply contains_false in H
    end.
    match goal with
    | H : get _ "items" _ = Ret ?its |- _ =>
        apply get_ret in H as (d' & Hd' & Hits); injection Hd' as <-;
        assert (make_sample_body_from_schema n its definitions <> OutOfFuel)
          as Hcall
    end.
    { destruct Hits as [Hits | [_ ->]].
      - apply (IH _ r).
        + intros ref k' Hr. apply Hbelow.
          match goal with
          | H : lookup "$ref" d = None |- _ =>
              exact (direct_refs_items d _ H Hits ref Hr)
          end.
        + pose proof (height_in _ _ _ (lookup_in _ _ _ Hits)). lia.
      - cbn [height] in Hfuel. destruct n; [lia | discriminate]. }
    match goal with
    | |- bind ?a _ <> _ => destruct a; cbn [bind]; congruence
    end.
Qed.

End Ranked.

Lemma fill_properties_modelled (f : pyval -> result pyval) :
  (forall v, f v <> Unmodelled) ->
  forall kvs obj, fill_properties f kvs obj <> Unmodelled.
Proof.
  intros Hf kvs. induction kvs as [|[k v] kvs IH]; intro obj;
    cbn [fill_properties]; [discriminate |].
  pose proof (Hf v) as Hv.
  destruct (f v); cbn [bind]; [apply IH | discriminate | congruence | discriminate].
Qed.

(** The synthesizer stays within the modelled behaviours. *)
Lemma make_sample_modelled (definitions : pyval) (n : nat) :
  forall s, make_sample_body_from_schema n s definitions <> Unmodelled.
Proof.
  induction n as [|n IH]; intro s; [discriminate |].
  cbn [make_sample_body_from_schema].
  repeat head_cases.
  - apply IH.
  - match goal with
    | |- bind ?a _ <> _ => assert (a <> Unmodelled) as Hfill
        by (apply fill_properties_modelled; intro v; apply IH);
        destruct a; cbn [bind]; congruence
    end.
  - match goal with
    | |- bind (make_sample_body_from_schema n ?x _) _ <> _ =>
        pose proof (IH x) as Hcall;
        destruct (make_sample_body_from_schema n x definitions);
        cbn [bind]; congruence
    end.
Qed.

Lemma resolve_key_in (definitions : pyval) (ref k : string) :
  resolve_key definitions ref = Some k ->
  exists defs v, definitions = PDict defs /\ In (k, v) defs.
Proof.
  unfold resolve_key. destruct (re_match ref_pattern ref) as [key|];
    [| discriminate].
  destruct definitions; try discriminate.
  destruct (lookup key d) as [sub|] eqn:E1.
  - destruct (truthy sub).
    + intro H. injection H as <-. exists d, sub. split; [reflexivity |].
      now apply lookup_in.
    + destruct (lookup (replace dquote "" key) d) as [sub'|] eqn:E2;
        [| discriminate].
      destruct (truthy sub'); [| discriminate].
      intro H. injection H as <-. exists d, sub'. split; [reflexivity |].
      now apply lookup_in.
  - destruct (lookup (replace dquote "" key) d) as [sub'|] eqn:E2;
      [| discriminate].
    destruct (truthy sub'); [| discriminate].
    intro H. injection H as <-. exists d, sub'. split; [reflexivity |].
    now apply lookup_in.
Qed.

Lemma refs_below_some (rank : string -> nat) (definitions schema : pyval) :
  exists r, refs_below rank definitions schema r.
Proof.
  destruct definitions as [| | | | |l|defs];
    try (exists 0%nat; intros ref k _ H; unfold resolve_key in H;
         destruct (re_match ref_pattern ref); discriminate).
  exists (S (list_max (map (fun kv => rank (fst kv)) defs))).
  intros ref k _ Hres.
  apply resolve_key_in in Hres as (defs' & v & Heq & Hin).
  injection Heq as <-.
  assert (list_max (map (fun kv => rank (fst kv)) defs)
          <= list_max (map (fun kv => rank (fst kv)) defs))%nat as Hle by lia.
  apply list_max_le in Hle. rewrite Forall_forall in Hle.
  assert (In (rank k) (map (fun kv => rank (fst kv)) defs)) as Hk.
  { apply in_map_iff. now exists (k, v). }
  specialize (Hle _ Hk). lia.
Qed.

(** C9: when the definitions can be ranked so that every reference leads
    to a definition of smaller rank (the reference graph is acyclic), the
    synthesizer terminates on every fragment: with enough fuel it returns
    a value or raises, and more fuel does not change the outcome. *)
Theorem make_sample_terminates
        (rank : string -> nat) (schema definitions : pyval) :
  ranked rank definitions = true ->
  exists fuel outcome,
    ((exists v, outcome = Ret v) \/ (exists e, outcome = Raise e))
    /\ forall n, (fuel <= n)%nat ->
                 make_sample_body_from_schema n schema definitions = outcome.
Proof.
  intro Hranked.
  destruct (refs_below_some rank definitions schema) as [r Hr].
  set (bound := height definitions).
  assert (forall defs k v, definitions = PDict defs -> In (k, v) defs ->
                           (height v <= bound)%nat) as Hbound.
  { intros defs k v -> Hin. pose proof (height_in _ _ _ Hin). subst bound. lia. }
  set (fuel := (r * S bound + height schema + 1)%nat).
  pose proof (make_sample_enough_fuel rank definitions bound Hranked Hbound
                fuel schema r Hr (Nat.le_refl _)) as Hfuel.
  exists fuel, (make_sample_body_from_schema fuel schema definitions).
  split.
  - pose proof (make_sample_modelled definitions fuel schema) as Hmod.
    destruct (make_sample_body_from_schema fuel schema definitions);
      [left; eauto | right; eauto | congruence | congruence].
  - intros n Hn. now apply make_sample_more_fuel.
Qed.


End Termination.

Lemma make_sample_terminates_witness :
  exists fuel outcome,
    ((exists v, outcome = Ret v) \/ (exists e, outcome = Raise e))
    /\ forall n, (fuel <= n)%nat ->
         @make_sample_body_from_schema example_runtime n
           (PDict [("$ref", PStr "#/definitions/Quote")])
           (PDict [("Quote",
                    PDict [("type", PStr "object");
                           ("properties",
                            PDict [("price", PDict [("type", PStr "number")]);
                                   ("market",
                                    PDict [("$ref",
                                            PStr "#/definitions/Market")])])]);
                   ("Market", PDict [("type", PStr "string")])])
         = outcome.
Proof.
  exact (@make_sample_terminates example_runtime
           (fun k => if (k =? "Quote") then 1%nat else 0%nat)
           (PDict [("$ref", PStr "#/definitions/Quote")])
           (PDict [("Quote",
                    PDict [("type", PStr "object");
                           ("properties",
                            PDict [("price", PDict [("type", PStr "number")]);
                                   ("market",
                                    PDict [("$ref",
                                            PStr "#/definitions/Market")])])]);
                   ("Market", PDict [("type", PStr "string")])])
           eq_refl).
Defined.

(* ================================================================== *)
(** * Path parameters in the request URL *)
(* ================================================================== *)

Section Templates.

Variables name new : string.

Hypothesis Hname : brace_free name = true.

Lemma brace_free_head (c : ascii) (s : string) :
  brace_free (String c s) = true ->
  Ascii.eqb "{" c = false /\ Ascii.eqb c "}" = false /\ brace_free s = true.
Proof.
  simpl. intro H. apply andb_true_iff in H as [H Hs].
  apply andb_true_iff in H as [Ho Hc].
  apply negb_true_iff in Ho, Hc. rewrite Ascii.eqb_sym in Ho. auto.
Qed.

Lemma occurs_through_text (u s : string) :
  brace_free u = true ->
  occurs (placeholder name) (u ++ s) = occurs (placeholder name) s.
Proof.
  induction u as [|c u IH]; intro Hu; [reflexivity |].
  apply brace_free_head in Hu as (Ho & _ & Hu).
  cbn [append occurs]. unfold placeholder at 1. cbn [append starts_with].
  rewrite Ho. cbn [andb]. now apply IH.
Qed.

Lemma replace_through_text (u s : string) :
  brace_free u = true ->
  replace_from (placeholder name) new 0 (u ++ s)
  = u ++ replace_from (placeholder name) new 0 s.
Proof.
  induction u as [|c u IH]; intro Hu; [reflexivity |].
  apply brace_free_head in Hu as (Ho & _ & Hu).
  cbn [append replace_from]. unfold placeholder at 1. cbn [append starts_with].
  rewrite Ho. cbn [andb]. now rewrite IH.
Qed.

Lemma replace_skips (u s : string) :
  replace_from (placeholder name) new (length u) (u ++ s)
  = replace_from (placeholder name) new 0 s.
Proof. induction u as [|c u IH]; [reflexivity | exact IH]. Qed.

Lemma starts_with_name (n m rest : string) :
  brace_free n = true -> brace_free m = true ->
  starts_with (n ++ "}") (m ++ String "}" rest) = (n =? m).
Proof.
  revert m. induction n as [|c n IH]; intros [|c' m] Hn Hm.
  - reflexivity.
  - apply brace_free_head in Hm as (_ & Hc & _).
    cbn [append starts_with String.eqb]. rewrite Ascii.eqb_sym, Hc. reflexivity.
  - apply brace_free_head in Hn as (_ & Hc & _).
    cbn [append starts_with String.eqb]. now rewrite Hc.
  - apply brace_free_head in Hn as (_ & _ & Hn).
    apply brace_free_head in Hm as (_ & _ & Hm).
    cbn [append starts_with String.eqb]. rewrite (IH m Hn Hm).
    now destruct (Ascii.eqb c c').
Qed.

Lemma starts_with_hole (m rest : string) :
  brace_free m = true ->
  starts_with (placeholder name) ("{" ++ m ++ "}" ++ rest) = (name =? m).
Proof.
  intro Hm. unfold placeholder. cbn [append starts_with].
  rewrite Ascii.eqb_refl. cbn [andb]. now apply starts_with_name.
Qed.

Lemma occurs_hole (m rest : string) :
  brace_free m = true ->
  occurs (placeholder name) ("{" ++ m ++ "}" ++ rest)
  = (name =? m) || occurs (placeholder name) rest.
Proof.
  intro Hm. pose proof (starts_with_hole m rest Hm) as Hs.
  cbn [append] in Hs |- *. cbn [occurs]. rewrite Hs.
  destruct (name =? m); [reflexivity |]. cbn [orb].
  rewrite (occurs_through_text m (String "}" rest) Hm).
  cbn [append occurs]. unfold placeholder at 1.
  cbn [append starts_with Ascii.eqb Bool.eqb andb].
  reflexivity.
Qed.

Lemma replace_hole (m rest : string) :
  brace_free m = true ->
  replace_from (placeholder name) new 0 ("{" ++ m ++ "}" ++ rest)
  = if (name =? m) then new ++ replace_from (placeholder name) new 0 rest
    else "{" ++ m ++ "}" ++ replace_from (placeholder name) new 0 rest.
Proof.
  intro Hm. pose proof (starts_with_hole m rest Hm) as Hs.
  cbn [append] in Hs |- *. cbn [replace_from]. rewrite Hs.
  destruct (name =? m) eqn:E.
  - apply String.eqb_eq in E. subst m. f_equal.
    assert (length (placeholder name) - 1 = length (name ++ "}"))%nat as ->
      by (unfold placeholder; cbn [append length]; lia).
    change (String "}" rest) with ("}" ++ rest).
    rewrite <- (append_assoc name "}" rest). apply replace_skips.
  - f_equal. rewrite (replace_through_text m (String "}" rest) Hm). f_equal.
Qed.

(** Replacing the placeholder text in a rendered template fills the
    placeholders of that name. *)
Lemma replace_render (t : list token) :
  well_formed t = true ->
  replace (placeholder name) new (render t) = render (fill name new t).
Proof.
  unfold replace. unfold placeholder at 1. cbn [append String.eqb].
  induction t as [|[u|m] t IH]; cbn [well_formed forallb]; intro Hwf.
  - reflexivity.
  - apply andb_true_iff in Hwf as [Hu Ht].
    cbn [render fill map]. rewrite (replace_through_text _ _ Hu).
    f_equal. now apply IH.
  - apply andb_true_iff in Hwf as [Hm Ht].
    cbn [render fill map]. rewrite (replace_hole _ _ Hm).
    rewrite (String.eqb_sym m name).
    destruct (name =? m); cbn [render]; rewrite (IH Ht); reflexivity.
Qed.

(** The placeholder text occurs in a rendered template exactly when the
    template has a placeholder of that name. *)
Lemma occurs_render (t : list token) :
  well_formed t = true ->
  occurs (placeholder name) (render t) = has_hole name t.
Proof.
  induction t as [|[u|m] t IH]; cbn [well_formed forallb]; intro Hwf.
  - reflexivity.
  - apply andb_true_iff in Hwf as [Hu Ht].
    cbn [render has_hole existsb]. rewrite (occurs_through_text _ _ Hu).
    now apply IH.
  - apply andb_true_iff in Hwf as [Hm Ht].
    cbn [render has_hole existsb]. rewrite (occurs_hole _ _ Hm).
    rewrite (String.eqb_sym m name). f_equal. now apply IH.
Qed.

End Templates.

Section FillAll.

Lemma fill_well_formed (n v : string) (t : list token) :
  brace_free v = true -> well_formed t = true ->
  well_formed (fill n v t) = true.
Proof.
  intro Hv. induction t as [|[u|m] t IH]; cbn [well_formed forallb fill map];
    intro Hwf; [reflexivity | |];
    apply andb_true_iff in Hwf as [Hh Ht]; apply andb_true_iff.
  - split; [exact Hh | now apply IH].
  - split; [| now apply IH]. now destruct (m =? n).
Qed.

Lemma fill_removes_hole (n v : string) (t : list token) :
  has_hole n (fill n v t) = false.
Proof.
  induction t as [|[u|m] t IH]; cbn [has_hole existsb fill map];
    [reflexivity | exact IH |].
  destruct (m =? n) eqn:E; cbn [orb]; [exact IH |].
  rewrite E. exact IH.
Qed.

Lemma fill_adds_no_hole (n m v : string) (t : list token) :
  has_hole n t = false -> has_hole n (fill m v t) = false.
Proof.
  induction t as [|[u|k] t IH]; cbn [has_hole existsb fill map];
    [reflexivity | exact IH |].
  intro H. apply orb_false_iff in H as [Hk Ht].
  destruct (k =? m); cbn [orb]; [now apply IH |].
  rewrite Hk. now apply IH.
Qed.

Lemma fill_all_well_formed (fs : list (string * string)) :
  forall t,
    forallb brace_free_filling fs = true -> well_formed t = true ->
    well_formed (fill_all fs t) = true.
Proof.
  induction fs as [|[n v] fs IH]; intros t Hfs Hwf; [exact Hwf |].
  cbn [forallb] in Hfs. apply andb_true_iff in Hfs as [Hf Hfs].
  apply andb_true_iff in Hf as [_ Hv].
  cbn [fill_all fold_left fst snd]. apply IH; [exact Hfs |].
  now apply fill_well_formed.
Qed.

Lemma fill_all_keeps_no_hole (n : string) (fs : list (string * string)) :
  forall t, has_hole n t = false -> has_hole n (fill_all fs t) = false.
Proof.
  induction fs as [|[m v] fs IH]; intros t Ht; [exact Ht |].
  cbn [fill_all fold_left fst snd]. apply IH. now apply fill_adds_no_hole.
Qed.

Lemma fill_all_removes_holes (n v : string) (fs : list (string * string)) :
  forall t, In (n, v) fs -> has_hole n (fill_all fs t) = false.
Proof.
  induction fs as [|[m w] fs IH]; intros t Hin; [contradiction |].
  cbn [fill_all fold_left fst snd]. destruct Hin as [Heq | Hin].
  - injection Heq as -> ->. apply fill_all_keeps_no_hole.
    apply fill_removes_hole.
  - now apply IH.
Qed.

(** The replacements made one after the other fill the template. *)
Lemma replace_all_render (fs : list (string * string)) :
  forall t,
    forallb brace_free_filling fs = true -> well_formed t = true ->
    fold_left (fun u f => replace ("{" ++ fst f ++ "}") (snd f) u) fs (render t)
    = render (fill_all fs t).
Proof.
  induction fs as [|[n v] fs IH]; intros t Hfs Hwf; [reflexivity |].
  cbn [forallb] in Hfs. apply andb_true_iff in Hfs as [Hf Hfs].
  apply andb_true_iff in Hf as [Hn Hv]. cbn [fst snd] in Hn, Hv.
  cbn [fold_left fill_all fst snd].
  change ("{" ++ n ++ "}") with (placeholder n).
  rewrite (replace_render n v Hn t Hwf).
  apply IH; [exact Hfs | now apply fill_well_formed].
Qed.

End FillAll.

Section RequestUrl.

Context {rt : Runtime}.

Lemma set_form_field_url (st st' : locals) (name sample : pyval) :
  set_form_field st name sample = Ret st' -> l_url st' = l_url st.
Proof.
  unfold set_form_field.
  destruct (l_body st); try discriminate.
  - destruct name; discriminate.
  - destruct (as_key name); cbn [bind]; try discriminate.
    destruct (l_fresh st); [| discriminate].
    intro H. injection H as <-. reflexivity.
Qed.

(** What one parameter does to the URL. *)
Lemma add_parameter_url (fuel : nat) (definitions : pyval)
      (st st' : locals) (p : pyval) :
  add_parameter fuel definitions st p = Ret st' ->
  l_url st'
  = match path_filling fuel definitions p with
    | Some f => replace ("{" ++ fst f ++ "}") (snd f) (l_url st)
    | None => l_url st
    end.
Proof.
  unfold add_parameter, path_filling.
  destruct (get p "in" PNone) as [p_in| | |]; cbn [bind]; try discriminate.
  destruct (get p "name" PNone) as [name| | |]; cbn [bind]; try discriminate.
  destruct (parameter_sample fuel definitions p) as [sample| | |];
    cbn [bind]; try discriminate.
  destruct (eq_str p_in "path").
  { destruct name; try discriminate.
    intro H. injection H as <-. reflexivity. }
  intro H.
  assert (l_url st' = l_url st) as ->.
  { destruct (eq_str p_in "query"); [|destruct (eq_str p_in "header");
      [|destruct (eq_str p_in "body"); [|destruct (eq_str p_in "formData")]]].
    - destruct (as_key name); cbn [bind] in H; try discriminate.
      injection H as <-. reflexivity.
    - destruct (as_key name); cbn [bind] in H; try discriminate.
      injection H as <-. reflexivity.
    - injection H as <-. reflexivity.
    - destruct (is_none (l_body st));
        apply set_form_field_url in H; exact H.
    - injection H as <-. reflexivity. }
  destruct name; reflexivity.
Qed.

Lemma add_parameters_url (fuel : nat) (definitions : pyval) (ps : list pyval) :
  forall st st',
    add_parameters fuel definitions st ps = Ret st' ->
    l_url st'
    = fold_left (fun u f => replace ("{" ++ fst f ++ "}") (snd f) u)
                (path_fillings fuel definitions ps) (l_url st).
Proof.
  induction ps as [|p ps IH]; intros st st' H; cbn [add_parameters] in H.
  - injection H as <-. reflexivity.
  - destruct (add_parameter fuel definitions st p) as [st1| | |] eqn:E;
      cbn [bind] in H; try discriminate.
    rewrite (IH _ _ H), (add_parameter_url _ _ _ _ _ E).
    cbn [path_fillings]. destruct (path_filling fuel definitions p); reflexivity.
Qed.

Lemma build_request_url (fuel : nat) (base_url path method : string)
      (operation swagger definitions : pyval) (ps : list pyval) (req : request) :
  build_request_for_operation fuel base_url path method operation swagger
  = Ret req ->
  find_definitions swagger = Ret definitions ->
  get operation "parameters" (PList []) = Ret (PList ps) ->
  url req
  = fold_left (fun u f => replace ("{" ++ fst f ++ "}") (snd f) u)
              (path_fillings fuel definitions ps)
              (urljoin (base_url ++ "/") (lstrip "/" path)).
Proof.
  unfold build_request_for_operation. intros H Hdefs Hps.
  rewrite Hdefs, Hps in H. cbn [bind iterate] in H.
  destruct (add_parameters fuel definitions _ ps) as [st| | |] eqn:E;
    cbn [bind] in H; try discriminate.
  destruct (request_body fuel definitions operation (l_body st));
    cbn [bind] in H; try discriminate.
  injection H as <-. cbn [url].
  now rewrite (add_parameters_url _ _ _ _ _ E).
Qed.

Lemma add_parameter_path (fuel : nat) (definitions : pyval)
      (st : locals) (p : pyval) (n v : string) :
  path_filling fuel definitions p = Some (n, v) ->
  add_parameter fuel definitions st p
  = Ret {| l_url := replace ("{" ++ n ++ "}") v (l_url st);
           l_params := l_params st; l_headers := l_headers st;
           l_body := l_body st; l_fresh := l_fresh st |}.
Proof.
  unfold add_parameter, path_filling.
  destruct (get p "in" PNone) as [p_in| | |]; cbn [bind]; try discriminate.
  destruct (get p "name" PNone) as [name| | |]; cbn [bind]; try discriminate.
  destruct name; try discriminate.
  destruct (parameter_sample fuel definitions p) as [sample| | |];
    cbn [bind]; try discriminate.
  destruct (eq_str p_in "path"); [| discriminate].
  intro H. injection H as <- <-. reflexivity.
Qed.

Lemma brace_free_append (a b : string) :
  brace_free (a ++ b) = brace_free a && brace_free b.
Proof.
  induction a as [|c a IH]; [reflexivity |].
  cbn [append brace_free]. rewrite IH. now rewrite andb_assoc.
Qed.

(** C8, as stated, fails: a path parameter whose sample is the text
    [{code}] leaves the placeholder in the built URL. *)
Lemma build_request_can_keep_placeholder :
  exists req,
    @build_request_for_operation example_runtime 1
      "https://openapi.twse.com.tw/v1" "/stock/{code}" "get"
      (PDict [("parameters",
               PList [PDict [("name", PStr "code"); ("in", PStr "path");
                             ("type", PStr "string");
                             ("enum", PList [PStr "{code}"])]])])
      (PDict [])
    = Ret req
    /\ occurs "{code}" (url req) = true.
Proof. eexists. split; [vm_compute; reflexivity | vm_compute; reflexivity]. Qed.

(** C8, amended: when the joined URL is a template of literal text and
    [{name}] placeholders with no other brace, and the declared path
    parameters have brace-free names and brace-free stringified samples,
    the built URL is the template with the placeholders of every declared
    path parameter filled with its stringified sample, and no [{name}] of
    a declared path parameter remains; in particular, the template
    [/stock/{code}] with path parameter [code] sampled as 123 is built
    into a URL ending in [/stock/123]. *)
Theorem build_request_fills_path_parameters :
  (forall fuel base_url path method operation swagger definitions ps req t,
      build_request_for_operation fuel base_url path method operation swagger
      = Ret req ->
      find_definitions swagger = Ret definitions ->
      get operation "parameters" (PList []) = Ret (PList ps) ->
      urljoin (base_url ++ "/") (lstrip "/" path) = render t ->
      well_formed t = true ->
      forallb brace_free_filling (path_fillings fuel definitions ps) = true ->
      url req = render (fill_all (path_fillings fuel definitions ps) t)
      /\ forall n v,
          In (n, v) (path_fillings fuel definitions ps) ->
          occurs ("{" ++ n ++ "}") (url req) = false)
  /\ (forall fuel base_url method swagger definitions p,
         find_definitions swagger = Ret definitions ->
         path_filling fuel definitions p = Some ("code", "123") ->
         brace_free base_url = true ->
         urljoin (base_url ++ "/") "stock/{code}" = base_url ++ "/stock/{code}" ->
         exists req,
           build_request_for_operation fuel base_url "/stock/{code}" method
             (PDict [("parameters", PList [p])]) swagger
           = Ret req
           /\ url req = base_url ++ "/stock/123").
Proof.
  split.
  - intros fuel base_url path method operation swagger definitions ps req t
           Hbuild Hdefs Hps Hjoin Hwf Hfs.
    rewrite (build_request_url _ _ _ _ _ _ _ _ _ Hbuild Hdefs Hps), Hjoin.
    rewrite (replace_all_render _ _ Hfs Hwf).
    split; [reflexivity |].
    intros n v Hin.
    assert (brace_free n = true) as Hn.
    { rewrite forallb_forall in Hfs. specialize (Hfs _ Hin).
      now apply andb_true_iff in Hfs as [Hn _]. }
    change ("{" ++ n ++ "}") with (placeholder n).
    rewrite (occurs_render n Hn _ (fill_all_well_formed _ _ Hfs Hwf)).
    now apply (fill_all_removes_holes n v).
  - intros fuel base_url method swagger definitions p Hdefs Hfill Hbase Hjoin.
    unfold build_request_for_operation.
    rewrite Hdefs. cbn [bind get lookup String.eqb Ascii.eqb Bool.eqb iterate
                         add_parameters lstrip].
    rewrite (add_parameter_path _ _ _ _ _ _ Hfill).
    cbn [bind request_body contains lookup String.eqb Ascii.eqb Bool.eqb
              l_url l_body l_params l_headers].
    eexists. split; [reflexivity |]. cbn [url]. rewrite Hjoin.
    assert (brace_free "code" = true) as Hcode by reflexivity.
    pose proof (replace_render "code" "123" Hcode
                  [Text (base_url ++ "/stock/"); Hole "code"]) as Hr.
    cbn [render fill map String.eqb Ascii.eqb Bool.eqb well_formed forallb]
      in Hr.
    rewrite brace_free_append, Hbase in Hr.
    rewrite !append_assoc in Hr. cbn [append] in Hr.
    apply Hr. reflexivity.
Qed.

End RequestUrl.

Lemma build_request_fills_path_parameters_witness :
  url {| url := "https://openapi.twse.com.tw/v1/stock/123";
         method := "GET";
         headers := GLOBAL_HEADERS;
         params := [("date", PStr "20240102")];
         json := PNone |}
  = render
      (fill_all
         (@path_fillings example_runtime 1 (PDict [])
            [PDict [("name", PStr "code"); ("in", PStr "path");
                    ("type", PStr "string"); ("pattern", PStr "^\d{4}$")];
             PDict [("name", PStr "date"); ("in", PStr "query");
                    ("type", PStr "string"); ("format", PStr "date")]])
         [Text "https://openapi.twse.com.tw/v1/stock/"; Hole "code"])
  /\ forall n v,
      In (n, v)
         (@path_fillings example_runtime 1 (PDict [])
            [PDict [("name", PStr "code"); ("in", PStr "path");
                    ("type", PStr "string"); ("pattern", PStr "^\d{4}$")];
             PDict [("name", PStr "date"); ("in", PStr "query");
                    ("type", PStr "string"); ("format", PStr "date")]]) ->
      occurs ("{" ++ n ++ "}")
             (url {| url := "https://openapi.twse.com.tw/v1/stock/123";
                     method := "GET";
                     headers := GLOBAL_HEADERS;
                     params := [("date", PStr "20240102")];
                     json := PNone |})
      = false.
Proof.
  exact (proj1 (@build_request_fills_path_parameters example_runtime)
               1%nat "https://openapi.twse.com.tw/v1" "/stock/{code}" "get"
               (PDict [("operationId", PStr "getStock");
                       ("parameters",
                        PList [PDict [("name", PStr "code"); ("in", PStr "path");
                                      ("type", PStr "string");
                                      ("pattern", PStr "^\d{4}$")];
                               PDict [("name", PStr "date"); ("in", PStr "query");
                                      ("type", PStr "string");
                                      ("format", PStr "date")]])])
               (PDict [("swagger", PStr "2.0")])
               (PDict [])
               [PDict [("name", PStr "code"); ("in", PStr "path");
                       ("type", PStr "string"); ("pattern", PStr "^\d{4}$")];
                PDict [("name", PStr "date"); ("in", PStr "query");
                       ("type", PStr "string"); ("format", PStr "date")]]
               {| url := "https://openapi.twse.com.tw/v1/stock/123";
                  method := "GET";
                  headers := GLOBAL_HEADERS;
                  params := [("date", PStr "20240102")];
                  json := PNone |}
               [Text "https://openapi.twse.com.tw/v1/stock/"; Hole "code"]
               eq_refl eq_refl eq_refl eq_refl eq_refl eq_refl).
Defined.

(* ================================================================== *)
(** * Dictionaries *)
(* ================================================================== *)

Lemma lookup_dict_set (k k' : string) (v : pyval) (d : list (string * pyval)) :
  lookup k (dict_set k' v d) = if (k' =? k) then Some v else lookup k d.
Proof.
  induction d as [|[k0 v0] d IH]; cbn [dict_set lookup].
  - reflexivity.
  - destruct (k0 =? k') eqn:E0; cbn [lookup].
    + apply String.eqb_eq in E0. subst k0. now destruct (k' =? k).
    + destruct (k0 =? k) eqn:E1; [| exact IH].
      apply String.eqb_eq in E1. subst k0.
      rewrite String.eqb_sym in E0. now rewrite E0.
Qed.


(* ================================================================== *)
(** * Further properties of the two samplers *)
(* ================================================================== *)

Section SamplerRules.

Context {rt : Runtime}.

(** The sampler past its [enum] rule. *)
Lemma sample_for_type_without_enum (d : list (string * pyval)) :
  d <> [] -> usable_enum d = false ->
  sample_for_type (PDict d)
  = let t := match lookup "type" d with
             | Some v => v | None => PStr "string" end in
    let fmt := match lookup "format" d with
               | Some v => v | None => PStr "" end in
    if eq_str t "integer" || eq_str t "number" then Ret (PInt 1) else
    if eq_str t "boolean" then Ret (PBool true) else
    if eq_str fmt "date" then Ret (PStr utcnow_strftime_Ymd) else
    if eq_str fmt "date-time" then Ret (PStr (utcnow_isoformat ++ "Z")) else
    match lookup "pattern" d with
    | Some pat =>
        found <- search digit_escape pat ;;
        if found then Ret (PStr "123") else Ret (PStr "sample")
    | None => Ret (PStr "sample")
    end.
Proof.
  intros Hne Henum. unfold sample_for_type, usable_enum in *.
  assert (truthy (PDict d) = true) as ->
      by (destruct d; [contradiction | reflexivity]).
  cbn [negb]. unfold contains, getitem, get.
  assert ((if match lookup "enum" d with Some _ => true | None => false end
           then e <- match lookup "enum" d with
                     | Some v => Ret v | None => Raise KeyError end ;;
                Ret (is_list e && truthy e)
           else Ret false) = Ret false) as Huse.
  { destruct (lookup "enum" d) as [e|]; [| reflexivity]. cbn [bind].
    destruct e as [| | | | |[|x l]|]; try reflexivity. discriminate. }
  cbn [bind]. rewrite Huse. cbn [bind]. cbv zeta.
  destruct (eq_str _ "integer" || eq_str _ "number"); [reflexivity |].
  destruct (eq_str _ "boolean"); [reflexivity |].
  destruct (eq_str _ "date"); [reflexivity |].
  destruct (eq_str _ "date-time"); [reflexivity |].
  destruct (lookup "pattern" d); reflexivity.
Qed.

Lemma sample_for_type_enum_value
      (d : list (string * pyval)) (v : pyval) (rest : list pyval) :
  lookup "enum" d = Some (PList (v :: rest)) ->
  sample_for_type (PDict d) = Ret v.
Proof.
  intros He. unfold sample_for_type.
  rewrite (lookup_some_nonempty _ _ _ He). cbn [negb].
  unfold contains, getitem. rewrite He. reflexivity.
Qed.

(** X1: a parameter declaration without a usable [enum] is sampled by its
    declared type: [1] for [integer] and [number], [True] for [boolean],
    whatever its [format] and [pattern]; an [enum] that is empty or not a
    list is passed over. *)
Theorem sample_for_type_by_type (d : list (string * pyval)) (t : pyval) :
  usable_enum d = false ->
  lookup "type" d = Some t ->
  (eq_str t "integer" || eq_str t "number" = true ->
   sample_for_type (PDict d) = Ret (PInt 1))
  /\ (eq_str t "boolean" = true ->
      sample_for_type (PDict d) = Ret (PBool true)).
Proof.
  intros Henum Ht.
  assert (d <> []) as Hne by (intros ->; discriminate).
  rewrite (sample_for_type_without_enum d Hne Henum), Ht. cbv zeta.
  split; intro H.
  - now rewrite H.
  - apply eq_str_true in H. subst t. reflexivity.
Qed.

(** X2: the parameter sampler returns a value for every declaration whose
    [pattern], when there is one, is a string: it does not raise. *)
Theorem sample_for_type_returns (d : list (string * pyval)) :
  (forall p, lookup "pattern" d = Some p -> exists s, p = PStr s) ->
  exists v, sample_for_type (PDict d) = Ret v.
Proof.
  intro Hpat.
  destruct d as [|kv d']; [now exists (PStr "sample") |].
  set (d := kv :: d') in *.
  destruct (usable_enum d) eqn:Henum.
  - unfold usable_enum in Henum.
    destruct (lookup "enum" d) as [[| | | | |[|x l]|]|] eqn:E;
      try discriminate.
    exists x. now apply (sample_for_type_enum_value d x l).
  - rewrite (sample_for_type_without_enum d ltac:(discriminate) Henum).
    cbv zeta.
    destruct (eq_str _ "integer" || eq_str _ "number"); [eauto |].
    destruct (eq_str _ "boolean"); [eauto |].
    destruct (eq_str _ "date"); [eauto |].
    destruct (eq_str _ "date-time"); [eauto |].
    destruct (lookup "pattern" d) as [p|]; [| eauto].
    destruct (Hpat p eq_refl) as [s ->]. cbn [search bind].
    destruct (re_search digit_escape s); eauto.
Qed.


End SamplerRules.

Lemma sample_for_type_by_type_witness :
  @sample_for_type example_runtime
    (PDict [("name", PStr "limit"); ("in", PStr "query");
            ("type", PStr "integer"); ("enum", PList []);
            ("format", PStr "date")])
  = Ret (PInt 1).
Proof.
  exact (proj1 (@sample_for_type_by_type example_runtime
                  [("name", PStr "limit"); ("in", PStr "query");
                   ("type", PStr "integer"); ("enum", PList []);
                   ("format", PStr "date")]
                  (PStr "integer") eq_refl eq_refl)
               eq_refl).
Defined.

Lemma sample_for_type_returns_witness :
  exists v,
    @sample_for_type example_runtime
      (PDict [("name", PStr "year"); ("in", PStr "query");
              ("pattern", PStr "^\d{4}$")])
    = Ret v.
Proof.
  apply (@sample_for_type_returns example_runtime
           [("name", PStr "year"); ("in", PStr "query");
            ("pattern", PStr "^\d{4}$")]).
  intros p H. vm_compute in H. injection H as <-. eexists. reflexivity.
Defined.


Section SynthesizerRules.

Context {rt : Runtime}.

(** The synthesizer past its [$ref] rule. *)
Lemma make_sample_without_ref (fuel : nat) (d : list (string * pyval))
      (definitions : pyval) :
  d <> [] -> lookup "$ref" d = None ->
  make_sample_body_from_schema (S fuel) (PDict d) definitions
  = let t0 := match lookup "type" d with Some v => v | None => PNone end in
    let t := if negb (truthy t0) && negb (absent "properties" d)
             then PStr "object" else t0 in
    if eq_str t "object" then
      kvs <- items (match lookup "properties" d with
                    | Some v => v | None => PDict [] end) ;;
      obj <- fill_properties
               (fun v => make_sample_body_from_schema fuel v definitions)
               kvs [] ;;
      Ret (PDict obj)
    else if eq_str t "array" then
      x <- make_sample_body_from_schema fuel
             (match lookup "items" d with Some v => v | None => PDict [] end)
             definitions ;;
      Ret (PList [x])
    else if eq_str t "integer" || eq_str t "number" then Ret (PInt 1)
    else if eq_str t "boolean" then Ret (PBool true)
    else
      let fmt := match lookup "format" d with
                 | Some v => v | None => PStr "" end in
      if eq_str fmt "date" then Ret (PStr utcnow_strftime_Ymd) else
      if eq_str fmt "date-time" then Ret (PStr (utcnow_isoformat ++ "Z")) else
      match lookup "enum" d with
      | Some (PList l) => first l
      | _ => Ret (match lookup "example" d with
                  | Some ex => if truthy ex then ex else PStr "sample"
                  | None => PStr "sample"
                  end)
      end.
Proof.
  intros Hne Href. cbn [make_sample_body_from_schema].
  assert (truthy (PDict d) = true) as ->
      by (destruct d; [contradiction | reflexivity]).
  cbn [negb]. unfold contains at 1. rewrite Href. cbn [bind].
  unfold get at 1. cbn [bind]. cbv zeta.
  set (t0 := match lookup "type" d with Some v => v | None => PNone end).
  assert ((if truthy t0 then Ret false else contains "properties" (PDict d))
          = Ret (negb (truthy t0) && negb (absent "properties" d))) as ->.
  { unfold contains, absent. destruct (truthy t0); [reflexivity |].
    now destruct (lookup "properties" d). }
  cbn [bind].
  destruct (eq_str _ "object"); [reflexivity |].
  destruct (eq_str _ "array"); [reflexivity |].
  destruct (eq_str _ "integer" || eq_str _ "number"); [reflexivity |].
  destruct (eq_str _ "boolean"); [reflexivity |].
  unfold get, contains, getitem. cbn [bind].
  destruct (eq_str _ "date"); [reflexivity |].
  destruct (eq_str _ "date-time"); [reflexivity |].
  destruct (lookup "enum" d) as [e|]; cbn [bind].
  - destruct e; cbn [is_list bind]; try reflexivity;
      destruct (lookup "example" d); reflexivity.
  - destruct (lookup "example" d); reflexivity.
Qed.

(** X4: a fragment without [$ref] whose [type] is [integer] or [number] is
    synthesized as [1], and one whose [type] is [boolean] as [True],
    whatever else it declares. *)
Theorem make_sample_scalar_types (fuel : nat) (d : list (string * pyval))
        (definitions t : pyval) :
  lookup "$ref" d = None ->
  lookup "type" d = Some t ->
  (eq_str t "integer" || eq_str t "number" = true ->
   make_sample_body_from_schema (S fuel) (PDict d) definitions = Ret (PInt 1))
  /\ (eq_str t "boolean" = true ->
      make_sample_body_from_schema (S fuel) (PDict d) definitions
      = Ret (PBool true)).
Proof.
  intros Href Ht.
  assert (d <> []) as Hne by (intros ->; discriminate).
  rewrite (make_sample_without_ref fuel d definitions Hne Href), Ht.
  cbv zeta. split; intro H.
  - apply orb_true_iff in H as [H | H]; apply eq_str_true in H; subst t;
      reflexivity.
  - apply eq_str_true in H. subst t. reflexivity.
Qed.

(** X5: a fragment without [$ref] whose [type] is [array] is synthesized as
    the one-element list holding the synthesis of its [items], or of the
    empty schema when it has none. *)
Theorem make_sample_array (fuel : nat) (d : list (string * pyval))
        (definitions x : pyval) :
  lookup "$ref" d = None ->
  lookup "type" d = Some (PStr "array") ->
  make_sample_body_from_schema fuel
    (match lookup "items" d with Some its => its | None => PDict [] end)
    definitions = Ret x ->
  make_sample_body_from_schema (S fuel) (PDict d) definitions
  = Ret (PList [x]).
Proof.
  intros Href Ht Hx.
  assert (d <> []) as Hne by (intros ->; discriminate).
  rewrite (make_sample_without_ref fuel d definitions Hne Href), Ht.
  cbv zeta. cbn [truthy String.eqb negb andb eq_str Ascii.eqb Bool.eqb].
  now rewrite Hx.
Qed.

(** X6: a schema that is not a dict: a falsy one ([None], [0], the empty
    string or list) gives the empty object, any other one makes the
    synthesizer raise. *)
Theorem make_sample_not_a_dict (fuel : nat) (schema definitions : pyval) :
  is_dict schema = false ->
  (truthy schema = false ->
   make_sample_body_from_schema (S fuel) schema definitions = Ret (PDict []))
  /\ (truthy schema = true ->
      make_sample_body_from_schema (S fuel) schema definitions
      = Raise TypeError
      \/ make_sample_body_from_schema (S fuel) schema definitions
         = Raise AttributeError).
Proof.
  intro Hd. split; intro Ht; cbn [make_sample_body_from_schema]; rewrite Ht;
    cbn [negb]; [reflexivity |].
  destruct schema; try discriminate; cbn [contains bind];
    try (left; reflexivity).
  - destruct (occurs "$ref" s); cbn [getitem get bind]; auto.
  - destruct (existsb _ l); cbn [getitem get bind]; auto.
Qed.

(** X7: a definition that refers to itself is never synthesized: whatever the
    fuel, the synthesizer is still descending when it runs out. *)
Theorem make_sample_self_reference_diverges
        (d defs : list (string * pyval)) (ref key : string) :
  lookup "$ref" d = Some (PStr ref) ->
  re_match ref_pattern ref = Some key ->
  lookup key defs = Some (PDict d) ->
  forall fuel,
    make_sample_body_from_schema fuel (PDict d) (PDict defs) = OutOfFuel.
Proof.
  intros Href Hm Hk fuel. induction fuel as [|fuel IH]; [reflexivity |].
  rewrite (make_sample_ref_step _ _ _ _ Href), Hm.
  assert (truthy (PDict defs) = true) as ->
      by (destruct defs; [discriminate | reflexivity]).
  unfold get. rewrite Hk. cbn [bind].
  rewrite (lookup_some_nonempty _ _ _ Href). cbn [bind].
  rewrite (lookup_some_nonempty _ _ _ Href). exact IH.
Qed.

End SynthesizerRules.

Lemma make_sample_scalar_types_witness :
  @make_sample_body_from_schema example_runtime 1
    (PDict [("type", PStr "number"); ("format", PStr "date");
            ("example", PFloat 0)]) PNone
  = Ret (PInt 1).
Proof.
  exact (proj1 (@make_sample_scalar_types example_runtime 0
                  [("type", PStr "number"); ("format", PStr "date");
                   ("example", PFloat 0)]
                  PNone (PStr "number") eq_refl eq_refl)
               eq_refl).
Defined.

Lemma make_sample_array_witness :
  @make_sample_body_from_schema example_runtime 2
    (PDict [("type", PStr "array");
            ("items", PDict [("type", PStr "boolean")])]) PNone
  = Ret (PList [PBool true]).
Proof.
  exact (@make_sample_array example_runtime 1
           [("type", PStr "array");
            ("items", PDict [("type", PStr "boolean")])]
           PNone (PBool true) eq_refl eq_refl eq_refl).
Defined.

Lemma make_sample_not_a_dict_witness :
  @make_sample_body_from_schema example_runtime 1
    (PList [PStr "$ref"]) PNone = Raise TypeError
  \/ @make_sample_body_from_schema example_runtime 1
       (PList [PStr "$ref"]) PNone = Raise AttributeError.
Proof.
  exact (proj2 (@make_sample_not_a_dict example_runtime 0
                  (PList [PStr "$ref"]) PNone eq_refl)
               eq_refl).
Defined.

Lemma make_sample_self_reference_diverges_witness :
  @make_sample_body_from_schema example_runtime 1000
    (PDict [("$ref", PStr "#/definitions/Node")])
    (PDict [("Node", PDict [("$ref", PStr "#/definitions/Node")])])
  = OutOfFuel.
Proof.
  exact (@make_sample_self_reference_diverges example_runtime
           [("$ref", PStr "#/definitions/Node")]
           [("Node", PDict [("$ref", PStr "#/definitions/Node")])]
           "#/definitions/Node" "Node" eq_refl eq_refl eq_refl 1000%nat).
Defined.

Section ObjectSynthesis.

Context {rt : Runtime}.

Lemma dict_set_fresh (k : string) (v : pyval) (d : list (string * pyval)) :
  ~ In k (map fst d) -> dict_set k v d = (d ++ [(k, v)])%list.
Proof.
  induction d as [|[k0 v0] d IH]; simpl; intro Hin; [reflexivity |].
  destruct (k0 =? k) eqn:E.
  - apply String.eqb_eq in E. tauto.
  - f_equal. apply IH. tauto.
Qed.

(** The loop over distinct property names appends one key for each. *)
Lemma fill_properties_distinct (f : pyval -> result pyval) :
  forall props acc obj,
    NoDup (map fst props) ->
    (forall k, In k (map fst props) -> ~ In k (map fst acc)) ->
    fill_properties f props acc = Ret obj ->
    exists vals,
      obj = (acc ++ vals)%list
      /\ map fst vals = map fst props
      /\ Forall2 (fun kv kx => f (snd kv) = Ret (snd kx)) props vals.
Proof.
  induction props as [|[k v] props IH]; intros acc obj Hnd Hfresh Hfill.
  - cbn in Hfill. injection Hfill as <-. exists []. rewrite app_nil_r.
    repeat split. constructor.
  - cbn [fill_properties] in Hfill.
    destruct (f v) as [x| | |] eqn:Ev; cbn [bind] in Hfill; try discriminate.
    cbn [map fst] in Hnd. apply NoDup_cons_iff in Hnd as [Hk Hnd].
    rewrite (dict_set_fresh k x acc) in Hfill
      by (apply Hfresh; now left).
    assert (forall k', In k' (map fst props) ->
                       ~ In k' (map fst (acc ++ [(k, x)])%list)) as Hfresh'.
    { intros k' Hk'. rewrite map_app, in_app_iff. cbn.
      intros [H | [H | []]].
      - apply (Hfresh k'); [now right | exact H].
      - subst k'. contradiction. }
    destruct (IH (acc ++ [(k, x)])%list obj Hnd Hfresh' Hfill)
      as (vals & -> & Hkeys & Hall).
    exists ((k, x) :: vals). rewrite <- app_assoc. repeat split.
    + cbn. now rewrite Hkeys.
    + constructor; [exact Ev | exact Hall].
Qed.

(** X8: an object-like fragment with distinct property names is synthesized
    as an object with exactly those names, in declared order, each holding
    the synthesis of its property's schema. *)
Theorem make_sample_object (fuel : nat) (d props : list (string * pyval))
        (definitions v : pyval) :
  object_like d = true ->
  lookup "properties" d = Some (PDict props) ->
  NoDup (map fst props) ->
  make_sample_body_from_schema (S fuel) (PDict d) definitions = Ret v ->
  exists obj,
    v = PDict obj
    /\ map fst obj = map fst props
    /\ Forall2 (fun kv kx =>
                  make_sample_body_from_schema fuel (snd kv) definitions
                  = Ret (snd kx)) props obj.
Proof.
  unfold object_like, absent. intros Hobj Hprops Hnd.
  apply andb_true_iff in Hobj as [Href Htype].
  assert (lookup "$ref" d = None) as Hr
      by (destruct (lookup "$ref" d); [discriminate | reflexivity]).
  assert (d <> []) as Hne by (intros ->; discriminate).
  rewrite (make_sample_without_ref fuel d definitions Hne Hr). cbv zeta.
  unfold absent. rewrite Hprops in *. cbn [negb andb] in *.
  assert (eq_str
            (if negb (truthy match lookup "type" d with
                             | Some t => t | None => PNone end) && true
             then PStr "object"
             else match lookup "type" d with
                  | Some t => t | None => PNone end) "object" = true) as ->.
  { destruct (lookup "type" d) as [t|]; [| reflexivity].
    destruct (truthy t); cbn [negb andb orb] in *; [| reflexivity].
    now rewrite orb_false_r in Htype. }
  cbn [items bind]. intro H.
  destruct (fill_properties _ props []) as [obj| | |] eqn:E;
    cbn [bind] in H; try discriminate.
  injection H as <-.
  destruct (fill_properties_distinct _ props [] obj Hnd
              (fun k _ (H : In k []) => H) E) as (vals & -> & Hk & Ha).
  exists vals. now repeat split.
Qed.

(** X9: without a definitions table (absent or empty) the synthesizer needs no
    more nested calls than the schema is deep: fuel one above the nesting
    depth of the schema gives its outcome, a value or an exception. *)
Theorem make_sample_depth_bound (schema definitions : pyval) :
  truthy definitions = false ->
  exists outcome,
    ((exists v, outcome = Ret v) \/ (exists e, outcome = Raise e))
    /\ forall n, (S (height schema) <= n)%nat ->
                 make_sample_body_from_schema n schema definitions = outcome.
Proof.
  intro Hdefs.
  assert (forall ref, resolve_key definitions ref = None) as Hres.
  { intro ref. unfold resolve_key.
    destruct (re_match ref_pattern ref); [| reflexivity].
    destruct definitions as [| | | | | |[|kv defs]]; try reflexivity.
    discriminate. }
  assert (ranked (fun _ => 0%nat) definitions = true) as Hranked.
  { destruct definitions as [| | | | | |[|kv defs]]; try reflexivity.
    discriminate. }
  assert (make_sample_body_from_schema (S (height schema)) schema definitions
          <> OutOfFuel) as Hfuel.
  { apply (make_sample_enough_fuel (fun _ => 0%nat) definitions 0%nat Hranked)
      with (r := 0%nat).
    - intros defs k v ->. destruct defs; [contradiction | discriminate].
    - intros ref k _ H. rewrite Hres in H. discriminate.
    - lia. }
  exists (make_sample_body_from_schema (S (height schema)) schema definitions).
  split.
  - pose proof (make_sample_modelled definitions (S (height schema)) schema).
    destruct (make_sample_body_from_schema (S (height schema)) schema
                                           definitions);
      [left; eauto | right; eauto | congruence | congruence].
  - intros n Hn. now apply make_sample_more_fuel.
Qed.


End ObjectSynthesis.

Lemma make_sample_object_witness :
  exists obj,
    PDict [("code", PStr "sample"); ("price", PInt 1)] = PDict obj
    /\ map fst obj = ["code"; "price"]
    /\ Forall2 (fun kv kx =>
                  @make_sample_body_from_schema example_runtime 1 (snd kv) PNone
                  = Ret (snd kx))
               [("code", PDict [("type", PStr "string")]);
                ("price", PDict [("type", PStr "number")])]
               obj.
Proof.
  refine (@make_sample_object example_runtime 1
            [("type", PStr "object");
             ("properties",
              PDict [("code", PDict [("type", PStr "string")]);
                     ("price", PDict [("type", PStr "number")])])]
            [("code", PDict [("type", PStr "string")]);
             ("price", PDict [("type", PStr "number")])]
            PNone (PDict [("code", PStr "sample"); ("price", PInt 1)])
            eq_refl eq_refl _ eq_refl).
  repeat constructor; simpl; intuition discriminate.
Defined.

Lemma make_sample_depth_bound_witness :
  exists outcome,
    ((exists v, outcome = Ret v) \/ (exists e, outcome = Raise e))
    /\ forall n,
        (S (height (PDict [("type", PStr "array");
                           ("items", PDict [("$ref", PStr "#/definitions/A")])]))
         <= n)%nat ->
        @make_sample_body_from_schema example_runtime n
          (PDict [("type", PStr "array");
                  ("items", PDict [("$ref", PStr "#/definitions/A")])])
          PNone
        = outcome.
Proof.
  exact (@make_sample_depth_bound example_runtime
           (PDict [("type", PStr "array");
                   ("items", PDict [("$ref", PStr "#/definitions/A")])])
           PNone eq_refl).
Defined.


(* ================================================================== *)
(** * Sanitized names *)
(* ================================================================== *)

Section Sanitizing.

Variable keep : ascii -> bool.

Hypothesis keep_underscore : keep "_"%char = true.

Lemma many_rejected (s : string) :
  many (fun c => negb (keep c)) s (fun rest => Some (rest, @None string))
  = Some (skip_rejected keep s, None).
Proof.
  induction s as [|c s IH]; simpl; [reflexivity |].
  destruct (keep c); simpl; [reflexivity | now rewrite IH].
Qed.

Lemma length_skip_rejected (s : string) :
  (length (skip_rejected keep s) <= length s)%nat.
Proof.
  induction s as [|c s IH]; simpl; [lia |].
  destruct (keep c); simpl; lia.
Qed.

Lemma squeeze_skip (s : string) :
  squeeze keep true s = squeeze keep false (skip_rejected keep s).
Proof.
  induction s as [|c s IH]; simpl; [reflexivity |].
  destruct (keep c) eqn:E; simpl; [now rewrite E | exact IH].
Qed.

Lemma sub_from_squeeze (fuel : nat) :
  forall s, (length s < fuel)%nat ->
            sub_from fuel (Plus (fun c => negb (keep c))) "_" s
            = squeeze keep false s.
Proof.
  induction fuel as [|fuel IH]; intros s Hlen; [lia |].
  destruct s as [|c s]; [reflexivity |].
  cbn [sub_from]. unfold match_at. cbn [run squeeze].
  destruct (keep c) eqn:E; cbn [negb].
  - rewrite IH by (simpl in Hlen; lia). reflexivity.
  - rewrite many_rejected.
    pose proof (length_skip_rejected s) as Hskip.
    assert ((length (skip_rejected keep s) <? length (String c s))%nat = true)
      as -> by (apply Nat.ltb_lt; simpl; lia).
    rewrite IH by (simpl in Hlen; lia).
    now rewrite squeeze_skip.
Qed.

Lemma re_sub_squeeze (s : string) :
  re_sub (Plus (fun c => negb (keep c))) "_" s = squeeze keep false s.
Proof. unfold re_sub. apply sub_from_squeeze. lia. Qed.

Lemma squeeze_kept (in_run : bool) (s : string) :
  all_chars keep (squeeze keep in_run s) = true.
Proof.
  revert in_run. induction s as [|c s IH]; intro in_run; [reflexivity |].
  cbn [squeeze]. destruct (keep c) eqn:E.
  - cbn [all_chars]. now rewrite E, IH.
  - destruct in_run; [apply IH |].
    cbn [all_chars]. now rewrite keep_underscore, IH.
Qed.

Lemma squeeze_of_kept (s : string) :
  all_chars keep s = true -> squeeze keep false s = s.
Proof.
  induction s as [|c s IH]; [reflexivity |].
  cbn [all_chars squeeze]. intro H. apply andb_true_iff in H as [Hc Hs].
  now rewrite Hc, IH.
Qed.

Lemma length_squeeze (in_run : bool) (s : string) :
  (length (squeeze keep in_run s) <= length s)%nat.
Proof.
  revert in_run. induction s as [|c s IH]; intro in_run; [simpl; lia |].
  cbn [squeeze]. destruct (keep c).
  - specialize (IH false). simpl. lia.
  - destruct in_run; [specialize (IH true) | specialize (IH true)];
      simpl; lia.
Qed.

End Sanitizing.

Lemma all_chars_append (p : ascii -> bool) (a b : string) :
  all_chars p (a ++ b) = all_chars p a && all_chars p b.
Proof.
  induction a as [|c a IH]; [reflexivity |].
  cbn [append all_chars]. rewrite IH. now rewrite andb_assoc.
Qed.

Lemma sanitize_filename_kept (name : string) :
  all_chars filename_char (sanitize_filename name) = true.
Proof.
  unfold sanitize_filename, unsafe_run.
  rewrite (re_sub_squeeze filename_char). now apply squeeze_kept.
Qed.

(** X11: a sanitized file name holds only digits, ASCII letters, dots,
    underscores and hyphens, is no longer than the name it comes from, and
    sanitizing it again changes nothing. *)
Theorem sanitize_filename_safe (name : string) :
  all_chars filename_char (sanitize_filename name) = true
  /\ (length (sanitize_filename name) <= length name)%nat
  /\ sanitize_filename (sanitize_filename name) = sanitize_filename name.
Proof.
  unfold sanitize_filename, unsafe_run.
  rewrite !(re_sub_squeeze filename_char).
  pose proof (squeeze_kept filename_char eq_refl false name) as Hsafe.
  repeat split.
  - exact Hsafe.
  - apply length_squeeze.
  - now apply squeeze_of_kept.
Qed.

(** X12: the name of a per-endpoint file holds no character other than digits,
    ASCII letters, dots, underscores and hyphens: in particular no path
    separator. *)
Theorem output_filename_safe (method path : string) :
  In method LISTED_METHODS ->
  all_chars filename_char (output_filename method path) = true.
Proof.
  intro Hm. unfold output_filename.
  rewrite !all_chars_append.
  rewrite (sanitize_filename_kept path).
  cbn in Hm.
  destruct Hm as [<- | [<- | [<- | [<- | [<- | []]]]]]; reflexivity.
Qed.

Lemma output_filename_safe_witness :
  all_chars filename_char (output_filename "get" "/stock/{code}") = true.
Proof.
  apply (output_filename_safe "get" "/stock/{code}"). simpl. auto.
Defined.

(** X13: the folder name of a source holds only digits, ASCII letters,
    underscores and hyphens, whatever the document URL. *)
Theorem get_source_dir_name_safe (swagger_url : string) :
  all_chars dirname_char (get_source_dir_name swagger_url) = true.
Proof.
  unfold get_source_dir_name.
  destruct (occurs "twse" swagger_url); [reflexivity |].
  destruct (occurs "tpex" swagger_url); [reflexivity |].
  destruct (occurs "taifex" swagger_url); [reflexivity |].
  unfold unsafe_dir_run. rewrite (re_sub_squeeze dirname_char).
  now apply squeeze_kept.
Qed.

(* ================================================================== *)
(** * The operation lister *)
(* ================================================================== *)

Section Lister.

Lemma list_methods_spec (path : string) (ms : list (string * pyval))
      (p m : string) (op : pyval) :
  In (p, m, op) (list_methods path ms)
  <-> p = path
      /\ exists k, In (k, op) ms /\ m = lower k
                   /\ one_of m LISTED_METHODS = true.
Proof.
  induction ms as [|[k0 op0] ms IH]; cbn [list_methods].
  - split; [contradiction | intros (_ & k & [] & _)].
  - destruct (one_of (lower k0) LISTED_METHODS) eqn:E.
    + cbn [In]. rewrite IH. split.
      * intros [H | (Hp & k & Hin & Hm & Hl)].
        -- injection H as <- <- <-.
           exact (conj eq_refl
                       (ex_intro _ k0 (conj (or_introl eq_refl)
                                            (conj eq_refl E)))).
        -- exact (conj Hp (ex_intro _ k (conj (or_intror Hin)
                                              (conj Hm Hl)))).
      * intros (Hp & k & [Hin | Hin] & Hm & Hl).
        -- injection Hin as <- <-. left. now subst.
        -- right. exact (conj Hp (ex_intro _ k (conj Hin (conj Hm Hl)))).
    + rewrite IH. split.
      * intros (Hp & k & Hin & Hm & Hl).
        exact (conj Hp (ex_intro _ k (conj (or_intror Hin) (conj Hm Hl)))).
      * intros (Hp & k & [Hin | Hin] & Hm & Hl).
        -- injection Hin as <- <-. subst m. congruence.
        -- exact (conj Hp (ex_intro _ k (conj Hin (conj Hm Hl)))).
Qed.

Lemma list_paths_spec (paths : list (string * pyval)) :
  forall ops,
    list_paths paths = Ret ops ->
    forall p m op,
      In (p, m, op) ops
      <-> exists ms k, In (p, PDict ms) paths /\ In (k, op) ms
                       /\ m = lower k /\ one_of m LISTED_METHODS = true.
Proof.
  induction paths as [|[path item] paths IH]; intros ops H p m op.
  - cbn in H. injection H as <-. split; [contradiction |].
    intros (ms & k & [] & _).
  - cbn [list_paths] in H.
    destruct item; cbn [items bind] in H; try discriminate.
    destruct (list_paths paths) as [ops'| | |]; cbn [bind] in H;
      try discriminate.
    injection H as <-. rewrite in_app_iff, list_methods_spec, (IH ops' eq_refl).
    split.
    + intros [(-> & k & Hin & Hm & Hl) | (ms & k & Hin & Hrest)].
      * exists d, k. exact (conj (or_introl eq_refl) (conj Hin (conj Hm Hl))).
      * exists ms, k. exact (conj (or_intror Hin) Hrest).
    + intros (ms & k & [Hin | Hin] & Hrest).
      * injection Hin as <- <-. left. split; [reflexivity |]. now exists k.
      * right. now exists ms, k.
Qed.

(** X14: the lister returns exactly the operations of the document whose method
    name, in lower case, is one of get, post, put, patch and delete; it
    returns that lower-case name with each. *)
Theorem list_operations_exact
        (sw paths : list (string * pyval))
        (ops : list (string * string * pyval)) :
  lookup "paths" sw = Some (PDict paths) ->
  list_operations (PDict sw) = Ret ops ->
  forall p m op,
    In (p, m, op) ops
    <-> exists ms k, In (p, PDict ms) paths /\ In (k, op) ms
                     /\ m = lower k /\ In m LISTED_METHODS.
Proof.
  intros Hpaths H p m op. unfold list_operations, get in H.
  rewrite Hpaths in H. cbn [bind items] in H.
  rewrite (list_paths_spec paths ops H).
  assert (one_of m LISTED_METHODS = true <-> In m LISTED_METHODS) as Hone.
  { unfold one_of. rewrite existsb_exists. split.
    - intros (x & Hx & Heq). apply String.eqb_eq in Heq. now subst.
    - intro Hin. exists m. split; [exact Hin | apply String.eqb_refl]. }
  split; intros (ms & k & H1 & H2 & H3 & H4); exists ms, k;
    apply Hone in H4; auto.
Qed.

End Lister.

Lemma list_operations_exact_witness :
  In ("/stock", "get", PDict [("summary", PStr "Quotes")])
     [("/stock", "get", PDict [("summary", PStr "Quotes")])]
  <-> exists ms k,
        In ("/stock", PDict ms)
           [("/stock",
             PDict [("GET", PDict [("summary", PStr "Quotes")]);
                    ("parameters", PList [])])]
        /\ In (k, PDict [("summary", PStr "Quotes")]) ms
        /\ "get" = lower k /\ In "get" LISTED_METHODS.
Proof.
  exact (list_operations_exact
           [("swagger", PStr "2.0");
            ("paths",
             PDict [("/stock",
                     PDict [("GET", PDict [("summary", PStr "Quotes")]);
                            ("parameters", PList [])])])]
           [("/stock",
             PDict [("GET", PDict [("summary", PStr "Quotes")]);
                    ("parameters", PList [])])]
           [("/stock", "get", PDict [("summary", PStr "Quotes")])]
           eq_refl eq_refl
           "/stock" "get" (PDict [("summary", PStr "Quotes")])).
Defined.

(* ================================================================== *)
(** * The executor and the main loop *)
(* ================================================================== *)

Section Executing.

Variable network : http_call -> http_reply.

(** X15: the executor makes at most one call; the call carries the request's
    URL, headers and query parameters unchanged, its verb is the request's
    method, and it carries the JSON body only for POST and PUT. *)
Theorem execute_request_calls (req : request) :
  (List.length (fst (execute_request network req)) <= 1)%nat
  /\ forall c,
      In c (fst (execute_request network req)) ->
      c_url c = url req
      /\ c_headers c = headers req
      /\ c_params c = params req
      /\ verb_name (c_verb c) = SwaggerAPI.method req
      /\ c_json c = match c_verb c with
                    | POST | PUT => Some (json req)
                    | GET | DELETE => None
                    end
      /\ snd (execute_request network req) = read_reply (network c).
Proof.
  unfold execute_request.
  destruct (SwaggerAPI.method req =? "GET") eqn:E1;
    [| destruct (SwaggerAPI.method req =? "POST") eqn:E2;
       [| destruct (SwaggerAPI.method req =? "PUT") eqn:E3;
          [| destruct (SwaggerAPI.method req =? "DELETE") eqn:E4]]];
    cbn [fst snd List.length In]; (split; [lia |]); intros call Hin.
  - destruct Hin as [<- | []]. apply String.eqb_eq in E1.
    cbn. rewrite E1. repeat split.
  - destruct Hin as [<- | []]. apply String.eqb_eq in E2.
    cbn. rewrite E2. repeat split.
  - destruct Hin as [<- | []]. apply String.eqb_eq in E3.
    cbn. rewrite E3. repeat split.
  - destruct Hin as [<- | []]. apply String.eqb_eq in E4.
    cbn. rewrite E4. repeat split.
  - contradiction.
Qed.

End Executing.

Lemma execute_request_calls_witness :
  c_json {| c_verb := POST; c_url := "https://h/orders";
            c_headers := GLOBAL_HEADERS; c_params := [];
            c_json := Some (PDict [("qty", PInt 1)]) |}
  = Some (PDict [("qty", PInt 1)]).
Proof.
  refine (proj1 (proj2 (proj2 (proj2 (proj2
            (proj2 (execute_request_calls
                      (fun _ => Failed "timed out")
                      {| url := "https://h/orders"; method := "POST";
                         headers := GLOBAL_HEADERS; params := [];
                         json := PDict [("qty", PInt 1)] |})
                   {| c_verb := POST; c_url := "https://h/orders";
                      c_headers := GLOBAL_HEADERS; c_params := [];
                      c_json := Some (PDict [("qty", PInt 1)]) |}
                   _)))))).
  simpl. auto.
Defined.

Section Running.

Context {rt : Runtime}.

Variable network : http_call -> http_reply.

Lemma get_letter (c : ascii) (lo up : ascii) :
  (lo = "g" /\ up = "G" \/ lo = "e" /\ up = "E" \/ lo = "t" /\ up = "T")%char ->
  (if is_upper c then ascii_of_nat (nat_of_ascii c + 32) else c) = lo ->
  (if is_lower c then ascii_of_nat (nat_of_ascii c - 32) else c) = up.
Proof.
  intros [[-> ->] | [[-> ->] | [-> ->]]];
    destruct c as [[] [] [] [] [] [] [] []]; vm_compute;
    intro H; try discriminate H; reflexivity.
Qed.

Lemma allowed_method_upper (method : string) :
  one_of (lower method) ALLOWED_METHODS = true -> upper method = "GET".
Proof.
  unfold one_of, ALLOWED_METHODS. cbn [existsb]. rewrite orb_false_r.
  intro H. apply String.eqb_eq in H.
  destruct method as [|c1 [|c2 [|c3 [|c4 m]]]]; try discriminate H.
  cbn [lower] in H. injection H as H1 H2 H3. cbn [upper].
  rewrite (get_letter c1 "g" "G"), (get_letter c2 "e" "E"),
          (get_letter c3 "t" "T"); auto 6.
Qed.

Lemma execute_get (req : request) :
  SwaggerAPI.method req = "GET" ->
  execute_request network req
  = ([{| c_verb := GET; c_url := url req; c_headers := headers req;
         c_params := params req; c_json := None |}],
     read_reply (network {| c_verb := GET; c_url := url req;
                            c_headers := headers req;
                            c_params := params req; c_json := None |})).
Proof. intro H. unfold execute_request. now rewrite H. Qed.

Lemma read_reply_status (r : http_reply) :
  exists status, get (read_reply r) "status_code" PNone = Ret status.
Proof. destruct r; cbn; eauto. Qed.

(** One pass of the loop, by cases. *)
Lemma run_operation_cases (fuel : nat) (base_url : string) (swagger : pyval)
      (st : run_state) (path method : string) (op : pyval) :
  (one_of (lower method) ALLOWED_METHODS = false
   /\ run_operation network fuel base_url swagger st path method op
      = (st, Ret tt))
  \/ (one_of (lower method) ALLOWED_METHODS = true
      /\ fst (run_operation network fuel base_url swagger st path method op)
         = st
      /\ snd (run_operation network fuel base_url swagger st path method op)
         <> Ret tt)
  \/ (one_of (lower method) ALLOWED_METHODS = true
      /\ exists c f e,
          is_get_call c = true
          /\ entry_of_file f e
          /\ fst f = output_filename method path
          /\ run_operation network fuel base_url swagger st path method op
             = ({| calls := calls st ++ [c];
                   files := files st ++ [f];
                   manifest := manifest st ++ [e] |}, Ret tt)).
Proof.
  unfold run_operation.
  destruct (one_of (lower method) ALLOWED_METHODS) eqn:Hallowed;
    cbn [negb]; [| now left].
  right.
  destruct (build_request_for_operation fuel base_url path method op swagger)
    as [req| | |] eqn:Hbuild.
  2-4: left; cbn [fst snd]; repeat split; discriminate.
  right. split; [reflexivity |].
  pose proof (build_request_method _ _ _ _ _ _ _ Hbuild) as Hm.
  rewrite (allowed_method_upper method Hallowed) in Hm.
  rewrite (execute_get req Hm). cbn [fst snd].
  assert (exists d, op = PDict d) as [d ->].
  { unfold build_request_for_operation in Hbuild.
    destruct (find_definitions swagger); cbn [bind] in Hbuild;
      try discriminate.
    destruct op; cbn [get bind] in Hbuild; try discriminate. eauto. }
  cbn [get].
  destruct (read_reply_status
              (network {| c_verb := GET; c_url := url req;
                          c_headers := headers req;
                          c_params := params req; c_json := None |}))
    as [status Hstatus].
  rewrite Hstatus. cbn [calls files manifest].
  do 3 eexists. split; [| split; [| split; [| reflexivity]]].
  - reflexivity.
  - unfold entry_of_file. cbn [fst snd].
    do 7 eexists. repeat split. exact Hstatus.
  - reflexivity.
Qed.

Lemma run_operation_raises (fuel : nat) (base_url : string) (swagger : pyval)
      (st : run_state) (path method : string) (op : pyval) (e : exn) :
  one_of (lower method) ALLOWED_METHODS = true ->
  build_request_for_operation fuel base_url path method op swagger = Raise e ->
  run_operation network fuel base_url swagger st path method op
  = (st, Raise e).
Proof. intros Ha Hb. unfold run_operation. now rewrite Ha, Hb. Qed.

Lemma run_operations_append (fuel : nat) (base_url : string) (swagger : pyval)
      (ops1 ops2 : list (string * string * pyval)) :
  forall st st1,
    run_operations network fuel base_url swagger st ops1 = (st1, Ret tt) ->
    run_operations network fuel base_url swagger st (ops1 ++ ops2)
    = run_operations network fuel base_url swagger st1 ops2.
Proof.
  induction ops1 as [|[[p m] op] ops1 IH]; intros st st1 H.
  - cbn in H. injection H as <-. reflexivity.
  - cbn [run_operations app] in *.
    destruct (run_operation network fuel base_url swagger st p m op)
      as [st' [[]| | |]]; try discriminate.
    now apply IH.
Qed.

(** X16: only GET requests reach the network: every call the main loop makes,
    whatever the operations listed and however the loop ends, is a GET. *)
Theorem run_operations_only_get (fuel : nat) (base_url : string)
        (swagger : pyval) (ops : list (string * string * pyval)) :
  forallb is_get_call
          (calls (fst (run_operations network fuel base_url swagger
                                      empty_run ops))) = true.
Proof.
  assert (forall st,
             forallb is_get_call (calls st) = true ->
             forallb is_get_call
                     (calls (fst (run_operations network fuel base_url swagger
                                                 st ops))) = true) as H.
  { induction ops as [|[[p m] op] ops IH]; intros st Hst; [exact Hst |].
    cbn [run_operations].
    destruct (run_operation_cases fuel base_url swagger st p m op)
      as [[_ Hrun] | [(_ & Hst' & Hout) | (_ & c & f & e & Hc & _ & _ & Hrun)]].
    - rewrite Hrun. now apply IH.
    - destruct (run_operation network fuel base_url swagger st p m op)
        as [st' [[]| | |]]; cbn [fst snd] in *; subst; try exact Hst.
      congruence.
    - rewrite Hrun. apply IH. cbn [calls].
      rewrite forallb_app, Hst. cbn. now rewrite Hc. }
  now apply H.
Qed.

(** X17: when the main loop completes, it has made one call, written one file
    and appended one manifest entry for each operation whose method is
    allowed, in the order listed; each file is named after its method and
    path, and each manifest entry describes the file written with it. *)
Theorem run_operations_complete (fuel : nat) (base_url : string)
        (swagger : pyval) (ops : list (string * string * pyval))
        (st : run_state) :
  run_operations network fuel base_url swagger empty_run ops = (st, Ret tt) ->
  List.length (calls st) = executed ops
  /\ map fst (files st)
     = map (fun o => output_filename (snd (fst o)) (fst (fst o)))
           (filter (fun o => one_of (lower (snd (fst o))) ALLOWED_METHODS) ops)
  /\ Forall2 entry_of_file (files st) (manifest st).
Proof.
  assert (forall st0 st1,
             run_operations network fuel base_url swagger st0 ops
             = (st1, Ret tt) ->
             exists cs fs es,
               calls st1 = (calls st0 ++ cs)%list
               /\ files st1 = (files st0 ++ fs)%list
               /\ manifest st1 = (manifest st0 ++ es)%list
               /\ List.length cs = executed ops
               /\ map fst fs
                  = map (fun o => output_filename (snd (fst o)) (fst (fst o)))
                        (filter (fun o => one_of (lower (snd (fst o)))
                                                 ALLOWED_METHODS) ops)
               /\ Forall2 entry_of_file fs es) as H.
  { unfold executed.
    induction ops as [|[[p m] op] ops IH]; intros st0 st1 Hrun.
    - cbn in Hrun. injection Hrun as <-. exists [], [], [].
      rewrite !app_nil_r. repeat split. constructor.
    - cbn [run_operations] in Hrun. cbn [filter fst snd].
      destruct (run_operation_cases fuel base_url swagger st0 p m op)
        as [[Ha Hop] | [(Ha & Hst' & Hout)
                       | (Ha & c & f & e & Hc & Hfe & Hname & Hop)]].
      + rewrite Hop in Hrun. rewrite Ha. now apply IH.
      + destruct (run_operation network fuel base_url swagger st0 p m op)
          as [st' [[]| | |]]; cbn [fst snd] in *; try discriminate.
        congruence.
      + rewrite Hop in Hrun. rewrite Ha.
        destruct (IH _ _ Hrun) as (cs & fs & es & H1 & H2 & H3 & H4 & H5 & H6).
        cbn [calls files manifest] in H1, H2, H3.
        exists (c :: cs), (f :: fs), (e :: es).
        rewrite H1, H2, H3, <- !app_assoc. cbn [app List.length map].
        rewrite H4, H5, Hname. repeat split. now constructor. }
  intro Hrun. destruct (H _ _ Hrun) as (cs & fs & es & H1 & H2 & H3 & H4 & H5 & H6).
  cbn [empty_run calls files manifest app] in H1, H2, H3.
  rewrite H1, H2, H3. now repeat split.
Qed.

(** X18: an exception raised while a request is built ends the loop at once:
    the operations before it are done, nothing is done for it or for the
    operations after it, and the exception leaves the loop. *)
Theorem run_operations_stops_at_exception
        (fuel : nat) (base_url : string) (swagger : pyval)
        (ops1 ops2 : list (string * string * pyval))
        (path method : string) (op : pyval) (e : exn) (st st1 : run_state) :
  run_operations network fuel base_url swagger st ops1 = (st1, Ret tt) ->
  one_of (lower method) ALLOWED_METHODS = true ->
  build_request_for_operation fuel base_url path method op swagger = Raise e ->
  run_operations network fuel base_url swagger st
                 (ops1 ++ (path, method, op) :: ops2)
  = (st1, Raise e).
Proof.
  intros H1 Ha Hb.
  rewrite (run_operations_append _ _ _ _ _ _ _ H1).
  cbn [run_operations].
  now rewrite (run_operation_raises _ _ _ _ _ _ _ _ Ha Hb).
Qed.

End Running.

Lemma run_operations_complete_witness :
  List.length
    (calls (fst (@run_operations example_runtime
                   (fun _ => Response 200 [] (Some (PList [PInt 1])) "[1]")
                   1 "https://h" (PDict []) empty_run
                   [("/a", "get", PDict [("summary", PStr "A")]);
                    ("/a", "post", PDict []);
                    ("/b", "get", PDict [])])))
  = executed [("/a", "get", PDict [("summary", PStr "A")]);
              ("/a", "post", PDict []);
              ("/b", "get", PDict [])]
  /\ map fst
         (files (fst (@run_operations example_runtime
                        (fun _ => Response 200 [] (Some (PList [PInt 1])) "[1]")
                        1 "https://h" (PDict []) empty_run
                        [("/a", "get", PDict [("summary", PStr "A")]);
                         ("/a", "post", PDict []);
                         ("/b", "get", PDict [])])))
     = map (fun o => output_filename (snd (fst o)) (fst (fst o)))
           (filter (fun o => one_of (lower (snd (fst o))) ALLOWED_METHODS)
                   [("/a", "get", PDict [("summary", PStr "A")]);
                    ("/a", "post", PDict []);
                    ("/b", "get", PDict [])])
  /\ Forall2 entry_of_file
       (files (fst (@run_operations example_runtime
                      (fun _ => Response 200 [] (Some (PList [PInt 1])) "[1]")
                      1 "https://h" (PDict []) empty_run
                      [("/a", "get", PDict [("summary", PStr "A")]);
                       ("/a", "post", PDict []);
                       ("/b", "get", PDict [])])))
       (manifest (fst (@run_operations example_runtime
                         (fun _ => Response 200 [] (Some (PList [PInt 1])) "[1]")
                         1 "https://h" (PDict []) empty_run
                         [("/a", "get", PDict [("summary", PStr "A")]);
                          ("/a", "post", PDict []);
                          ("/b", "get", PDict [])]))).
Proof.
  apply (@run_operations_complete example_runtime
           (fun _ => Response 200 [] (Some (PList [PInt 1])) "[1]")
           1 "https://h" (PDict [])
           [("/a", "get", PDict [("summary", PStr "A")]);
            ("/a", "post", PDict []);
            ("/b", "get", PDict [])]).
  vm_compute. reflexivity.
Defined.

Lemma run_operations_stops_at_exception_witness :
  @run_operations example_runtime (fun _ => Failed "unreachable")
     2 "https://h" (PDict []) empty_run
     ([] ++ ("/a", "get",
             PDict [("parameters",
                     PList [PDict [("name", PStr "kind"); ("in", PStr "query");
                                   ("schema",
                                    PDict [("type", PStr "string");
                                           ("enum", PList [])])]])])
         :: [("/b", "get", PDict [])])
  = (empty_run, Raise IndexError).
Proof.
  exact (@run_operations_stops_at_exception example_runtime
           (fun _ => Failed "unreachable") 2 "https://h" (PDict [])
           [] [("/b", "get", PDict [])] "/a" "get"
           (PDict [("parameters",
                    PList [PDict [("name", PStr "kind"); ("in", PStr "query");
                                  ("schema",
                                   PDict [("type", PStr "string");
                                          ("enum", PList [])])]])])
           IndexError empty_run empty_run eq_refl eq_refl eq_refl).
Defined.

(* ================================================================== *)
(** * Further properties of the request builder *)
(* ================================================================== *)

Section BuilderRules.

Context {rt : Runtime}.

(** X19: the definitions table of a document: [components.schemas] when the
    document has it, else [definitions], else an empty table; the OpenAPI 3
    table wins when both are present. *)
Theorem find_definitions_precedence (sw : list (string * pyval)) :
  (forall c, lookup "components" sw = Some c -> is_dict c = true) ->
  find_definitions (PDict sw)
  = Ret (match lookup "components" sw with
         | Some (PDict c) =>
             match lookup "schemas" c with
             | Some schemas => schemas
             | None => match lookup "definitions" sw with
                       | Some defs => defs
                       | None => PDict []
                       end
             end
         | _ => match lookup "definitions" sw with
                | Some defs => defs
                | None => PDict []
                end
         end).
Proof.
  intro Hc. unfold find_definitions, contains, getitem.
  destruct (lookup "definitions" sw) as [defs|]; cbn [bind];
    (destruct (lookup "components" sw) as [c|]; cbn [bind]; [| reflexivity];
     specialize (Hc c eq_refl); destruct c; try discriminate Hc;
     cbn [bind]; destruct (lookup "schemas" d); reflexivity).
Qed.

(** What one parameter does to the headers and to the query parameters. *)
Lemma add_parameter_maps (fuel : nat) (definitions : pyval)
      (st st' : locals) (p : pyval) :
  add_parameter fuel definitions st p = Ret st' ->
  ((forall n, declared_in "header" n p = false) ->
   l_headers st' = l_headers st)
  /\ (forall n, declared_in "header" n p = true ->
                exists v, l_headers st' = dict_set n v (l_headers st))
  /\ ((forall n, declared_in "query" n p = false) ->
      l_params st' = l_params st)
  /\ (forall n, declared_in "query" n p = true ->
                exists v, l_params st' = dict_set n v (l_params st)).
Proof.
  unfold add_parameter. destruct p; cbn [get bind]; try discriminate.
  unfold declared_in.
  destruct (parameter_sample fuel definitions (PDict d)) as [sample| | |];
    cbn [bind]; try discriminate.
  set (p_in := match lookup "in" d with Some v => v | None => PNone end).
  set (name := match lookup "name" d with Some v => v | None => PNone end).
  assert (forall place n,
             match lookup "in" d, lookup "name" d with
             | Some i, Some nm => eq_str i place && eq_str nm n
             | _, _ => false
             end = true ->
             p_in = PStr place /\ name = PStr n) as Hdecl.
  { intros place n H. subst p_in name.
    destruct (lookup "in" d) as [i|]; [| discriminate].
    destruct (lookup "name" d) as [nm|]; [| discriminate].
    apply andb_true_iff in H as [Hi Hn].
    apply eq_str_true in Hi, Hn. now subst. }
  assert (forall place n,
             p_in = PStr place -> name = PStr n ->
             match lookup "in" d, lookup "name" d with
             | Some i, Some nm => eq_str i place && eq_str nm n
             | _, _ => false
             end = true) as Hdecl'.
  { intros place n Hi Hn. subst p_in name.
    destruct (lookup "in" d) as [i|]; [| discriminate].
    destruct (lookup "name" d) as [nm|]; [| discriminate].
    subst. cbn. now rewrite !String.eqb_refl. }
  destruct (eq_str p_in "path") eqn:Epath.
  { apply eq_str_true in Epath.
    destruct name; try discriminate. intro H. injection H as <-.
    cbn [l_headers l_params]. split; [| split; [| split]].
    - reflexivity.
    - intros n Hn. exfalso. destruct (Hdecl _ _ Hn) as [Hi _]. congruence.
    - reflexivity.
    - intros n Hn. exfalso. destruct (Hdecl _ _ Hn) as [Hi _]. congruence. }
  destruct (eq_str p_in "query") eqn:Equery.
  { apply eq_str_true in Equery.
    destruct name; cbn [as_key bind]; try discriminate.
    intro H. injection H as <-. cbn [l_headers l_params].
    split; [| split; [| split]].
    - reflexivity.
    - intros n Hn. exfalso. destruct (Hdecl _ _ Hn) as [Hi _]. congruence.
    - intro Hnone. specialize (Hnone s).
      rewrite (Hdecl' "query" s Equery eq_refl) in Hnone. discriminate.
    - intros n Hn. destruct (Hdecl _ _ Hn) as [_ Hnm].
      injection Hnm as ->. now exists sample. }
  destruct (eq_str p_in "header") eqn:Eheader.
  { apply eq_str_true in Eheader.
    destruct name; cbn [as_key bind]; try discriminate.
    intro H. injection H as <-. cbn [l_headers l_params].
    split; [| split; [| split]].
    - intro Hnone. specialize (Hnone s).
      rewrite (Hdecl' "header" s Eheader eq_refl) in Hnone. discriminate.
    - intros n Hn. destruct (Hdecl _ _ Hn) as [_ Hnm].
      injection Hnm as ->. now exists sample.
    - reflexivity.
    - intros n Hn. exfalso. destruct (Hdecl _ _ Hn) as [Hi _]. congruence. }
  assert (forall n, match lookup "in" d, lookup "name" d with
                    | Some i, Some nm => eq_str i "header" && eq_str nm n
                    | _, _ => false
                    end = true -> False) as Hnh.
  { intros n Hn. destruct (Hdecl _ _ Hn) as [Hi _]. rewrite Hi in Eheader.
    discriminate. }
  assert (forall n, match lookup "in" d, lookup "name" d with
                    | Some i, Some nm => eq_str i "query" && eq_str nm n
                    | _, _ => false
                    end = true -> False) as Hnq.
  { intros n Hn. destruct (Hdecl _ _ Hn) as [Hi _]. rewrite Hi in Equery.
    discriminate. }
  intro H.
  assert (l_headers st' = l_headers st /\ l_params st' = l_params st)
    as [Hh Hp].
  { destruct (eq_str p_in "body"); [injection H as <-; now split |].
    destruct (eq_str p_in "formData"); [| injection H as <-; now split].
    unfold set_form_field in H.
    destruct (is_none (l_body st)); cbn [l_body l_fresh l_url l_params
                                              l_headers] in H.
    - destruct (as_key name); cbn [bind] in H; try discriminate.
      injection H as <-. now split.
    - destruct (l_body st); try discriminate.
      + destruct name; discriminate.
      + destruct (as_key name); cbn [bind] in H; try discriminate.
        destruct (l_fresh st); [| discriminate].
        injection H as <-. now split. }
  split; [| split; [| split]].
  - intros _. exact Hh.
  - intros n Hn. exfalso. exact (Hnh n Hn).
  - intros _. exact Hp.
  - intros n Hn. exfalso. exact (Hnq n Hn).
Qed.

Lemma declared_in_cases (place : string) (p : pyval) :
  (forall n, declared_in place n p = false)
  \/ (exists n, declared_in place n p = true
                /\ forall n', declared_in place n' p = true -> n' = n).
Proof.
  unfold declared_in. destruct p; try (left; reflexivity).
  destruct (lookup "in" d) as [i|]; [| left; reflexivity].
  destruct (lookup "name" d) as [nm|]; [| left; reflexivity].
  destruct (eq_str i place); [| left; reflexivity]. cbn [andb].
  destruct nm; try (left; reflexivity).
  right. exists s. cbn [eq_str]. split; [apply String.eqb_refl |].
  intros n' H. apply String.eqb_eq in H. now subst.
Qed.

Section MapOfParameters.

Variable place : string.
Variable proj : locals -> list (string * pyval).
Variables (fuel : nat) (definitions : pyval).

Hypothesis Hstep :
  forall st st' p,
    add_parameter fuel definitions st p = Ret st' ->
    ((forall n, declared_in place n p = false) -> proj st' = proj st)
    /\ (forall n, declared_in place n p = true ->
                  exists v, proj st' = dict_set n v (proj st)).

Lemma add_parameters_map (ps : list pyval) :
  forall st st' k,
    add_parameters fuel definitions st ps = Ret st' ->
    (existsb (declared_in place k) ps = true ->
     exists v, lookup k (proj st') = Some v)
    /\ (existsb (declared_in place k) ps = false ->
        lookup k (proj st') = lookup k (proj st)).
Proof.
  induction ps as [|p ps IH]; intros st st' k H; cbn [add_parameters] in H.
  - injection H as <-. cbn. split; [discriminate | reflexivity].
  - destruct (add_parameter fuel definitions st p) as [st1| | |] eqn:E;
      cbn [bind] in H; try discriminate.
    destruct (IH _ _ k H) as [IHt IHf].
    destruct (Hstep _ _ _ E) as [Hnone Hsome].
    cbn [existsb].
    destruct (existsb (declared_in place k) ps) eqn:Eps.
    + rewrite orb_true_r. split; [intros _; now apply IHt | discriminate].
    + rewrite orb_false_r. rewrite (IHf eq_refl). split.
      * intro Hk. destruct (Hsome k Hk) as [v ->].
        exists v. now rewrite lookup_dict_set, String.eqb_refl.
      * intro Hk.
        destruct (declared_in_cases place p) as [Hno | (n & Hn & Huniq)].
        -- now rewrite (Hnone Hno).
        -- destruct (Hsome n Hn) as [v ->]. rewrite lookup_dict_set.
           destruct (n =? k) eqn:Enk; [| reflexivity].
           apply String.eqb_eq in Enk. subst n. congruence.
Qed.

End MapOfParameters.

Lemma build_request_locals (fuel : nat) (base_url path method : string)
      (operation swagger definitions : pyval) (ps : list pyval) (req : request) :
  build_request_for_operation fuel base_url path method operation swagger
  = Ret req ->
  find_definitions swagger = Ret definitions ->
  get operation "parameters" (PList []) = Ret (PList ps) ->
  exists st,
    add_parameters fuel definitions
      {| l_url := urljoin (base_url ++ "/") (lstrip "/" path);
         l_params := []; l_headers := GLOBAL_HEADERS;
         l_body := PNone; l_fresh := false |} ps = Ret st
    /\ headers req = l_headers st
    /\ params req = l_params st
    /\ request_body fuel definitions operation (l_body st) = Ret (json req).
Proof.
  unfold build_request_for_operation. intros H Hdefs Hps.
  rewrite Hdefs, Hps in H. cbn [bind iterate] in H.
  destruct (add_parameters fuel definitions _ ps) as [st| | |] eqn:E;
    cbn [bind] in H; try discriminate.
  destruct (request_body fuel definitions operation (l_body st)) eqn:Eb;
    cbn [bind] in H; try discriminate.
  injection H as <-. exists st. now repeat split.
Qed.

Lemma header_step (fuel : nat) (definitions : pyval)
      (st st' : locals) (p : pyval) :
  add_parameter fuel definitions st p = Ret st' ->
  ((forall n, declared_in "header" n p = false) ->
   l_headers st' = l_headers st)
  /\ (forall n, declared_in "header" n p = true ->
                exists v, l_headers st' = dict_set n v (l_headers st)).
Proof.
  intro H. destruct (add_parameter_maps _ _ _ _ _ H) as (A & B & _ & _).
  now split.
Qed.

Lemma query_step (fuel : nat) (definitions : pyval)
      (st st' : locals) (p : pyval) :
  add_parameter fuel definitions st p = Ret st' ->
  ((forall n, declared_in "query" n p = false) ->
   l_params st' = l_params st)
  /\ (forall n, declared_in "query" n p = true ->
                exists v, l_params st' = dict_set n v (l_params st)).
Proof.
  intro H. destruct (add_parameter_maps _ _ _ _ _ H) as (_ & _ & C & D).
  now split.
Qed.

(** X20: the built request always has an [Accept] header; it is
    [application/json] unless the operation declares a header parameter
    of that name, whose sample then takes its place. *)
Theorem build_request_accept_header
        (fuel : nat) (base_url path method : string)
        (operation swagger definitions : pyval) (ps : list pyval)
        (req : request) :
  build_request_for_operation fuel base_url path method operation swagger
  = Ret req ->
  find_definitions swagger = Ret definitions ->
  get operation "parameters" (PList []) = Ret (PList ps) ->
  (exists v, lookup "Accept" (headers req) = Some v)
  /\ (existsb (declared_in "header" "Accept") ps = false ->
      lookup "Accept" (headers req) = Some (PStr "application/json")).
Proof.
  intros Hbuild Hdefs Hps.
  destruct (build_request_locals _ _ _ _ _ _ _ _ _ Hbuild Hdefs Hps)
    as (st & Hadd & -> & _ & _).
  destruct (add_parameters_map "header" l_headers fuel definitions
              (header_step fuel definitions) ps _ st "Accept" Hadd)
    as [Ht Hf].
  cbn [l_headers] in Hf.
  destruct (existsb (declared_in "header" "Accept") ps).
  - split; [now apply Ht | discriminate].
  - rewrite (Hf eq_refl). split; [eexists |]; reflexivity.
Qed.

(** X21: the query parameters of the built request are exactly the names the
    operation declares [in: query]. *)
Theorem build_request_query_names
        (fuel : nat) (base_url path method : string)
        (operation swagger definitions : pyval) (ps : list pyval)
        (req : request) (name : string) :
  build_request_for_operation fuel base_url path method operation swagger
  = Ret req ->
  find_definitions swagger = Ret definitions ->
  get operation "parameters" (PList []) = Ret (PList ps) ->
  lookup name (params req) <> None
  <-> existsb (declared_in "query" name) ps = true.
Proof.
  intros Hbuild Hdefs Hps.
  destruct (build_request_locals _ _ _ _ _ _ _ _ _ Hbuild Hdefs Hps)
    as (st & Hadd & _ & -> & _).
  destruct (add_parameters_map "query" l_params fuel definitions
              (query_step fuel definitions) ps _ st name Hadd)
    as [Ht Hf].
  cbn [l_params lookup] in Hf.
  destruct (existsb (declared_in "query" name) ps).
  - destruct (Ht eq_refl) as [v ->]. split; [reflexivity | discriminate].
  - rewrite (Hf eq_refl). split; [congruence | discriminate].
Qed.

(** X22: an OpenAPI 3 [requestBody] with an [application/json] entry decides
    the body of the built request: it is the synthesis of that entry's
    schema, whatever body the parameters had assembled. *)
Theorem build_request_body_from_request_body
        (fuel : nat) (base_url path method : string)
        (op rb content entry : list (string * pyval))
        (swagger definitions : pyval) (req : request) :
  build_request_for_operation fuel base_url path method (PDict op) swagger
  = Ret req ->
  find_definitions swagger = Ret definitions ->
  lookup "requestBody" op = Some (PDict rb) ->
  lookup "content" rb = Some (PDict content) ->
  lookup "application/json" content = Some (PDict entry) ->
  make_sample_body_from_schema fuel
    (match lookup "schema" entry with Some s => s | None => PNone end)
    definitions
  = Ret (json req).
Proof.
  intros Hbuild Hdefs Hrb Hcontent Hentry.
  unfold build_request_for_operation in Hbuild.
  rewrite Hdefs in Hbuild. cbn [bind] in Hbuild.
  destruct (get (PDict op) "parameters" (PList [])) as [parameters| | |];
    cbn [bind] in Hbuild; try discriminate.
  destruct (iterate parameters) as [ps| | |]; cbn [bind] in Hbuild;
    try discriminate.
  destruct (add_parameters fuel definitions _ ps) as [st| | |];
    cbn [bind] in Hbuild; try discriminate.
  unfold request_body, contains, getitem, get in Hbuild.
  rewrite Hrb in Hbuild. cbn [bind] in Hbuild.
  rewrite Hcontent in Hbuild. cbn [bind] in Hbuild.
  rewrite Hentry in Hbuild. cbn [bind] in Hbuild.
  destruct (make_sample_body_from_schema fuel _ definitions) as [body| | |];
    cbn [bind] in Hbuild; try discriminate.
  injection Hbuild as <-. reflexivity.
Qed.

End BuilderRules.

Lemma find_definitions_precedence_witness :
  @find_definitions
    (PDict [("definitions", PDict [("Old", PDict [])]);
            ("components", PDict [("schemas", PDict [("New", PDict [])])])])
  = Ret (PDict [("New", PDict [])]).
Proof.
  apply (find_definitions_precedence
           [("definitions", PDict [("Old", PDict [])]);
            ("components", PDict [("schemas", PDict [("New", PDict [])])])]).
  intros c H. vm_compute in H. injection H as <-. reflexivity.
Defined.

Lemma build_request_accept_header_witness :
  (exists v,
      lookup "Accept"
             (headers {| url := "https://h/a"; method := "GET";
                         headers := [("Accept", PStr "sample")];
                         params := []; json := PNone |}) = Some v)
  /\ (existsb (declared_in "header" "Accept")
              [PDict [("name", PStr "Accept"); ("in", PStr "header");
                      ("type", PStr "string")]] = false ->
      lookup "Accept"
             (headers {| url := "https://h/a"; method := "GET";
                         headers := [("Accept", PStr "sample")];
                         params := []; json := PNone |})
      = Some (PStr "application/json")).
Proof.
  exact (@build_request_accept_header example_runtime 1 "https://h" "/a" "get"
           (PDict [("parameters",
                    PList [PDict [("name", PStr "Accept"); ("in", PStr "header");
                                  ("type", PStr "string")]])])
           (PDict []) (PDict [])
           [PDict [("name", PStr "Accept"); ("in", PStr "header");
                   ("type", PStr "string")]]
           {| url := "https://h/a"; method := "GET";
              headers := [("Accept", PStr "sample")];
              params := []; json := PNone |}
           eq_refl eq_refl eq_refl).
Defined.

Lemma build_request_query_names_witness :
  lookup "date"
         (params {| url := "https://h/a"; method := "GET";
                    headers := GLOBAL_HEADERS;
                    params := [("date", PStr "20240102")]; json := PNone |})
  <> None
  <-> existsb (declared_in "query" "date")
              [PDict [("name", PStr "date"); ("in", PStr "query");
                      ("format", PStr "date")]] = true.
Proof.
  exact (@build_request_query_names example_runtime 1 "https://h" "/a" "get"
           (PDict [("parameters",
                    PList [PDict [("name", PStr "date"); ("in", PStr "query");
                                  ("format", PStr "date")]])])
           (PDict []) (PDict [])
           [PDict [("name", PStr "date"); ("in", PStr "query");
                   ("format", PStr "date")]]
           {| url := "https://h/a"; method := "GET";
              headers := GLOBAL_HEADERS;
              params := [("date", PStr "20240102")]; json := PNone |}
           "date" eq_refl eq_refl eq_refl).
Defined.

Lemma build_request_body_from_request_body_witness :
  @make_sample_body_from_schema example_runtime 2
    (match lookup "schema" [("schema", PDict [("type", PStr "integer")])] with
     | Some s => s
     | None => PNone
     end) (PDict [])
  = Ret (json {| url := "https://h/a"; method := "POST";
                 headers := GLOBAL_HEADERS; params := [];
                 json := PInt 1 |}).
Proof.
  exact (@build_request_body_from_request_body example_runtime 2
           "https://h" "/a" "post"
           [("parameters",
             PList [PDict [("name", PStr "payload"); ("in", PStr "body");
                           ("schema", PDict [("type", PStr "boolean")])]]);
            ("requestBody",
             PDict [("content",
                     PDict [("application/json",
                             PDict [("schema",
                                     PDict [("type", PStr "integer")])])])])]
           [("content",
             PDict [("application/json",
                     PDict [("schema", PDict [("type", PStr "integer")])])])]
           [("application/json",
             PDict [("schema", PDict [("type", PStr "integer")])])]
           [("schema", PDict [("type", PStr "integer")])]
           (PDict []) (PDict [])
           {| url := "https://h/a"; method := "POST";
              headers := GLOBAL_HEADERS; params := []; json := PInt 1 |}
           eq_refl eq_refl eq_refl eq_refl eq_refl).
Defined.

(* ================================================================== *)
(** * The base URL of a document *)
(* ================================================================== *)

Section SuffixPattern.

Lemma chars_append (a b : string) :
  list_ascii_of_string (a ++ b)
  = (list_ascii_of_string a ++ list_ascii_of_string b)%list.
Proof. induction a as [|c a IH]; simpl; [reflexivity | now rewrite IH]. Qed.

Lemma strip_prefix_some (lit s rest : string) :
  strip_prefix lit s = Some rest -> s = lit ++ rest.
Proof.
  revert s. induction lit as [|c lit IH]; intros s H; cbn in H.
  - now injection H as <-.
  - destruct s as [|c' s]; [discriminate |].
    destruct (Ascii.eqb c c') eqn:E; [| discriminate].
    apply Ascii.eqb_eq in E. subst c'. cbn. f_equal. now apply IH.
Qed.

Lemma run_alt {A : Type} (r1 r2 : regex) (s : string) (g : option string)
      (k : string -> option string -> option A) (a : A) :
  run (Alt r1 r2) s g k = Some a ->
  run r1 s g k = Some a \/ run r2 s g k = Some a.
Proof. cbn [run]. destruct (run r1 s g k); auto. Qed.

Lemma run_cls {A : Type} (p : ascii -> bool) (s : string) (g : option string)
      (k : string -> option string -> option A) (a : A) :
  run (Cls p) s g k = Some a ->
  exists c rest, s = String c rest /\ p c = true /\ k rest g = Some a.
Proof.
  cbn [run]. destruct s as [|c rest]; [discriminate |].
  destruct (p c) eqn:E; [| discriminate]. intro H. now exists c, rest.
Qed.

Lemma run_lit {A : Type} (lit s : string) (g : option string)
      (k : string -> option string -> option A) (a : A) :
  run (Lit lit) s g k = Some a ->
  exists rest, s = lit ++ rest /\ k rest g = Some a.
Proof.
  cbn [run]. destruct (strip_prefix lit s) as [rest|] eqn:E; [| discriminate].
  intro H. exists rest. split; [now apply strip_prefix_some | exact H].
Qed.

Lemma run_eos {A : Type} (s : string) (g : option string)
      (k : string -> option string -> option A) (a : A) :
  run Eos s g k = Some a ->
  s = "" \/ s = String newline "".
Proof.
  cbn [run]. destruct s as [|c [|c' s]]; [auto | | discriminate].
  destruct (Ascii.eqb c newline) eqn:E; [| discriminate].
  apply Ascii.eqb_eq in E. subst. auto.
Qed.

Lemma run_cat {A : Type} (r1 r2 : regex) (s : string) (g : option string)
      (k : string -> option string -> option A) :
  run (Cat r1 r2) s g k = run r1 s g (fun s' g' => run r2 s' g' k).
Proof. reflexivity. Qed.

Ltac one_char H c r Hc :=
  rewrite ?run_cat in H;
  apply run_cls in H as (c & r & -> & Hc & H);
  cbv beta in H.

(** What [.] consumes: one byte, or several ending in a continuation
    byte. *)
Lemma dot_consumes {A : Type} (s : string) (g : option string)
      (k : string -> option string -> option A) (a : A) :
  run dot s g k = Some a ->
  exists x rest,
    s = x ++ rest /\ k rest g = Some a
    /\ ((exists c, x = String c "")
        \/ (exists y c, x = y ++ String c ""
                        /\ continuation_byte c = true)).
Proof.
  unfold dot. intro H.
  apply run_alt in H as [H | H].
  { apply run_cls in H as (c & rest & -> & _ & Hk).
    exists (String c ""), rest. repeat split; eauto. }
  apply run_alt in H as [H | H].
  { one_char H c1 r1 H1. one_char H c2 r2 H2.
    exists (String c1 (String c2 "")), r2. repeat split; [exact H |].
    right. now exists (String c1 ""), c2. }
  apply run_alt in H as [H | H].
  { one_char H c1 r1 H1. one_char H c2 r2 H2. one_char H c3 r3 H3.
    exists (String c1 (String c2 (String c3 ""))), r3.
    repeat split; [exact H |].
    right. now exists (String c1 (String c2 "")), c3. }
  one_char H c1 r1 H1. one_char H c2 r2 H2. one_char H c3 r3 H3.
  one_char H c4 r4 H4.
  exists (String c1 (String c2 (String c3 (String c4 "")))), r4.
  repeat split; [exact H |].
  right. now exists (String c1 (String c2 (String c3 ""))), c4.
Qed.

(** The pattern matches nowhere but at the suffix itself. *)
Lemma suffix_not_before (u : string) :
  u <> "" -> match_at swagger_json_suffix (u ++ "/swagger.json") = None.
Proof.
  intro Hu. unfold match_at.
  destruct (run swagger_json_suffix (u ++ "/swagger.json") None
                (fun rest g => Some (rest, g))) as [a|] eqn:E;
    [exfalso | reflexivity].
  unfold swagger_json_suffix in E. rewrite run_cat in E.
  apply run_lit in E as (s1 & Hs & E). rewrite run_cat in E.
  apply dot_consumes in E as (x & s2 & -> & E & Hx). rewrite run_cat in E.
  apply run_lit in E as (s3 & -> & E).
  apply run_eos in E.
  apply (f_equal list_ascii_of_string) in Hs.
  rewrite !chars_append in Hs.
  change (list_ascii_of_string "/swagger.json")
    with (list_ascii_of_string "/swagger" ++ ["."%char]
          ++ list_ascii_of_string "json")%list in Hs.
  destruct E as [-> | ->].
  - cbn [list_ascii_of_string] in Hs. rewrite app_nil_r in Hs.
    rewrite !app_assoc in Hs. apply app_inv_tail in Hs.
    destruct Hx as [[c ->] | (y & c & -> & Hc)].
    + cbn [list_ascii_of_string] in Hs.
      apply app_inj_tail in Hs as [Hs _].
      apply (f_equal (@List.length ascii)) in Hs.
      rewrite length_app in Hs. cbn in Hs.
      destruct u; [contradiction | cbn in Hs; lia].
    + rewrite chars_append in Hs. cbn [list_ascii_of_string] in Hs.
      rewrite !app_assoc in Hs. apply app_inj_tail in Hs as [_ Hs].
      subst c. discriminate.
  - replace (list_ascii_of_string "/swagger"
             ++ list_ascii_of_string x
             ++ list_ascii_of_string "json"
             ++ list_ascii_of_string (String newline ""))%list
      with ((list_ascii_of_string "/swagger"
             ++ list_ascii_of_string x
             ++ list_ascii_of_string "json") ++ [newline])%list in Hs
      by (now rewrite <- !app_assoc).
    replace (list_ascii_of_string u
             ++ list_ascii_of_string "/swagger" ++ ["."%char]
             ++ list_ascii_of_string "json")%list
      with ((list_ascii_of_string u
             ++ list_ascii_of_string "/swagger" ++ ["."%char]
             ++ list_ascii_of_string "jso") ++ ["n"%char])%list in Hs
      by (now rewrite <- !app_assoc).
    apply app_inj_tail in Hs as [_ Hs]. discriminate.
Qed.

Lemma sub_suffix (u : string) :
  forall fuel, (length u + 13 < fuel)%nat ->
               sub_from fuel swagger_json_suffix "" (u ++ "/swagger.json") = u.
Proof.
  induction u as [|c u IH]; intros fuel Hfuel.
  - destruct fuel as [|[|fuel]]; [lia | reflexivity | reflexivity].
  - destruct fuel as [|fuel]; [lia |].
    cbn [sub_from]. rewrite (suffix_not_before (String c u)) by discriminate.
    cbn [append]. f_equal. apply IH. simpl in Hfuel. lia.
Qed.

(** Stripping the suffix [/swagger.json] from a document URL that ends
    with it leaves what comes before. *)
Lemma strip_swagger_json (base : string) :
  re_sub swagger_json_suffix "" (base ++ "/swagger.json") = base.
Proof.
  unfold re_sub. apply sub_suffix. rewrite length_append. simpl. lia.
Qed.

End SuffixPattern.

Section BaseUrl.

Context {rt : Runtime}.

(** X23: a Swagger 2 document with a [host]: the base URL is the scheme, the
    host and the base path; the scheme is the first of [schemes], or
    [https] when there is none, and a missing base path counts as empty. *)
Theorem discover_base_url_host
        (sw : list (string * pyval)) (scheme host basePath swagger_url : string) :
  lookup "servers" sw = None ->
  lookup "host" sw = Some (PStr host) -> host <> "" ->
  (lookup "basePath" sw = Some (PStr basePath)
   \/ lookup "basePath" sw = None /\ basePath = "") ->
  ((exists others, lookup "schemes" sw = Some (PList (PStr scheme :: others)))
   \/ (lookup "schemes" sw = None \/ lookup "schemes" sw = Some (PList []))
      /\ scheme = "https") ->
  discover_base_url (PDict sw) swagger_url
  = Ret (PStr (scheme ++ "://" ++ host ++ basePath)).
Proof.
  intros Hservers Hhost Hne Hbase Hschemes.
  destruct host as [|c host]; [contradiction |].
  unfold discover_base_url, contains, getitem, get.
  rewrite Hservers, Hhost. cbn [bind].
  assert (str (if truthy match lookup "basePath" sw with
                          | Some v => v | None => PNone end
               then match lookup "basePath" sw with
                    | Some v => v | None => PNone end
               else PStr "") = basePath) as Hb.
  { destruct Hbase as [-> | [-> ->]]; [| reflexivity].
    cbn. now destruct basePath. }
  destruct Hschemes as [[others ->] | [[-> | ->] ->]];
    cbn [truthy first_of first bind String.eqb negb str];
    rewrite Hb; reflexivity.
Qed.

(** X24: a document with neither servers nor host, fetched from a URL ending in
    [/swagger.json]: the base URL is that URL without the suffix. *)
Theorem discover_base_url_fallback
        (sw : list (string * pyval)) (base : string) :
  lookup "servers" sw = None ->
  lookup "host" sw = None ->
  lookup "schemes" sw = None ->
  discover_base_url (PDict sw) (base ++ "/swagger.json") = Ret (PStr base).
Proof.
  intros Hservers Hhost Hschemes.
  unfold discover_base_url, contains, getitem, get.
  rewrite Hservers, Hhost, Hschemes. cbn [bind truthy].
  now rewrite strip_swagger_json.
Qed.

End BaseUrl.

Lemma discover_base_url_host_witness :
  @discover_base_url example_runtime
    (PDict [("swagger", PStr "2.0"); ("host", PStr "openapi.twse.com.tw");
            ("basePath", PStr "/v1"); ("schemes", PList [PStr "https"])])
    "https://openapi.twse.com.tw/v1/swagger.json"
  = Ret (PStr ("https" ++ "://" ++ "openapi.twse.com.tw" ++ "/v1")).
Proof.
  refine (@discover_base_url_host example_runtime
            [("swagger", PStr "2.0"); ("host", PStr "openapi.twse.com.tw");
             ("basePath", PStr "/v1"); ("schemes", PList [PStr "https"])]
            "https" "openapi.twse.com.tw" "/v1"
            "https://openapi.twse.com.tw/v1/swagger.json"
            eq_refl eq_refl _ (or_introl eq_refl)
            (or_introl (ex_intro _ [] eq_refl))).
  discriminate.
Defined.

Lemma discover_base_url_fallback_witness :
  @discover_base_url example_runtime
    (PDict [("openapi", PStr "3.0.0"); ("paths", PDict [])])
    ("https://openapi.taifex.com.tw" ++ "/swagger.json")
  = Ret (PStr "https://openapi.taifex.com.tw").
Proof.
  exact (@discover_base_url_fallback example_runtime
           [("openapi", PStr "3.0.0"); ("paths", PDict [])]
           "https://openapi.taifex.com.tw" eq_refl eq_refl eq_refl).
Defined.

(* ================================================================== *)
(** * The listing aggregator: summaries, labels and persisted files *)
(* ================================================================== *)

Section Aggregator.

Import GenerateFilelist.

Context {rt : Runtime}.

Lemma in_dict_set (k k' : string) (v v' : pyval) (d : list (string * pyval)) :
  In (k', v') (dict_set k v d) -> (k', v') = (k, v) \/ In (k', v') d.
Proof.
  induction d as [|[k0 v0] d IH]; cbn [dict_set].
  - intros [H | []]. now left.
  - destruct (k0 =? k).
    + intros [H | H]; [now left | right; now right].
    + intros [H | H]; [right; now left |].
      destruct (IH H) as [Hk | Hd]; [now left | right; now right].
Qed.

Lemma keys_dict_set (k : string) (v : pyval) (d : list (string * pyval)) :
  map fst (dict_set k v d) = map fst d
  \/ (~ In k (map fst d) /\ map fst (dict_set k v d) = (map fst d ++ [k])%list).
Proof.
  induction d as [|[k0 v0] d IH]; simpl.
  - right. split; [intros [] | reflexivity].
  - destruct (k0 =? k) eqn:E; simpl.
    + apply String.eqb_eq in E. subst. now left.
    + destruct IH as [IH | [Hn IH]]; rewrite IH; [now left |].
      right. split; [| reflexivity].
      intros [H | H]; [| contradiction]. subst.
      now rewrite String.eqb_refl in E.
Qed.

Lemma nodup_dict_set (k : string) (v : pyval) (d : list (string * pyval)) :
  NoDup (map fst d) -> NoDup (map fst (dict_set k v d)).
Proof.
  intro Hd. destruct (keys_dict_set k v d) as [-> | [Hn ->]]; [exact Hd |].
  apply NoDup_app; [exact Hd | repeat constructor; intros [] |].
  intros x Hx [<- | []]. contradiction.
Qed.

Lemma add_summary_keeps (m m' : list (string * pyval)) (e : pyval) :
  add_summary m e = Ret m' ->
  NoDup (map fst m) ->
  (forall k v, In (k, v) m -> k <> "" /\ truthy v = true) ->
  NoDup (map fst m')
  /\ forall k v, In (k, v) m' -> k <> "" /\ truthy v = true.
Proof.
  unfold add_summary. intros H Hnd Hall.
  destruct e; try (injection H as <-; now split).
  destruct (truthy (or_else (field d "file") (field d "path"))
            && truthy (field d "summary")) eqn:E;
    [| injection H as <-; now split].
  apply andb_true_iff in E as [Hf Hs].
  destruct (or_else (field d "file") (field d "path")) as [| | | |n| |];
    cbn [summary_key bind] in H; try discriminate.
  injection H as <-. split; [now apply nodup_dict_set |].
  intros k v Hin. apply in_dict_set in Hin as [Heq | Hin]; [| now apply Hall].
  injection Heq as -> ->. split; [| exact Hs].
  intros ->. discriminate.
Qed.

Lemma add_summaries_keeps (entries : list pyval) :
  forall m m',
    add_summaries m entries = Ret m' ->
    NoDup (map fst m) ->
    (forall k v, In (k, v) m -> k <> "" /\ truthy v = true) ->
    NoDup (map fst m')
    /\ forall k v, In (k, v) m' -> k <> "" /\ truthy v = true.
Proof.
  induction entries as [|e entries IH]; intros m m' H Hnd Hall;
    cbn [add_summaries] in H.
  - injection H as <-. now split.
  - destruct (add_summary m e) as [m1| | |] eqn:E; cbn [bind] in H;
      try discriminate.
    destruct (add_summary_keeps _ _ _ E Hnd Hall) as [Hnd1 Hall1].
    now apply (IH m1).
Qed.

Lemma get_summary_map_entries_ok (loaded : option pyval)
      (m : list (string * pyval)) :
  get_summary_map loaded = Ret m ->
  NoDup (map fst m)
  /\ forall k v, In (k, v) m -> k <> "" /\ truthy v = true.
Proof.
  unfold get_summary_map. intro H.
  apply (add_summaries_keeps _ [] m H); [constructor | intros k v []].
Qed.

(** X25: the summary map built from a manifest has no empty file name and no
    empty summary: every file name in it is a non-empty string, met once,
    and every summary is truthy. *)
Theorem get_summary_map_entries (loaded : option pyval)
        (m : list (string * pyval)) :
  get_summary_map loaded = Ret m ->
  NoDup (map fst m)
  /\ forall k v, In (k, v) m -> k <> "" /\ truthy v = true.
Proof. apply get_summary_map_entries_ok. Qed.

(** X26: the label of a listed file: its summary from the manifest followed by
    the file name in brackets when the manifest gives it one, the bare
    file name when it gives none. *)
Theorem display_of_summary_map (loaded : option pyval)
        (m : list (string * pyval)) (name : string) :
  get_summary_map loaded = Ret m ->
  (lookup name m = None -> display (field m name) name = name)
  /\ (forall summary,
         lookup name m = Some summary ->
         display (field m name) name
         = SwaggerAPI.str summary ++ " (" ++ name ++ ")").
Proof.
  intro H. destruct (get_summary_map_entries_ok loaded m H) as [_ Hall].
  unfold display, field. split.
  - intros ->. reflexivity.
  - intros summary Hl. rewrite Hl.
    destruct (Hall name summary (lookup_in _ _ _ Hl)) as [_ ->].
    reflexivity.
Qed.

Lemma add_summaries_append (l1 l2 : list pyval) :
  forall m m1,
    add_summaries m l1 = Ret m1 ->
    add_summaries m (l1 ++ l2) = add_summaries m1 l2.
Proof.
  induction l1 as [|e l1 IH]; intros m m1 H; cbn [add_summaries app] in *.
  - now injection H as <-.
  - destruct (add_summary m e) as [m'| | |]; cbn [bind] in *;
      try discriminate.
    now apply IH.
Qed.

Lemma output_filename_not_empty (method path : string) :
  truthy (PStr (output_filename method path)) = true.
Proof.
  unfold output_filename. cbn [truthy].
  destruct (upper method); reflexivity.
Qed.

(** X27: the manifest written by the executor is read back by the aggregator:
    a manifest entry appended for an operation gives its file the
    operation's summary in the summary map when that summary is truthy,
    and changes nothing when the operation has none. *)
Theorem get_summary_map_of_manifest_entry
        (entries : list pyval) (m : list (string * pyval))
        (path method : string) (operationId summary status_code : pyval) :
  get_summary_map (Some (PList entries)) = Ret m ->
  get_summary_map
    (Some (PList (entries
                  ++ [manifest_entry (output_filename method path) path method
                                     operationId summary status_code])))
  = Ret (if truthy summary
         then dict_set (output_filename method path) summary m
         else m).
Proof.
  unfold get_summary_map. cbn [safe_load_json manifest_entries]. intro H.
  rewrite (add_summaries_append _ _ _ _ H).
  cbn [add_summaries add_summary manifest_entry field lookup String.eqb
       Ascii.eqb Bool.eqb or_else].
  unfold or_else. rewrite !output_filename_not_empty.
  destruct (truthy summary); reflexivity.
Qed.

Lemma ends_with_append (a suffix : string) :
  ends_with suffix (a ++ suffix) = true.
Proof.
  induction a as [|c a IH].
  - destruct suffix; cbn; [reflexivity |].
    now rewrite Ascii.eqb_refl, String.eqb_refl.
  - cbn [append ends_with]. rewrite IH.
    now destruct (String c (a ++ suffix) =? suffix).
Qed.

Lemma lower_append (a b : string) : lower (a ++ b) = lower a ++ lower b.
Proof. induction a as [|c a IH]; cbn; [reflexivity | now rewrite IH]. Qed.

(** X28: every file the executor writes gets a listing entry: its name ends in
    [.json] and is not the manifest's. *)
Theorem output_filename_is_listed (method path : string) :
  In method LISTED_METHODS ->
  is_listed (output_filename method path) = true.
Proof.
  intro Hm. unfold is_listed, output_filename.
  apply andb_true_iff. split.
  - replace (upper method ++ "_" ++ sanitize_filename path ++ ".json")
      with ((upper method ++ "_" ++ sanitize_filename path) ++ ".json")
      by (now rewrite !append_assoc).
    rewrite lower_append. apply ends_with_append.
  - cbn in Hm.
    destruct Hm as [<- | [<- | [<- | [<- | [<- | []]]]]]; reflexivity.
Qed.

(** X29: the record count of a file the executor wrote for a GET request: the
    length of the JSON array the server answered with, and [0] when the
    request failed or the answer is anything else; it is never null. *)
Theorem count_of_persisted_get
        (network : http_call -> http_reply) (req : request)
        (path method : string) (operationId summary : pyval) :
  SwaggerAPI.method req = "GET" ->
  count (Some (endpoint_record path method operationId summary req
                               (snd (execute_request network req))))
  = match network {| c_verb := GET; c_url := url req;
                     c_headers := headers req; c_params := params req;
                     c_json := None |} with
    | Response _ _ (Some (PList body)) _ =>
        PInt (Z.of_nat (List.length body))
    | _ => PInt 0
    end.
Proof.
  intro Hm. unfold execute_request. rewrite Hm. cbn [String.eqb Ascii.eqb
                                                     Bool.eqb snd].
  destruct (network _) as [message | status hdrs [[]|] text]; reflexivity.
Qed.

End Aggregator.

Lemma get_summary_map_entries_witness :
  NoDup (map fst [("GET__a.json", PStr "second")])
  /\ forall k v, In (k, v) [("GET__a.json", PStr "second")] ->
                 k <> "" /\ truthy v = true.
Proof.
  exact (get_summary_map_entries
           (Some (PDict [("files",
                          PList [PDict [("file", PStr "GET__a.json");
                                        ("summary", PStr "first")];
                                 PDict [("file", PStr "POST__b.json");
                                        ("summary", PStr "")];
                                 PStr "stray";
                                 PDict [("path", PStr "GET__a.json");
                                        ("summary", PStr "second")]])]))
           [("GET__a.json", PStr "second")] eq_refl).
Defined.

Lemma display_of_summary_map_witness :
  (lookup "GET__b.json" [("GET__a.json", PStr "Daily quotes")] = None ->
   @GenerateFilelist.display example_runtime
     (GenerateFilelist.field [("GET__a.json", PStr "Daily quotes")] "GET__b.json")
     "GET__b.json" = "GET__b.json")
  /\ (forall summary,
         lookup "GET__b.json" [("GET__a.json", PStr "Daily quotes")]
         = Some summary ->
         @GenerateFilelist.display example_runtime
           (GenerateFilelist.field [("GET__a.json", PStr "Daily quotes")] "GET__b.json")
           "GET__b.json"
         = @SwaggerAPI.str example_runtime summary
             ++ " (" ++ "GET__b.json" ++ ")").
Proof.
  exact (@display_of_summary_map example_runtime
           (Some (PList [PDict [("file", PStr "GET__a.json");
                                ("summary", PStr "Daily quotes")]]))
           [("GET__a.json", PStr "Daily quotes")] "GET__b.json" eq_refl).
Defined.

Lemma get_summary_map_of_manifest_entry_witness :
  GenerateFilelist.get_summary_map
    (Some (PList ([PDict [("file", PStr "GET__a.json");
                          ("summary", PStr "Daily quotes")]]
                  ++ [manifest_entry (output_filename "get" "/b") "/b" "get"
                                     PNone (PStr "Indices") (PInt 200)])))
  = Ret (if truthy (PStr "Indices")
         then dict_set (output_filename "get" "/b") (PStr "Indices")
                       [("GET__a.json", PStr "Daily quotes")]
         else [("GET__a.json", PStr "Daily quotes")]).
Proof.
  exact (get_summary_map_of_manifest_entry
           [PDict [("file", PStr "GET__a.json");
                   ("summary", PStr "Daily quotes")]]
           [("GET__a.json", PStr "Daily quotes")]
           "/b" "get" PNone (PStr "Indices") (PInt 200) eq_refl).
Defined.

Lemma output_filename_is_listed_witness :
  GenerateFilelist.is_listed (output_filename "delete" "/v1/orders/{id}") = true.
Proof.
  apply output_filename_is_listed. simpl. auto 10.
Defined.

Lemma count_of_persisted_get_witness :
  GenerateFilelist.count (Some (endpoint_record "/a" "get" PNone (PStr "A")
                 {| url := "https://h/a"; method := "GET";
                    headers := GLOBAL_HEADERS; params := []; json := PNone |}
                 (snd (execute_request
                         (fun _ => Response 200 []
                                     (Some (PList [PInt 1; PInt 2])) "[1, 2]")
                         {| url := "https://h/a"; method := "GET";
                            headers := GLOBAL_HEADERS; params := [];
                            json := PNone |}))))
  = PInt 2.
Proof.
  exact (count_of_persisted_get
           (fun _ => Response 200 [] (Some (PList [PInt 1; PInt 2])) "[1, 2]")
           {| url := "https://h/a"; method := "GET";
              headers := GLOBAL_HEADERS; params := []; json := PNone |}
           "/a" "get" PNone (PStr "A") eq_refl).
Defined.
